(** * SUBARUU: a line-numbered BASIC interpreter (src/subaruu.cc)

    Shallow embedding of the statement/expression evaluator and of its
    line-number control flow.  The interpreter object becomes a record, its
    member functions become computations in a state-and-exception monad
    over that record, and every loop or recursion is indexed by fuel.

    The lexical scanner (include/tokenizer.h) is an external collaborator:
    it enters as a type class of operations, so every theorem of the main
    section holds for any scanner.  A concrete scanner, [TraceTok], replays
    a recorded sequence of scanner observations; it is used to run the
    interpreter on concrete programs. *)

From Stdlib Require Import ZArith String Ascii DecimalString List Lia.
From stdpp Require Import gmap strings.

Local Open Scope Z_scope.

(** ** Machine integers and characters *)

Definition INT_MIN : Z := -2147483648.
Definition INT_MAX : Z := 2147483647.

Definition in_int (z : Z) : Prop := INT_MIN <= z <= INT_MAX.

(** Two's-complement wrap-around of a 32-bit [int]. *)
Definition wrap (z : Z) : Z := (z + 2147483648) mod 4294967296 - 2147483648.

(** [std::to_string(int)] and [std::cout << int]: signed decimal. *)
Definition to_string (z : Z) : string := NilZero.string_of_int (Z.to_int z).

(** [std::tolower] in the C locale. *)
Definition is_upper (c : ascii) : bool :=
  (65 <=? nat_of_ascii c)%nat && (nat_of_ascii c <=? 90)%nat.

Definition is_lower (c : ascii) : bool :=
  (97 <=? nat_of_ascii c)%nat && (nat_of_ascii c <=? 122)%nat.

Definition is_alpha (c : ascii) : bool := is_upper c || is_lower c.

Definition tolower (c : ascii) : ascii :=
  if is_upper c then ascii_of_nat (nat_of_ascii c + 32) else c.

Definition b2z (b : bool) : Z := if b then 1 else 0.

(** What ends the run when an [int] division overflows. *)
Definition division_trap : string := "SIGFPE".

(** [std::endl] written to a stream. *)
Definition endl : string := String (ascii_of_nat 10) EmptyString.

Definition space : string := " ".

(** ** Token kinds and payloads *)

(** Modelled from the spec: the enumeration [Tokenizer::TokenType] of
    include/tokenizer.h, with the kinds listed in the external-interface
    section and the spellings used by src/subaruu.cc. *)
Inductive TokenType : Set :=
| NUMBER | LETTER | STRING | SEPARATOR
| PLUS | MINUS | ASTERISK | SLASH
| EQUAL | LT | GT | LT_EQ | GT_EQ | NOT_EQUAL
| LEFT_PAREN | RIGHT_PAREN
| EOL | EOF_TOKEN
| LET | IF | THEN | GOTO | PRINT | REM.

#[global] Instance TokenType_eq_dec : EqDecision TokenType.
Proof. solve_decision. Defined.

(** The [std::variant<char, int>] returned by [get_token_data]. *)
Inductive TokenData : Set :=
| DChar (c : ascii)
| DNum (n : Z).

(** Modelled from the spec: the severities [E_ERROR] and [E_WARNING] of
    include/common.h. *)
Inductive ErrorCode : Set := E_ERROR | E_WARNING.

#[global] Instance ErrorCode_eq_dec : EqDecision ErrorCode.
Proof. solve_decision. Defined.

(** ** The scanner interface *)

Module Tokenizer.

(** Modelled from the spec: the member functions of class [Tokenizer] that
    src/subaruu.cc calls, over an abstract scanner state [T]. *)
Class Ops (T : Type) : Type := {
  current_token : T -> TokenType;
  next_token : T -> T;
  reset : T -> T;
  finished : T -> bool;
  peek_char : T -> ascii;
  get_num : T -> Z;
  get_string : T -> string;
  get_token_data : T -> TokenData;
  skip_to_eol : T -> T;
  token_to_string : T -> TokenType -> string
}.

End Tokenizer.

(** ** A scanner that replays recorded observations *)

Module TraceTok.

(** Modelled from the spec: an implementation of the scanner interface of
    include/tokenizer.h.  A cell is what the scanner reports while it
    stands on one token: the token kind, its payloads, the raw character
    after it, and whether the scanner considers itself finished there. *)
Record cell : Type := mkCell {
  tok : TokenType;
  data : TokenData;
  str : string;
  peek : ascii;
  fin : bool
}.

Record t : Type := mk {
  program : list cell;
  pending : list cell
}.

Definition nul : ascii := ascii_of_nat 0.

Definition current_token (s : t) : TokenType :=
  match pending s with
  | c :: _ => tok c
  | [] => EOF_TOKEN
  end.

Definition next_token (s : t) : t :=
  mk (program s) (tail (pending s)).

Definition reset (s : t) : t := mk (program s) (program s).

Definition finished (s : t) : bool :=
  match pending s with
  | c :: _ => fin c
  | [] => true
  end.

Definition peek_char (s : t) : ascii :=
  match pending s with
  | c :: _ => peek c
  | [] => nul
  end.

(** A [LETTER] cell always reports an alphabetic character. *)
Definition as_letter (d : TokenData) : ascii :=
  match d with
  | DChar c => if is_alpha c then c else "a"%char
  | DNum _ => "a"%char
  end.

Definition get_token_data (s : t) : TokenData :=
  match pending s with
  | c :: _ => if decide (tok c = LETTER) then DChar (as_letter (data c))
              else data c
  | [] => DNum 0
  end.

Definition get_num (s : t) : Z :=
  match pending s with
  | c :: _ => match data c with
              | DNum n => n
              | DChar _ => 0
              end
  | [] => 0
  end.

Definition get_string (s : t) : string :=
  match pending s with
  | c :: _ => str c
  | [] => EmptyString
  end.

Fixpoint drop_line (l : list cell) : list cell :=
  match l with
  | [] => []
  | c :: r => if decide (tok c = EOL) then r else drop_line r
  end.

Definition skip_to_eol (s : t) : t := mk (program s) (drop_line (pending s)).

Definition token_to_string (_ : t) (k : TokenType) : string :=
  match k with
  | NUMBER => "NUMBER" | LETTER => "LETTER" | STRING => "STRING"
  | SEPARATOR => "SEPARATOR" | PLUS => "PLUS" | MINUS => "MINUS"
  | ASTERISK => "ASTERISK" | SLASH => "SLASH" | EQUAL => "EQUAL"
  | LT => "LT" | GT => "GT" | LT_EQ => "LT_EQ" | GT_EQ => "GT_EQ"
  | NOT_EQUAL => "NOT_EQUAL" | LEFT_PAREN => "LEFT_PAREN"
  | RIGHT_PAREN => "RIGHT_PAREN" | EOL => "EOL" | EOF_TOKEN => "EOF"
  | LET => "LET" | IF => "IF" | THEN => "THEN" | GOTO => "GOTO"
  | PRINT => "PRINT" | REM => "REM"
  end.

#[global] Instance ops : Tokenizer.Ops t := {|
  Tokenizer.current_token := current_token;
  Tokenizer.next_token := next_token;
  Tokenizer.reset := reset;
  Tokenizer.finished := finished;
  Tokenizer.peek_char := peek_char;
  Tokenizer.get_num := get_num;
  Tokenizer.get_string := get_string;
  Tokenizer.get_token_data := get_token_data;
  Tokenizer.skip_to_eol := skip_to_eol;
  Tokenizer.token_to_string := token_to_string
|}.

(** Cells for the common tokens; [p] is the raw character that follows. *)
Definition num (n : Z) (p : ascii) : cell := mkCell NUMBER (DNum n) EmptyString p false.
Definition letter (c : ascii) (p : ascii) : cell := mkCell LETTER (DChar c) EmptyString p false.
Definition text (s : string) (p : ascii) : cell := mkCell STRING (DNum 0) s p false.
Definition sym (k : TokenType) (p : ascii) : cell := mkCell k (DNum 0) EmptyString p false.
Definition eof : cell := mkCell EOF_TOKEN (DNum 0) EmptyString nul true.

(** A scanner freshly constructed on a recorded program. *)
Definition load (p : list cell) : t := mk p p.

End TraceTok.

(** ** Sample programs *)

Module Samples.

Import TraceTok.

Definition sp : ascii := " "%char.
Definition nl : ascii := ascii_of_nat 10.

(** [5 7] *)
Definition two_numbers : list cell :=
  [num 5 sp; num 7 nl; sym EOL nul; eof].

(** [3 20] followed by a newline: 20 looks like a line number. *)
Definition value_then_line : list cell :=
  [num 3 sp; num 20 nl; sym EOL nul; eof].

(** [7 / 0] *)
Definition divide_by_zero : list cell :=
  [num 7 sp; sym SLASH sp; num 0 nl; sym EOL nul; eof].

(** [7 / 2] *)
Definition divide_by_two : list cell :=
  [num 7 sp; sym SLASH sp; num 2 nl; sym EOL nul; eof].


(** [GOTO 15] on a line of its own. *)
Definition goto_fifteen : list cell :=
  [sym GOTO sp; num 15 nl; sym EOL nul; eof].

(** [GOTO 10] on a line of its own: 10 enters the line index although no
    line starts with it. *)
Definition goto_ten : list cell :=
  [sym GOTO sp; num 10 nl; sym EOL nul; eof].

(** [GOTO 10] and then line 10, [10 REM]. *)
Definition goto_then_ten : list cell :=
  [sym GOTO sp; num 10 nl; sym EOL nul;
   num 10 sp; sym REM nl; sym EOL nul; eof].

(** [IF 0 THEN 100] and a next line [PRINT 1]. *)
Definition if_false : list cell :=
  [sym IF sp; num 0 sp; sym THEN sp; num 100 nl; sym EOL nul;
   sym PRINT sp; num 1 nl; sym EOL nul; eof].

(** [10 IF 1 THEN 30], [20 PRINT 1], [30 PRINT 2]. *)
Definition if_true : list cell :=
  [num 10 sp; sym IF sp; num 1 sp; sym THEN sp; num 30 nl; sym EOL nul;
   num 20 sp; sym PRINT sp; num 1 nl; sym EOL nul;
   num 30 sp; sym PRINT sp; num 2 nl; sym EOL nul; eof].

(** [PRINT - 5]: a minus sign cannot start an item. *)
Definition print_minus : list cell :=
  [sym PRINT sp; sym MINUS sp; num 5 nl; sym EOL nul; eof].

(** [PRINT "HI" 5] *)
Definition print_hi_5 : list cell :=
  [sym PRINT sp; text "HI" sp; num 5 nl; sym EOL nul; eof].

(** [LET B = 4] *)
Definition let_b : list cell :=
  [sym LET sp; letter "B" sp; sym EQUAL sp; num 4 nl; sym EOL nul; eof].

(** [c] read as a factor. *)
Definition read_c : list cell :=
  [letter "c" nl; sym EOL nul; eof].


(** [( 4 )] *)
Definition parenthesised : list cell :=
  [sym LEFT_PAREN sp; num 4 sp; sym RIGHT_PAREN nl; sym EOL nul; eof].

(** [2 + 3 * 4] *)
Definition sum_product : list cell :=
  [num 2 sp; sym PLUS sp; num 3 sp; sym ASTERISK sp; num 4 nl;
   sym EOL nul; eof].

(** [9 - 4 - 3] *)
Definition difference_chain : list cell :=
  [num 9 sp; sym MINUS sp; num 4 sp; sym MINUS sp; num 3 nl;
   sym EOL nul; eof].

(** [LET B 4]: the equals sign is missing. *)
Definition let_without_equals : list cell :=
  [sym LET sp; letter "B" sp; num 4 nl; sym EOL nul; eof].

(** [GOTO 10] as the last thing in the file, with no newline. *)
Definition goto_at_end : list cell :=
  [sym GOTO sp; num 10 nul; eof].

(** [IF 1 THEN PRINT] *)
Definition if_without_number : list cell :=
  [sym IF sp; num 1 sp; sym THEN sp; sym PRINT nl; sym EOL nul; eof].

(** [( 0 - 2147483647 - 1 ) / ( 0 - 1 )]: the least [int] divided by -1. *)
Definition overflowing_division : list cell :=
  [sym LEFT_PAREN sp; num 0 sp; sym MINUS sp; num 2147483647 sp;
   sym MINUS sp; num 1 sp; sym RIGHT_PAREN sp; sym SLASH sp;
   sym LEFT_PAREN sp; num 0 sp; sym MINUS sp; num 1 sp; sym RIGHT_PAREN nl;
   sym EOL nul; eof].

(** A line that holds only its number, [10]. *)
Definition label_only : list cell :=
  [num 10 nl; sym EOL nul; eof].

End Samples.

(** ** The interpreter object and its monad *)

Section Interpreter.

Context {T : Type} `{TOps : Tokenizer.Ops T}.

(** The data members of class [SUBARUU], together with the two standard
    streams it writes: [cout] collects the chunks sent to [std::cout] and
    [cerr] the lines sent to [std::cerr], both in emission order. *)
Record SUBARUU : Type := mkSUBARUU {
  tokenizer_ : T;
  variables_ : gmap ascii Z;
  line_positions_ : gmap Z bool;
  execution_finished_ : bool;
  skip_to_line_ : bool;
  target_line_ : Z;
  cout : list string;
  cerr : list string
}.

Definition with_tokenizer (tk : T) (s : SUBARUU) : SUBARUU :=
  mkSUBARUU tk (variables_ s) (line_positions_ s) (execution_finished_ s)
    (skip_to_line_ s) (target_line_ s) (cout s) (cerr s).

Definition with_variables (v : gmap ascii Z) (s : SUBARUU) : SUBARUU :=
  mkSUBARUU (tokenizer_ s) v (line_positions_ s) (execution_finished_ s)
    (skip_to_line_ s) (target_line_ s) (cout s) (cerr s).

Definition with_line_positions (m : gmap Z bool) (s : SUBARUU) : SUBARUU :=
  mkSUBARUU (tokenizer_ s) (variables_ s) m (execution_finished_ s)
    (skip_to_line_ s) (target_line_ s) (cout s) (cerr s).

Definition with_execution_finished (b : bool) (s : SUBARUU) : SUBARUU :=
  mkSUBARUU (tokenizer_ s) (variables_ s) (line_positions_ s) b
    (skip_to_line_ s) (target_line_ s) (cout s) (cerr s).

Definition with_skip (b : bool) (target : Z) (s : SUBARUU) : SUBARUU :=
  mkSUBARUU (tokenizer_ s) (variables_ s) (line_positions_ s)
    (execution_finished_ s) b target (cout s) (cerr s).

Definition with_cout (o : list string) (s : SUBARUU) : SUBARUU :=
  mkSUBARUU (tokenizer_ s) (variables_ s) (line_positions_ s)
    (execution_finished_ s) (skip_to_line_ s) (target_line_ s) o (cerr s).

Definition with_cerr (e : list string) (s : SUBARUU) : SUBARUU :=
  mkSUBARUU (tokenizer_ s) (variables_ s) (line_positions_ s)
    (execution_finished_ s) (skip_to_line_ s) (target_line_ s) (cout s) e.

(** Outcome of a member function: a normal return; an abort of the run,
    which is a thrown [std::runtime_error] (or [std::bad_variant_access])
    carrying its message, or the arithmetic trap of an overflowing
    division, carrying [division_trap]; or exhaustion of the fuel that
    bounds loops and recursion.  Each outcome keeps the interpreter as it
    was at that moment. *)
Inductive Res (A : Type) : Type :=
| Ok (a : A) (s : SUBARUU)
| Throw (msg : string) (s : SUBARUU)
| OutOfFuel (s : SUBARUU).

Arguments Ok {A} a s.
Arguments Throw {A} msg s.
Arguments OutOfFuel {A} s.

Definition M (A : Type) : Type := SUBARUU -> Res A.

Definition ret {A} (a : A) : M A := fun s => Ok a s.

Definition bind {A B} (m : M A) (k : A -> M B) : M B :=
  fun s =>
    match m s with
    | Ok a s' => k a s'
    | Throw msg s' => Throw msg s'
    | OutOfFuel s' => OutOfFuel s'
    end.

Definition throw {A} (msg : string) : M A := fun s => Throw msg s.

Definition out_of_fuel {A} : M A := fun s => OutOfFuel s.

Notation "x <- m ;; k" := (bind m (fun x => k))
  (at level 100, m at next level, right associativity).
Notation "m ;;; k" := (bind m (fun _ => k))
  (at level 100, right associativity).

Definition state_of {A} (r : Res A) : SUBARUU :=
  match r with
  | Ok _ s => s
  | Throw _ s => s
  | OutOfFuel s => s
  end.

(** Reading and driving the scanner. *)
Definition tokenizer : M T := fun s => Ok (tokenizer_ s) s.

Definition variables : M (gmap ascii Z) := fun s => Ok (variables_ s) s.

Definition cur : M TokenType :=
  fun s => Ok (Tokenizer.current_token (tokenizer_ s)) s.

Definition advance : M unit :=
  fun s => Ok tt (with_tokenizer (Tokenizer.next_token (tokenizer_ s)) s).

Definition rewind : M unit :=
  fun s => Ok tt (with_tokenizer (Tokenizer.reset (tokenizer_ s)) s).

Definition put (chunk : string) : M unit :=
  fun s => Ok tt (with_cout (cout s ++ [chunk]) s).

Definition get_token_string (token : TokenType) : M string :=
  fun s => Ok (Tokenizer.token_to_string (tokenizer_ s) token) s.

(** The characters ['a'] to ['z']. *)
Definition letters : list ascii := map ascii_of_nat (seq 97 26).

(** [SUBARUU::SUBARUU]; [tk] is the scanner built from the source text. *)
Definition SUBARUU_new (tk : T) : SUBARUU :=
  mkSUBARUU tk (fold_left (fun m c => <[c := 0]> m) letters ∅) ∅
    false false (-1) [] [].

(** [SUBARUU::finished] *)
Definition finished (s : SUBARUU) : bool := execution_finished_ s.

(** [SUBARUU::dprintf] *)
Definition dprintf (message : string) (errorCode : ErrorCode) : M unit :=
  fun s =>
    if decide (errorCode = E_ERROR)
    then Throw message (with_cerr (cerr s ++ ["ERROR: " ++ message]%string) s)
    else Ok tt (with_cerr (cerr s ++ ["WARNING: " ++ message]%string) s).

(** [SUBARUU::accept] *)
Definition accept (expectedToken : TokenType) : M unit :=
  token <- cur ;;
  (if decide (token <> expectedToken)
   then found <- get_token_string token ;;
        wanted <- get_token_string expectedToken ;;
        dprintf ("*subaruu.cpp: unexpected `" ++ found ++
                 "` expected `" ++ wanted ++ "`")%string E_ERROR
   else ret tt) ;;;
  advance.

(** [next_char == ' ' || next_char == '\n' || next_char == '\r'] *)
Definition is_space_char (c : ascii) : bool :=
  bool_decide (c = " "%char) || bool_decide (c = ascii_of_nat 10)
  || bool_decide (c = ascii_of_nat 13).

(** [SUBARUU::is_valid_line_number] *)
Definition is_valid_line_number (tk : T) (num : Z) : bool :=
  if (10 <=? num) && (Z.rem num 10 =? 0)
  then if Tokenizer.finished tk then true
       else is_space_char (Tokenizer.peek_char tk)
  else false.

(** [SUBARUU::is_statement_end] *)
Definition is_statement_end (token : TokenType) : bool :=
  bool_decide (token = EOL) || bool_decide (token = EOF_TOKEN).

(** [SUBARUU::is_line_number] *)
Definition is_line_number (tk : T) : bool :=
  if decide (Tokenizer.current_token tk <> NUMBER) then false
  else
    let num := Tokenizer.get_num tk in
    if (10 <=? num) && (Z.rem num 10 =? 0)
    then is_space_char (Tokenizer.peek_char tk)
    else false.

(** [SUBARUU::safe_divide].  Only a zero denominator is guarded.  The
    quotient of [INT_MIN] by [-1] does not fit an [int]: the unguarded
    [numerator / denominator] is undefined behaviour there, and the
    division instruction of the compiled program traps, which kills the
    process with no diagnostic; that is the abort with [division_trap]. *)
Definition safe_divide (numerator denominator : Z) : M Z :=
  if denominator =? 0
  then dprintf "*warning: divide by zero" E_WARNING ;;; ret 0
  else if (numerator =? INT_MIN) && (denominator =? -1)
  then throw division_trap
  else ret (wrap (Z.quot numerator denominator)).

(** ** Expression evaluator *)

(** [std::get<char>] on the token payload. *)
Definition get_char (d : TokenData) : M ascii :=
  match d with
  | DChar c => ret c
  | DNum _ => throw "bad_variant_access"
  end.

(** [SUBARUU::factor], with the recursive call to [expression] abstracted. *)
Definition factor_body (expression : M Z) : M Z :=
  tk <- tokenizer ;;
  let token := Tokenizer.current_token tk in
  match token with
  | NUMBER =>
      let result := Tokenizer.get_num tk in
      advance ;;; ret result
  | LETTER =>
      c <- get_char (Tokenizer.get_token_data tk) ;;
      let var_name := tolower c in
      vars <- variables ;;
      let result := default 0 (vars !! var_name) in
      advance ;;; ret result
  | LEFT_PAREN =>
      advance ;;;
      result <- expression ;;
      accept RIGHT_PAREN ;;;
      ret result
  | _ =>
      name <- get_token_string token ;;
      dprintf ("Syntax Error: Unexpected token in factor: " ++ name)%string
        E_ERROR ;;;
      ret 0
  end.

(** The [while] loop of [SUBARUU::term]. *)
Fixpoint term_loop (factor : M Z) (n : nat) (result : Z) (token : TokenType)
  : M Z :=
  match n with
  | O => out_of_fuel
  | S n' =>
      if bool_decide (token = ASTERISK) || bool_decide (token = SLASH)
      then
        advance ;;;
        factor_value <- factor ;;
        result' <- (if decide (token = ASTERISK)
                    then ret (wrap (result * factor_value))
                    else safe_divide result factor_value) ;;
        token' <- cur ;;
        term_loop factor n' result' token'
      else ret result
  end.

(** [SUBARUU::term] *)
Definition term_body (factor : M Z) (n : nat) : M Z :=
  result <- factor ;;
  token <- cur ;;
  term_loop factor n result token.

(** The [while] loop of [SUBARUU::expression]. *)
Fixpoint expression_loop (term : M Z) (n : nat) (result : Z)
  (token : TokenType) : M Z :=
  match n with
  | O => out_of_fuel
  | S n' =>
      if bool_decide (token = PLUS) || bool_decide (token = MINUS)
      then
        advance ;;;
        term_value <- term ;;
        let result' := if decide (token = PLUS)
                       then wrap (result + term_value)
                       else wrap (result - term_value) in
        token' <- cur ;;
        expression_loop term n' result' token'
      else ret result
  end.

(** [SUBARUU::expression] *)
Definition expression_body (term : M Z) (n : nat) : M Z :=
  result <- term ;;
  tk <- tokenizer ;;
  let token := Tokenizer.current_token tk in
  if decide (token = NUMBER)
  then if is_valid_line_number tk (Tokenizer.get_num tk)
       then ret result
       else expression_loop term n result token
  else expression_loop term n result token.

Fixpoint expression (n : nat) : M Z :=
  match n with
  | O => out_of_fuel
  | S n' => expression_body (term_body (factor_body (expression n')) n') n'
  end.

Definition factor (n : nat) : M Z := factor_body (expression n).

Definition term (n : nat) : M Z := term_body (factor n) n.

(** [SUBARUU::relation] *)
Definition is_comparison (token : TokenType) : bool :=
  match token with
  | EQUAL | LT | GT | LT_EQ | GT_EQ | NOT_EQUAL => true
  | _ => false
  end.

Definition compare (op : TokenType) (left right : Z) : M Z :=
  match op with
  | EQUAL => ret (b2z (left =? right))
  | LT => ret (b2z (left <? right))
  | GT => ret (b2z (left >? right))
  | LT_EQ => ret (b2z (left <=? right))
  | GT_EQ => ret (b2z (left >=? right))
  | NOT_EQUAL => ret (b2z (negb (left =? right)))
  | _ => dprintf "Internal Error: Invalid comparison operator" E_ERROR ;;;
         ret 0
  end.

Definition relation (n : nat) : M Z :=
  left <- expression n ;;
  token <- cur ;;
  if is_comparison token
  then
    let op := token in
    advance ;;;
    right <- expression n ;;
    compare op left right
  else ret (b2z (negb (left =? 0))).

(** ** Statement executor *)

(** [SUBARUU::let_statement] (the build without [DEBUG_MODE]). *)
Definition let_statement (n : nat) : M unit :=
  tk <- tokenizer ;;
  let token := Tokenizer.current_token tk in
  if decide (token <> LETTER)
  then dprintf "Syntax Error: Expected variable name" E_ERROR ;;; ret tt
  else
    c <- get_char (Tokenizer.get_token_data tk) ;;
    let var_name := tolower c in
    advance ;;;
    accept EQUAL ;;;
    value <- expression n ;;
    fun s => Ok tt (with_variables (<[var_name := value]> (variables_ s)) s).

(** The inner [while] of [SUBARUU::find_target_line]: skip to the end of
    the current line. *)
Fixpoint skip_line (n : nat) : M unit :=
  match n with
  | O => out_of_fuel
  | S n' =>
      tk <- tokenizer ;;
      if negb (Tokenizer.finished tk)
         && bool_decide (Tokenizer.current_token tk <> EOL)
      then advance ;;; skip_line n'
      else ret tt
  end.

(** [if (current_token() == EOL) next_token();] *)
Definition eat_eol : M unit :=
  token <- cur ;;
  if decide (token = EOL) then advance else ret tt.

(** [SUBARUU::find_target_line] *)
Fixpoint find_target_line (n : nat) (line_number : Z) : M bool :=
  match n with
  | O => out_of_fuel
  | S n' =>
      tk <- tokenizer ;;
      if Tokenizer.finished tk then ret false
      else if bool_decide (Tokenizer.current_token tk = NUMBER)
              && (Tokenizer.get_num tk =? line_number)
      then advance ;;; ret true
      else skip_line n' ;;; eat_eol ;;; find_target_line n' line_number
  end.

(** The jump shared by [if_statement] and [goto_statement]: existence
    check against the line map, reset, rescan. *)
Definition not_found_message (line_number : Z) : string :=
  ("Runtime Error: Line number " ++ to_string line_number ++ " not found")%string.

Definition internal_message (line_number : Z) : string :=
  ("Internal Error: Failed to find valid line number " ++
   to_string line_number)%string.

Definition jump (n : nat) (line_number : Z) : M unit :=
  s <- (fun s => Ok s s) ;;
  match line_positions_ s !! line_number with
  | None => dprintf (not_found_message line_number) E_ERROR ;;; ret tt
  | Some _ =>
      rewind ;;;
      found <- find_target_line n line_number ;;
      if found then ret tt
      else dprintf (internal_message line_number) E_ERROR
  end.

(** [SUBARUU::if_statement] *)
Definition if_statement (n : nat) : M unit :=
  accept IF ;;;
  condition <- relation n ;;
  accept THEN ;;;
  tk <- tokenizer ;;
  if decide (Tokenizer.current_token tk <> NUMBER)
  then dprintf "Syntax Error: Expected line number after THEN" E_ERROR ;;;
       ret tt
  else
    let line_number := Tokenizer.get_num tk in
    advance ;;;
    if negb (condition =? 0)
    then jump n line_number
    else eat_eol.

(** [SUBARUU::goto_statement] *)
Definition goto_statement (n : nat) : M unit :=
  accept GOTO ;;;
  tk <- tokenizer ;;
  let line_number := Tokenizer.get_num tk in
  accept NUMBER ;;;
  accept EOL ;;;
  jump n line_number.

(** The item loop of [SUBARUU::print_statement]; leaving the loop by
    [break], by its condition or by [goto end_print] all return here. *)
Definition emit_space (need_space : bool) : M unit :=
  if need_space then put space else ret tt.

Fixpoint print_loop (expr : M Z) (n : nat) (need_space : bool) : M unit :=
  match n with
  | O => out_of_fuel
  | S n' =>
      tk <- tokenizer ;;
      if Tokenizer.finished tk then ret tt
      else
        let token := Tokenizer.current_token tk in
        if is_statement_end token then ret tt
        else if is_line_number tk then ret tt
        else
          match token with
          | STRING =>
              emit_space need_space ;;;
              put (Tokenizer.get_string tk) ;;;
              advance ;;;
              print_loop expr n' true
          | SEPARATOR =>
              put space ;;;
              advance ;;;
              print_loop expr n' false
          | LETTER | NUMBER | LEFT_PAREN =>
              emit_space need_space ;;;
              value <- expr ;;
              put (to_string value) ;;;
              print_loop expr n' true
          | _ => ret tt
          end
  end.

(** What follows the label [end_print]. *)
Definition print_end : M unit :=
  put endl ;;;
  tk <- tokenizer ;;
  let final_token := Tokenizer.current_token tk in
  if is_line_number tk then ret tt
  else if decide (final_token = EOF_TOKEN)
  then fun s => Ok tt (with_execution_finished true s)
  else if decide (final_token = EOL) then advance
  else ret tt.

(** [SUBARUU::print_statement] *)
Definition print_statement (n : nat) : M unit :=
  accept PRINT ;;;
  print_loop (expression n) n false ;;;
  print_end.

(** [SUBARUU::statement] *)
Definition statement (n : nat) : M unit :=
  token <- cur ;;
  match token with
  | REM => fun s => Ok tt (with_tokenizer (Tokenizer.skip_to_eol (tokenizer_ s)) s)
  | PRINT => print_statement n
  | IF => if_statement n
  | GOTO => goto_statement n
  | LET => accept LET ;;; let_statement n
  | LETTER => let_statement n
  | _ => dprintf "Syntax Error: Unrecognized statement" E_ERROR
  end.

(** ** Run loop and line index *)

(** The blank-line loop of [SUBARUU::line_statement]. *)
Fixpoint skip_blank (n : nat) : M unit :=
  match n with
  | O => out_of_fuel
  | S n' =>
      token <- cur ;;
      if decide (token = EOL) then advance ;;; skip_blank n' else ret tt
  end.

(** [SUBARUU::line_statement] *)
Definition line_statement (n : nat) : M unit :=
  skip_blank n ;;;
  token <- cur ;;
  if decide (token = EOF_TOKEN)
  then fun s => Ok tt (with_execution_finished true s)
  else
    (if decide (token = NUMBER) then advance else ret tt) ;;;
    statement n.

(** The scanning loop of [SUBARUU::build_line_map]. *)
Fixpoint scan_lines (n : nat) : M unit :=
  match n with
  | O => out_of_fuel
  | S n' =>
      tk <- tokenizer ;;
      if Tokenizer.finished tk then ret tt
      else
        (if decide (Tokenizer.current_token tk = NUMBER)
         then
           let value := Tokenizer.get_num tk in
           if is_valid_line_number tk value
           then fun s =>
                  Ok tt (with_line_positions
                           (<[value := true]> (line_positions_ s)) s)
           else ret tt
         else ret tt) ;;;
        advance ;;;
        scan_lines n'
  end.

(** [SUBARUU::build_line_map] *)
Definition build_line_map (n : nat) : M unit :=
  (fun s => Ok tt (with_line_positions ∅ s)) ;;;
  rewind ;;;
  scan_lines n ;;;
  rewind.

(** [SUBARUU::find_linenum] *)
Definition find_linenum (n : nat) (linenum : Z) : M unit :=
  s <- (fun s => Ok s s) ;;
  (if decide (line_positions_ s = ∅) then build_line_map n else ret tt) ;;;
  s <- (fun s => Ok s s) ;;
  match line_positions_ s !! linenum with
  | None => dprintf (not_found_message linenum) E_ERROR ;;; ret tt
  | Some _ => fun s => Ok tt (with_skip true linenum s)
  end.

(** The search loop of [SUBARUU::jump_linenum]. *)
Fixpoint scan_for (n : nat) (linenum : Z) : M bool :=
  match n with
  | O => out_of_fuel
  | S n' =>
      tk <- tokenizer ;;
      if Tokenizer.finished tk then ret false
      else if bool_decide (Tokenizer.current_token tk = NUMBER)
              && (Tokenizer.get_num tk =? linenum)
      then advance ;;; ret true
      else advance ;;; scan_for n' linenum
  end.

(** [SUBARUU::jump_linenum] *)
Definition jump_linenum (n : nat) (linenum : Z) : M unit :=
  s <- (fun s => Ok s s) ;;
  (if decide (line_positions_ s = ∅) then build_line_map n else ret tt) ;;;
  rewind ;;;
  found <- scan_for n linenum ;;
  if found then ret tt
  else dprintf (not_found_message linenum) E_ERROR.

(** One iteration of the [while] loop of [SUBARUU::run]; the result tells
    whether the loop goes on ([false] after [break]). *)
Definition skip_rest_of_line (n : nat) : M unit :=
  skip_line n ;;; eat_eol.

Definition run_iteration (n : nat) : M bool :=
  s <- (fun s => Ok s s) ;;
  let tk := tokenizer_ s in
  if Tokenizer.finished tk
  then (fun s => Ok false (with_execution_finished true s))
  else if skip_to_line_ s
  then
    (if decide (Tokenizer.current_token tk = NUMBER)
     then
       let current_line := Tokenizer.get_num tk in
       if current_line =? target_line_ s
       then (fun s => Ok tt (with_skip false (-1) s)) ;;;
            advance ;;;
            statement n
       else skip_rest_of_line n
     else skip_rest_of_line n) ;;;
    ret true
  else line_statement n ;;; ret true.

Fixpoint run_loop (n : nat) : M unit :=
  match n with
  | O => out_of_fuel
  | S n' =>
      s <- (fun s => Ok s s) ;;
      if finished s then ret tt
      else
        go_on <- run_iteration n' ;;
        if go_on then run_loop n' else ret tt
  end.

(** [SUBARUU::run] *)
Definition run (n : nat) : M unit :=
  build_line_map n ;;;
  run_loop n.

(** ** Specification-side definitions *)


(** The state after exactly one division-by-zero warning. *)
Definition warned (s : SUBARUU) : SUBARUU :=
  with_cerr (cerr s ++ ["WARNING: *warning: divide by zero"%string]) s.

(** The scanner moved one token forward. *)
Definition step (s : SUBARUU) : SUBARUU :=
  with_tokenizer (Tokenizer.next_token (tokenizer_ s)) s.

Definition token_at (s : SUBARUU) : TokenType :=
  Tokenizer.current_token (tokenizer_ s).

(** A computation preserves a relation between the interpreter before it
    and the interpreter at its outcome, whatever that outcome is. *)
Definition preserves {A} (R : SUBARUU -> SUBARUU -> Prop) (m : M A) : Prop :=
  forall s, R s (state_of (m s)).

(** Relations that moving the scanner and writing diagnostics respect. *)
Class ScanFrame (R : SUBARUU -> SUBARUU -> Prop) : Prop := {
  scan_refl : forall s, R s s;
  scan_trans : forall s1 s2 s3, R s1 s2 -> R s2 s3 -> R s1 s3;
  scan_tokenizer : forall s tk, R s (with_tokenizer tk s);
  scan_cerr : forall s e, R s (with_cerr e s)
}.

(** Relations that, in addition, output, the finished flag and the
    line-search flags respect. *)
Class StmtFrame (R : SUBARUU -> SUBARUU -> Prop) : Prop := {
  stmt_scan :: ScanFrame R;
  stmt_cout : forall s o, R s (with_cout o s);
  stmt_finished : forall s b, R s (with_execution_finished b s);
  stmt_skip : forall s b target, R s (with_skip b target s)
}.

(** Only the scanner and the diagnostic stream differ. *)
Definition same_but_scanner (s s' : SUBARUU) : Prop :=
  variables_ s' = variables_ s
  /\ line_positions_ s' = line_positions_ s
  /\ execution_finished_ s' = execution_finished_ s
  /\ skip_to_line_ s' = skip_to_line_ s
  /\ target_line_ s' = target_line_ s
  /\ cout s' = cout s.

(** The line index is the same. *)
Definition same_index (s s' : SUBARUU) : Prop :=
  line_positions_ s' = line_positions_ s.

(** The register of letter [c] is the same. *)
Definition same_register (c : ascii) (s s' : SUBARUU) : Prop :=
  variables_ s' !! c = variables_ s !! c.

(** The variable store holds the lowercase letters and nothing else. *)
Definition store_ok (s : SUBARUU) : Prop :=
  forall c, is_Some (variables_ s !! c) <-> is_lower c = true.

Definition keeps_store (s s' : SUBARUU) : Prop := store_ok s -> store_ok s'.

(** The scanner only hands out alphabetic characters as [LETTER] payload. *)
Definition letter_payload : Prop :=
  forall tk : T,
    Tokenizer.current_token tk = LETTER ->
    exists c, Tokenizer.get_token_data tk = DChar c /\ is_alpha c = true.

(** The letter an assignment starting at the current token stores into. *)
Definition target_letter (s : SUBARUU) : option ascii :=
  match Tokenizer.get_token_data (tokenizer_ s) with
  | DChar c => Some (tolower c)
  | DNum _ => None
  end.

(** The letter the statement starting at the current token assigns, if it
    is an assignment at all. *)
Definition assign_target (s : SUBARUU) : option ascii :=
  match token_at s with
  | LETTER => target_letter s
  | LET => target_letter (step s)
  | _ => None
  end.

(** Line index and finished flag are the same, and so is every register
    other than the one of [target]. *)
Definition same_but_register (target : option ascii) (s s' : SUBARUU) : Prop :=
  line_positions_ s' = line_positions_ s
  /\ execution_finished_ s' = execution_finished_ s
  /\ forall c, target <> Some c -> variables_ s' !! c = variables_ s !! c.

(** The part of [let_statement] that follows the reading of the variable
    name. *)
Definition let_tail (n : nat) (var_name : ascii) : M unit :=
  bind advance (fun _ =>
  bind (accept EQUAL) (fun _ =>
  bind (expression n) (fun value s =>
    Ok tt (with_variables (<[var_name := value]> (variables_ s)) s)))).

(** The scanner after [k] calls of [next_token]. *)
Fixpoint nth_token (k : nat) (tk : T) : T :=
  match k with
  | O => tk
  | S k' => nth_token k' (Tokenizer.next_token tk)
  end.

(** Position [k] after [tk] is a number token of value [v] that satisfies
    [is_valid_line_number], and the scanner is not finished at any position
    up to [k]. *)
Definition line_number_at (tk : T) (k : nat) (v : Z) : Prop :=
  (forall j, (j <= k)%nat -> Tokenizer.finished (nth_token j tk) = false)
  /\ Tokenizer.current_token (nth_token k tk) = NUMBER
  /\ Tokenizer.get_num (nth_token k tk) = v
  /\ is_valid_line_number (nth_token k tk) v = true.

(** What one iteration of the line-index scan does to the interpreter. *)
Definition record_line (s : SUBARUU) : SUBARUU :=
  let tk := tokenizer_ s in
  if bool_decide (Tokenizer.current_token tk = NUMBER)
     && is_valid_line_number tk (Tokenizer.get_num tk)
  then with_line_positions (<[Tokenizer.get_num tk := true]> (line_positions_ s)) s
  else s.

(** The scanner reset to the start of the program. *)
Definition rewound (s : SUBARUU) : SUBARUU :=
  with_tokenizer (Tokenizer.reset (tokenizer_ s)) s.

(** The state in which a fatal error with message [msg] is thrown from [s]. *)
Definition failed (msg : string) (s : SUBARUU) : SUBARUU :=
  with_cerr (cerr s ++ ["ERROR: " ++ msg]%string) s.

(** ** Output items *)

(** What a [PRINT] statement meets between the keyword and the end of its
    item loop: string literals, expression values and separators. *)
Inductive item : Type :=
| IString (text : string)
| IValue (value : Z)
| ISeparator.

Definition is_separator (i : item) : bool :=
  match i with
  | ISeparator => true
  | _ => false
  end.

(** The text an item contributes by itself: a string verbatim, a value in
    decimal, a separator as one space. *)
Definition item_text (i : item) : string :=
  match i with
  | IString text => text
  | IValue value => to_string value
  | ISeparator => space
  end.

(** The output of an item list as the specification words it: every item
    contributes its own text, and one more space goes between two items
    that follow each other with no separator in between. *)
Fixpoint rendered (items : list item) : list string :=
  match items with
  | [] => []
  | i :: rest =>
      item_text i ::
      (match rest with
       | j :: _ => if negb (is_separator i) && negb (is_separator j)
                   then [space] else []
       | [] => []
       end) ++ rendered rest
  end.

(** The output of an item list as the loop produces it, driven by its
    [need_space] flag. *)
Fixpoint emitted (need_space : bool) (items : list item) : list string :=
  match items with
  | [] => []
  | ISeparator :: rest => space :: emitted false rest
  | i :: rest =>
      (if need_space then [space] else []) ++ item_text i :: emitted true rest
  end.

(** Tokens on which the item loop emits something. *)
Definition starts_expression (token : TokenType) : bool :=
  match token with
  | LETTER | NUMBER | LEFT_PAREN => true
  | _ => false
  end.

Definition starts_item (token : TokenType) : bool :=
  match token with
  | STRING | SEPARATOR => true
  | _ => starts_expression token
  end.

(** The scanner positions at which the item loop ends. *)
Definition print_stops (tk : T) : bool :=
  Tokenizer.finished tk
  || is_statement_end (Tokenizer.current_token tk)
  || is_line_number tk
  || negb (starts_item (Tokenizer.current_token tk)).

(** [prints e s items s']: starting at [s], the item loop meets [items], one
    after the other, evaluating expressions with [e], and ends at [s']. *)
Inductive prints (e : M Z) : SUBARUU -> list item -> SUBARUU -> Prop :=
| prints_stop s :
    print_stops (tokenizer_ s) = true ->
    prints e s [] s
| prints_string s items s' :
    print_stops (tokenizer_ s) = false ->
    token_at s = STRING ->
    prints e (step s) items s' ->
    prints e s (IString (Tokenizer.get_string (tokenizer_ s)) :: items) s'
| prints_separator s items s' :
    print_stops (tokenizer_ s) = false ->
    token_at s = SEPARATOR ->
    prints e (step s) items s' ->
    prints e s (ISeparator :: items) s'
| prints_value s value s1 items s' :
    print_stops (tokenizer_ s) = false ->
    starts_expression (token_at s) = true ->
    e s = Ok value s1 ->
    prints e s1 items s' ->
    prints e s (IValue value :: items) s'.

(** A computation that neither reads nor writes the output stream. *)
Definition res_map {A} (f : SUBARUU -> SUBARUU) (r : Res A) : Res A :=
  match r with
  | Ok a s => Ok a (f s)
  | Throw msg s => Throw msg (f s)
  | OutOfFuel s => OutOfFuel (f s)
  end.

Definition ignores_cout {A} (m : M A) : Prop :=
  forall o s, m (with_cout o s) = res_map (with_cout o) (m s).

(** Output appended to the stream. *)
Definition printed (chunks : list string) (s : SUBARUU) : SUBARUU :=
  with_cout (cout s ++ chunks) s.

(** [goto_statement] as the description of the line index has it: when the
    index is found empty at the jump, it is rebuilt before the existence
    check.  The source function [goto_statement] above has no such step;
    the two are compared below. *)
Definition goto_statement_rebuilding (n : nat) : M unit :=
  bind (accept GOTO) (fun _ =>
  bind tokenizer (fun tk =>
  let line_number := Tokenizer.get_num tk in
  bind (accept NUMBER) (fun _ =>
  bind (accept EOL) (fun _ =>
  bind (fun s => Ok s s) (fun s =>
  bind (if decide (line_positions_ s = ∅) then build_line_map n else ret tt)
    (fun _ => jump n line_number)))))).

(** ** Further specification-side definitions *)

(** The output stream is the same. *)
Definition same_cout (s s' : SUBARUU) : Prop := cout s' = cout s.

(** The variable store is the same. *)
Definition same_store (s s' : SUBARUU) : Prop := variables_ s' = variables_ s.

(** Only the scanner differs, and it stands [k] tokens further. *)
Definition moved (k : nat) (s : SUBARUU) : SUBARUU :=
  with_tokenizer (nth_token k (tokenizer_ s)) s.

(** The message [factor] throws on a token that starts no factor. *)
Definition factor_message (s : SUBARUU) : string :=
  ("Syntax Error: Unexpected token in factor: " ++
   Tokenizer.token_to_string (tokenizer_ s) (token_at s))%string.

(** Tokens that continue a term or an expression. *)
Definition is_operator (token : TokenType) : bool :=
  match token with
  | PLUS | MINUS | ASTERISK | SLASH => true
  | _ => false
  end.

(** [reset] returns to the same place wherever the scanner stands. *)
Definition reset_is_absolute : Prop :=
  forall tk : T,
    Tokenizer.reset (Tokenizer.next_token tk) = Tokenizer.reset tk
    /\ Tokenizer.reset (Tokenizer.reset tk) = Tokenizer.reset tk.


(** Tokens that start a statement. *)
Definition starts_statement (token : TokenType) : bool :=
  match token with
  | REM | PRINT | IF | GOTO | LET | LETTER => true
  | _ => false
  end.

Definition unrecognized : string := "Syntax Error: Unrecognized statement".


(** ** Lines of tokens *)

(** From [tk] on there are [len] tokens that are no end of line, then an
    end-of-line token, and the scanner is not finished at any of them. *)
Fixpoint plain_line (len : nat) (tk : T) : Prop :=
  match len with
  | O => Tokenizer.finished tk = false /\ Tokenizer.current_token tk = EOL
  | S len' =>
      Tokenizer.finished tk = false
      /\ Tokenizer.current_token tk <> EOL
      /\ plain_line len' (Tokenizer.next_token tk)
  end.

(** The scanner stands on the number [line]. *)
Definition on_line_number (line : Z) (tk : T) : Prop :=
  Tokenizer.current_token tk = NUMBER /\ Tokenizer.get_num tk = line.

(** From [tk] on come lines of the lengths [lens], none of which starts
    with the number [line], and then a line that does. *)
Fixpoint target_after (lens : list nat) (line : Z) (tk : T) : Prop :=
  match lens with
  | [] => Tokenizer.finished tk = false /\ on_line_number line tk
  | len :: rest =>
      ~ on_line_number line tk
      /\ plain_line len tk
      /\ target_after rest line (nth_token (S len) tk)
  end.

(** The number of tokens in lines of the lengths [lens], ends of line
    included. *)
Fixpoint offset (lens : list nat) : nat :=
  match lens with
  | [] => O
  | len :: rest => (S len + offset rest)%nat
  end.


(** ** Basic facts about the monad and the primitives *)

Lemma bind_Ok {A B} (m : M A) (k : A -> M B) s a s' :
  m s = Ok a s' -> bind m k s = k a s'.
Proof. intros E. unfold bind. now rewrite E. Qed.

Lemma bind_Throw {A B} (m : M A) (k : A -> M B) s msg s' :
  m s = Throw msg s' -> bind m k s = Throw msg s'.
Proof. intros E. unfold bind. now rewrite E. Qed.

Lemma bind_OutOfFuel {A B} (m : M A) (k : A -> M B) s s' :
  m s = OutOfFuel s' -> bind m k s = OutOfFuel s'.
Proof. intros E. unfold bind. now rewrite E. Qed.

Lemma accept_match expected s :
  token_at s = expected -> accept expected s = Ok tt (step s).
Proof.
  intros E. unfold accept, bind, cur. fold (token_at s).
  destruct (decide (token_at s <> expected)) as [N|_]; [contradiction|].
  reflexivity.
Qed.

Lemma accept_mismatch expected s :
  token_at s <> expected ->
  exists msg, accept expected s =
              Throw msg (with_cerr (cerr s ++ ["ERROR: " ++ msg]%string) s).
Proof.
  intros N. unfold accept, bind, cur. fold (token_at s).
  destruct (decide (token_at s <> expected)) as [_|Y]; [|contradiction].
  eexists. reflexivity.
Qed.

Lemma wrap_in_int z : in_int z -> wrap z = z.
Proof.
  unfold in_int, INT_MIN, INT_MAX, wrap. intros Hz.
  rewrite Z.mod_small by lia. lia.
Qed.

Lemma quot_abs_le n d : d <> 0 -> Z.abs (Z.quot n d) <= Z.abs n.
Proof.
  intros Hd. rewrite <- Z.quot_abs by assumption.
  apply Z.quot_le_upper_bound; [lia|]. nia.
Qed.

Lemma quot_in_int n d :
  in_int n -> in_int d -> d <> 0 -> ~ (n = INT_MIN /\ d = -1) ->
  in_int (Z.quot n d).
Proof.
  unfold in_int, INT_MIN, INT_MAX. intros Hn Hd Hd0 Hov.
  pose proof (quot_abs_le n d Hd0) as Hq.
  destruct (Z.eq_dec n (-2147483648)) as [->|Hn1]; [|lia].
  assert (d <> -1) by tauto.
  pose proof (Z.quot_rem' (-2147483648) d) as E.
  split; [lia|].
  destruct (Z_lt_le_dec (Z.quot (-2147483648) d) 2147483648) as [L|G]; [lia|].
  assert (Eq : Z.quot (-2147483648) d = 2147483648) by lia.
  rewrite Eq in E.
  destruct (Z_lt_le_dec 0 d) as [P|N].
  - assert (0 <= Z.quot 2147483648 d) by (apply Z.quot_pos; lia).
    change (-2147483648) with (- (2147483648)) in Eq.
    rewrite Z.quot_opp_l in Eq by lia. lia.
  - assert (d < Z.rem (-2147483648) d <= 0)
      by (apply Z.rem_bound_neg_neg; lia).
    lia.
Qed.

Lemma safe_divide_nonzero n d s :
  d <> 0 -> ~ (n = INT_MIN /\ d = -1) ->
  safe_divide n d s = Ok (wrap (Z.quot n d)) s.
Proof.
  intros Hd Hov. unfold safe_divide.
  destruct ((n =? INT_MIN) && (d =? -1)) eqn:Eov.
  { exfalso. apply Hov. apply andb_true_iff in Eov. destruct Eov as [E1 E2].
    split; [now apply Z.eqb_eq in E1|now apply Z.eqb_eq in E2]. }
  destruct (Z.eqb_spec d 0) as [E|_]; [contradiction|reflexivity].
Qed.

Lemma safe_divide_zero n s : safe_divide n 0 s = Ok 0 (warned s).
Proof. reflexivity. Qed.

Lemma term_unfold n s :
  term n s = bind (factor n) (fun result =>
             bind cur (fun token => term_loop (factor n) n result token)) s.
Proof. reflexivity. Qed.

(** ** Division *)

Lemma safe_divide_overflow s :
  safe_divide INT_MIN (-1) s = Throw division_trap s.
Proof. reflexivity. Qed.

(** C3 (as amended): when the first operand of a term evaluates to [n], the
    next token is a slash and the second operand evaluates to [d], then for
    [d] not zero, the pair [INT_MIN], [-1] apart, the quotient is the
    truncating integer division of [n] by [d] (exactly [Z.quot n d] for
    operands that are machine integers), with no diagnostic; if [d] is zero
    the quotient is 0, exactly one warning line is appended to the
    diagnostic stream and nothing is thrown; in both cases the term loop
    goes on with the quotient as its running value. *)
Theorem division_truncates_or_warns (fuel : nat) (s s1 s2 : SUBARUU) (n d : Z) :
  factor (S fuel) s = Ok n s1 ->
  token_at s1 = SLASH ->
  factor (S fuel) (step s1) = Ok d s2 ->
  (d <> 0 -> ~ (n = INT_MIN /\ d = -1) ->
     safe_divide n d s2 = Ok (wrap (Z.quot n d)) s2
     /\ (in_int n -> in_int d -> wrap (Z.quot n d) = Z.quot n d)
     /\ term (S fuel) s =
        term_loop (factor (S fuel)) fuel (wrap (Z.quot n d)) (token_at s2) s2)
  /\ (d = 0 ->
     safe_divide n d s2 = Ok 0 (warned s2)
     /\ cerr (warned s2) = cerr s2 ++ ["WARNING: *warning: divide by zero"%string]
     /\ term (S fuel) s =
        term_loop (factor (S fuel)) fuel 0 (token_at s2) (warned s2)).
Proof.
  intros Hn Hslash Hd.
  assert (Hterm : forall q s3, safe_divide n d s2 = Ok q s3 ->
            term (S fuel) s =
            term_loop (factor (S fuel)) fuel q (token_at s3) s3).
  { intros q s3 Hq. rewrite term_unfold.
    rewrite (bind_Ok _ _ _ _ _ Hn).
    unfold bind at 1. unfold cur at 1. fold (token_at s1). rewrite Hslash.
    cbn [term_loop bool_decide decide_rel orb].
    change (bool_decide (SLASH = ASTERISK)) with false.
    change (bool_decide (SLASH = SLASH)) with true.
    cbn [orb]. unfold bind at 1. unfold advance at 1. fold (step s1).
    rewrite (bind_Ok _ _ _ _ _ Hd).
    destruct (decide (SLASH = ASTERISK)) as [E|_]; [discriminate|].
    rewrite (bind_Ok _ _ _ _ _ Hq). reflexivity. }
  split.
  - intros Hnz Hov. pose proof (safe_divide_nonzero n d s2 Hnz Hov) as Hq.
    split; [exact Hq|]. split.
    + intros In_n In_d. apply wrap_in_int, quot_in_int; assumption.
    + apply (Hterm _ _ Hq).
  - intros ->. split; [apply safe_divide_zero|]. split; [reflexivity|].
    apply (Hterm _ _ (safe_divide_zero n s2)).
Qed.

(** ** Frame reasoning *)

Lemma preserves_bind {A B} R `{!ScanFrame R} (m : M A) (k : A -> M B) :
  preserves R m -> (forall a, preserves R (k a)) -> preserves R (bind m k).
Proof.
  intros Hm Hk s. unfold bind. specialize (Hm s).
  destruct (m s) as [a s'|msg s'|s']; cbn [state_of] in *; try assumption.
  eapply scan_trans; [exact Hm|apply Hk].
Qed.

Lemma preserves_ret {A} R `{!ScanFrame R} (a : A) : preserves R (ret a).
Proof. intros s. apply scan_refl. Qed.

Lemma preserves_throw {A} R `{!ScanFrame R} msg : preserves R (@throw A msg).
Proof. intros s. apply scan_refl. Qed.

Lemma preserves_out_of_fuel {A} R `{!ScanFrame R} : preserves R (@out_of_fuel A).
Proof. intros s. apply scan_refl. Qed.

Lemma preserves_get R `{!ScanFrame R} : preserves R (fun s => Ok s s).
Proof. intros s. apply scan_refl. Qed.

Lemma preserves_tokenizer R `{!ScanFrame R} : preserves R tokenizer.
Proof. intros s. apply scan_refl. Qed.

Lemma preserves_cur R `{!ScanFrame R} : preserves R cur.
Proof. intros s. apply scan_refl. Qed.

Lemma preserves_variables R `{!ScanFrame R} : preserves R variables.
Proof. intros s. apply scan_refl. Qed.

Lemma preserves_get_token_string R `{!ScanFrame R} token :
  preserves R (get_token_string token).
Proof. intros s. apply scan_refl. Qed.

Lemma preserves_advance R `{!ScanFrame R} : preserves R advance.
Proof. intros s. apply scan_tokenizer. Qed.

Lemma preserves_rewind R `{!ScanFrame R} : preserves R rewind.
Proof. intros s. apply scan_tokenizer. Qed.

Lemma preserves_skip_to_eol R `{!ScanFrame R} :
  preserves R (fun s => Ok tt (with_tokenizer (Tokenizer.skip_to_eol (tokenizer_ s)) s)).
Proof. intros s. apply scan_tokenizer. Qed.

Lemma preserves_dprintf R `{!ScanFrame R} message code :
  preserves R (dprintf message code).
Proof.
  intros s. unfold dprintf. destruct (decide (code = E_ERROR)); apply scan_cerr.
Qed.

Lemma preserves_put R `{!StmtFrame R} chunk : preserves R (put chunk).
Proof. intros s. apply stmt_cout. Qed.

Lemma preserves_set_finished R `{!StmtFrame R} b :
  preserves R (fun s => Ok tt (with_execution_finished b s)).
Proof. intros s. apply stmt_finished. Qed.

Lemma preserves_set_skip R `{!StmtFrame R} b target :
  preserves R (fun s => Ok tt (with_skip b target s)).
Proof. intros s. apply stmt_skip. Qed.

Create HintDb frame.

#[local] Hint Resolve preserves_ret preserves_throw preserves_out_of_fuel
  preserves_get preserves_tokenizer preserves_cur preserves_variables
  preserves_get_token_string
  preserves_advance preserves_rewind preserves_skip_to_eol preserves_dprintf
  preserves_put preserves_set_finished preserves_set_skip stmt_scan : frame.

#[local] Hint Extern 1 (ScanFrame _) => typeclasses eauto : frame.
#[local] Hint Extern 1 (StmtFrame _) => typeclasses eauto : frame.

(** Decompose a computation along its binds and case distinctions. *)
Ltac frame :=
  repeat first
    [ progress cbv zeta
    | solve [auto with frame]
    | apply preserves_bind; [typeclasses eauto | | intros ?]
    | match goal with
      | |- preserves _ (if ?b then _ else _) => destruct b
      | |- preserves _ (match ?x with _ => _ end) => destruct x
      end ].

Lemma preserves_accept R `{!ScanFrame R} expected : preserves R (accept expected).
Proof. unfold accept. frame. Qed.

Lemma preserves_safe_divide R `{!ScanFrame R} n d : preserves R (safe_divide n d).
Proof. unfold safe_divide. frame. Qed.

Lemma preserves_get_char R `{!ScanFrame R} d : preserves R (get_char d).
Proof. unfold get_char. frame. Qed.

#[local] Hint Resolve preserves_accept preserves_safe_divide preserves_get_char
  : frame.

Lemma preserves_factor_body R `{!ScanFrame R} (e : M Z) :
  preserves R e -> preserves R (factor_body e).
Proof. intros He. unfold factor_body. frame. Qed.

Lemma preserves_term_loop R `{!ScanFrame R} (f : M Z) n :
  preserves R f -> forall result token, preserves R (term_loop f n result token).
Proof.
  intros Hf. induction n as [|n IH]; intros result token; cbn [term_loop];
    frame.
Qed.

Lemma preserves_term_body R `{!ScanFrame R} (f : M Z) n :
  preserves R f -> preserves R (term_body f n).
Proof.
  intros Hf. unfold term_body. frame. now apply preserves_term_loop.
Qed.

Lemma preserves_expression_loop R `{!ScanFrame R} (t : M Z) n :
  preserves R t ->
  forall result token, preserves R (expression_loop t n result token).
Proof.
  intros Ht. induction n as [|n IH]; intros result token;
    cbn [expression_loop]; frame.
Qed.

Lemma preserves_expression_body R `{!ScanFrame R} (t : M Z) n :
  preserves R t -> preserves R (expression_body t n).
Proof.
  intros Ht. unfold expression_body. frame;
    now apply preserves_expression_loop.
Qed.

Lemma preserves_expression R `{!ScanFrame R} n : preserves R (expression n).
Proof.
  induction n as [|n IH]; cbn [expression]; [frame|].
  now apply preserves_expression_body, preserves_term_body,
    preserves_factor_body.
Qed.

Lemma preserves_factor R `{!ScanFrame R} n : preserves R (factor n).
Proof. apply preserves_factor_body, preserves_expression; assumption. Qed.

Lemma preserves_term R `{!ScanFrame R} n : preserves R (term n).
Proof. apply preserves_term_body, preserves_factor; assumption. Qed.

Lemma preserves_compare R `{!ScanFrame R} op l r : preserves R (compare op l r).
Proof. unfold compare. frame. Qed.

#[local] Hint Resolve preserves_expression preserves_factor preserves_term
  preserves_compare : frame.

Lemma preserves_relation R `{!ScanFrame R} n : preserves R (relation n).
Proof. unfold relation. frame. Qed.

Lemma preserves_skip_line R `{!ScanFrame R} n : preserves R (skip_line n).
Proof. induction n as [|n IH]; cbn [skip_line]; frame. Qed.

Lemma preserves_eat_eol R `{!ScanFrame R} : preserves R eat_eol.
Proof. unfold eat_eol. frame. Qed.

#[local] Hint Resolve preserves_relation preserves_skip_line preserves_eat_eol
  : frame.

Lemma preserves_find_target_line R `{!ScanFrame R} n line_number :
  preserves R (find_target_line n line_number).
Proof. induction n as [|n IH]; cbn [find_target_line]; frame. Qed.

#[local] Hint Resolve preserves_find_target_line : frame.

Lemma preserves_jump R `{!ScanFrame R} n line_number :
  preserves R (jump n line_number).
Proof. unfold jump. frame. Qed.

#[local] Hint Resolve preserves_jump : frame.

Lemma preserves_if_statement R `{!ScanFrame R} n : preserves R (if_statement n).
Proof. unfold if_statement. frame. Qed.

Lemma preserves_goto_statement R `{!ScanFrame R} n :
  preserves R (goto_statement n).
Proof. unfold goto_statement. frame. Qed.

Lemma preserves_print_loop R `{!StmtFrame R} (e : M Z) n :
  preserves R e -> forall need_space, preserves R (print_loop e n need_space).
Proof.
  intros He. induction n as [|n IH]; intros need_space; cbn [print_loop];
    unfold emit_space; frame.
Qed.

Lemma preserves_print_end R `{!StmtFrame R} : preserves R print_end.
Proof. unfold print_end. frame. Qed.

Lemma preserves_print_statement R `{!StmtFrame R} n :
  preserves R (print_statement n).
Proof.
  pose proof (preserves_print_loop R (expression n) n
                ltac:(auto with frame) false).
  pose proof (preserves_print_end R).
  unfold print_statement. frame.
Qed.

#[local] Hint Resolve preserves_if_statement preserves_goto_statement
  preserves_print_statement : frame.

Lemma preserves_statement R `{!StmtFrame R} n :
  preserves R (let_statement n) -> preserves R (statement n).
Proof. intros Hlet. unfold statement. frame. Qed.

Lemma preserves_skip_blank R `{!ScanFrame R} n : preserves R (skip_blank n).
Proof. induction n as [|n IH]; cbn [skip_blank]; frame. Qed.

#[local] Hint Resolve preserves_skip_blank : frame.

Lemma preserves_line_statement R `{!StmtFrame R} n :
  preserves R (let_statement n) -> preserves R (line_statement n).
Proof.
  intros Hlet. pose proof (preserves_statement R n Hlet).
  unfold line_statement. frame.
Qed.

Lemma preserves_run_iteration R `{!StmtFrame R} n :
  preserves R (let_statement n) -> preserves R (run_iteration n).
Proof.
  intros Hlet. pose proof (preserves_statement R n Hlet).
  pose proof (preserves_line_statement R n Hlet).
  unfold run_iteration, skip_rest_of_line. frame.
  intros s. apply stmt_finished.
Qed.

Lemma preserves_run_loop R `{!StmtFrame R} n :
  (forall k, preserves R (let_statement k)) -> preserves R (run_loop n).
Proof.
  intros Hlet. induction n as [|n IH]; cbn [run_loop]; [frame|].
  pose proof (preserves_run_iteration R n (Hlet n)).
  frame.
Qed.

#[local] Instance same_but_scanner_frame : ScanFrame same_but_scanner.
Proof.
  split; unfold same_but_scanner.
  - intros s. repeat split.
  - intros s1 s2 s3 H12 H23.
    destruct H12 as (?&?&?&?&?&?), H23 as (?&?&?&?&?&?).
    repeat split; congruence.
  - intros s tk. repeat split.
  - intros s e. repeat split.
Qed.

#[local] Instance same_index_frame : StmtFrame same_index.
Proof.
  split; [split|..]; unfold same_index; cbn; intros; congruence.
Qed.

#[local] Instance same_register_frame c : StmtFrame (same_register c).
Proof.
  split; [split|..]; unfold same_register; cbn; intros; congruence.
Qed.

#[local] Instance keeps_store_frame : StmtFrame keeps_store.
Proof.
  split; [split|..]; unfold keeps_store, store_ok; cbn; intros; auto.
Qed.

#[local] Instance same_but_register_frame t : ScanFrame (same_but_register t).
Proof.
  split; unfold same_but_register; cbn.
  - intros s. repeat split.
  - intros s1 s2 s3 (A1&B1&C1) (A2&B2&C2). repeat split; try congruence.
    intros c Hc. rewrite C2, C1 by assumption. reflexivity.
  - intros s tk. repeat split.
  - intros s e. repeat split.
Qed.

Lemma tolower_is_lower c : is_alpha c = true -> is_lower (tolower c) = true.
Proof.
  destruct c as [[] [] [] [] [] [] [] []]; vm_compute; intros; congruence.
Qed.

Lemma store_ok_insert s c v :
  is_lower c = true -> store_ok s ->
  store_ok (with_variables (<[c := v]> (variables_ s)) s).
Proof.
  intros Hc Hs c'. cbn [with_variables variables_].
  destruct (decide (c = c')) as [<-|N].
  - rewrite lookup_insert_eq. split; [intros _; exact Hc|eauto].
  - rewrite lookup_insert_ne by assumption. apply Hs.
Qed.

(** ** Assignment *)

Lemma let_statement_letter n s c :
  token_at s = LETTER ->
  Tokenizer.get_token_data (tokenizer_ s) = DChar c ->
  let_statement n s = let_tail n (tolower c) s.
Proof.
  unfold token_at. intros E Hc. unfold let_statement.
  unfold bind at 1, tokenizer at 1. rewrite E, Hc.
  destruct (decide (LETTER <> LETTER)) as [N|_]; [congruence|]. reflexivity.
Qed.

Lemma let_statement_not_letter n s :
  token_at s <> LETTER ->
  let_statement n s =
  Throw "Syntax Error: Expected variable name"
    (with_cerr (cerr s ++ ["ERROR: Syntax Error: Expected variable name"%string]) s).
Proof.
  unfold token_at. intros N. unfold let_statement.
  unfold bind at 1, tokenizer at 1.
  destruct (decide (Tokenizer.current_token (tokenizer_ s) <> LETTER));
    [reflexivity|contradiction].
Qed.

Lemma let_statement_bad_payload n s k :
  token_at s = LETTER ->
  Tokenizer.get_token_data (tokenizer_ s) = DNum k ->
  let_statement n s = Throw "bad_variant_access" s.
Proof.
  unfold token_at. intros E Hc. unfold let_statement.
  unfold bind at 1, tokenizer at 1. rewrite E, Hc.
  destruct (decide (LETTER <> LETTER)) as [N|_]; [congruence|]. reflexivity.
Qed.

Lemma let_statement_same_index n : preserves same_index (let_statement n).
Proof.
  unfold let_statement. frame. all: intros s; reflexivity.
Qed.

Lemma let_tail_keeps_store n c :
  is_lower c = true -> preserves keeps_store (let_tail n c).
Proof.
  intros Hc. unfold let_tail. frame.
  intros s Hs. now apply store_ok_insert.
Qed.

Lemma let_statement_keeps_store n :
  letter_payload -> preserves keeps_store (let_statement n).
Proof.
  intros Hpay s.
  destruct (decide (token_at s = LETTER)) as [E|N].
  - destruct (Hpay _ E) as (c & Hc & Halpha).
    rewrite (let_statement_letter n s c E Hc).
    now apply let_tail_keeps_store, tolower_is_lower.
  - rewrite (let_statement_not_letter n s N). cbn [state_of].
    intros Hs. exact Hs.
Qed.

Lemma let_tail_same_but_register n c :
  preserves (same_but_register (Some c)) (let_tail n c).
Proof.
  unfold let_tail. frame. intros s. unfold same_but_register.
  cbn [state_of with_variables variables_ line_positions_ execution_finished_].
  repeat split.
  intros c' Hc'. rewrite lookup_insert_ne; [reflexivity|congruence].
Qed.

Lemma let_statement_changes_target_only n s :
  same_but_register (target_letter s) s (state_of (let_statement n s)).
Proof.
  destruct (decide (token_at s = LETTER)) as [E|N].
  - unfold target_letter.
    destruct (Tokenizer.get_token_data (tokenizer_ s)) as [c|k] eqn:Hc.
    + rewrite (let_statement_letter n s c E Hc).
      apply let_tail_same_but_register.
    + rewrite (let_statement_bad_payload n s k E Hc). apply scan_refl.
  - rewrite (let_statement_not_letter n s N). apply scan_cerr.
Qed.

(** C10: an assignment leaves the line index and the finished flag as they
    were, and every register other than the one of the lowercase-folded
    target letter keeps its value, whether the statement returns or
    throws. *)
Theorem let_statement_frame (fuel : nat) (s : SUBARUU) :
  same_but_register (target_letter s) s (state_of (let_statement fuel s)).
Proof. apply let_statement_changes_target_only. Qed.

(** ** The variable store *)

Lemma SUBARUU_new_lookup tk c :
  variables_ (SUBARUU_new tk) !! c = if is_lower c then Some 0 else None.
Proof.
  cbn [SUBARUU_new variables_].
  destruct c as [[] [] [] [] [] [] [] []]; vm_compute; reflexivity.
Qed.

Lemma SUBARUU_new_size tk : size (variables_ (SUBARUU_new tk)) = 26%nat.
Proof. cbn [SUBARUU_new variables_]. vm_compute. reflexivity. Qed.

Lemma SUBARUU_new_store_ok tk : store_ok (SUBARUU_new tk).
Proof.
  intros c. rewrite SUBARUU_new_lookup. destruct (is_lower c); split;
    intros H; try reflexivity; try discriminate; eauto.
  destruct H as [x Hx]. discriminate.
Qed.

Lemma store_ok_size s : store_ok s -> size (variables_ s) = 26%nat.
Proof.
  intros Hs.
  assert (E : dom (variables_ s)
              = dom (variables_ (SUBARUU_new (tokenizer_ s)))).
  { apply set_eq. intros c. rewrite !elem_of_dom.
    rewrite (Hs c). symmetry. apply SUBARUU_new_store_ok. }
  rewrite <- size_dom, E, size_dom. apply SUBARUU_new_size.
Qed.

Lemma run_keeps_store n : letter_payload -> preserves keeps_store (run n).
Proof.
  intros Hpay. unfold run, build_line_map.
  assert (Hscan : preserves keeps_store (scan_lines n)).
  { clear. induction n as [|n IH]; cbn [scan_lines]; frame.
    all: intros s Hs; exact Hs. }
  assert (Hloop : preserves keeps_store (run_loop n)).
  { apply preserves_run_loop; [typeclasses eauto|].
    intros k. now apply let_statement_keeps_store. }
  frame. intros s Hs. exact Hs.
Qed.

Lemma statement_keeps_store n :
  letter_payload -> preserves keeps_store (statement n).
Proof.
  intros Hpay. apply preserves_statement; [typeclasses eauto|].
  now apply let_statement_keeps_store.
Qed.

Lemma factor_letter n s c :
  token_at s = LETTER ->
  Tokenizer.get_token_data (tokenizer_ s) = DChar c ->
  factor n s = Ok (default 0 (variables_ s !! tolower c)) (step s).
Proof.
  unfold token_at. intros E Hc. unfold factor, factor_body.
  unfold bind at 1, tokenizer at 1. rewrite E, Hc. reflexivity.
Qed.

Lemma statement_same_register n s c :
  assign_target s <> Some c ->
  same_register c s (state_of (statement n s)).
Proof.
  unfold assign_target. intros Hc.
  assert (Hother : forall m : M unit,
            preserves (same_register c) m -> same_register c s (state_of (m s)))
    by (intros m Hm; apply Hm).
  assert (Hlet : forall s0, target_letter s0 <> Some c ->
            same_register c s0 (state_of (let_statement n s0))).
  { intros s0 Hs0. apply (let_statement_changes_target_only n s0).
    assumption. }
  unfold statement, bind at 1, cur at 1. fold (token_at s).
  destruct (token_at s) eqn:E;
    try (apply Hother; auto with frame; fail).
  - apply Hlet, Hc.
  - rewrite (bind_Ok _ _ _ _ _ (accept_match LET s E)). apply (Hlet (step s)), Hc.
  - reflexivity.
Qed.

(** C8: a freshly constructed interpreter holds exactly 26 registers, one
    per lowercase letter, all zero.  Provided the scanner hands out letters
    as [LETTER] payload, the store keeps exactly these 26 entries through
    any statement and through the whole run, at whatever point it is
    observed (normal end, error, or any bound on the number of steps);
    reading a letter as a factor returns the register value and never
    fails, so it yields 0 for a register that still holds its initial
    value; and a statement that is not an assignment to a letter leaves the
    register of that letter as it was. *)
Theorem variable_store_invariant :
  letter_payload ->
  (forall tk,
      size (variables_ (SUBARUU_new tk)) = 26%nat
      /\ forall c, variables_ (SUBARUU_new tk) !! c
                   = if is_lower c then Some 0 else None)
  /\ (forall fuel tk,
         store_ok (state_of (run fuel (SUBARUU_new tk)))
         /\ size (variables_ (state_of (run fuel (SUBARUU_new tk)))) = 26%nat)
  /\ (forall fuel s,
         store_ok s ->
         store_ok (state_of (statement fuel s))
         /\ size (variables_ (state_of (statement fuel s))) = 26%nat)
  /\ (forall fuel s,
         store_ok s -> token_at s = LETTER ->
         exists c v,
           Tokenizer.get_token_data (tokenizer_ s) = DChar c
           /\ variables_ s !! tolower c = Some v
           /\ factor fuel s = Ok v (step s)
           /\ (variables_ s !! tolower c = Some 0 -> factor fuel s = Ok 0 (step s)))
  /\ (forall fuel s c,
         assign_target s <> Some c ->
         variables_ (state_of (statement fuel s)) !! c = variables_ s !! c).
Proof.
  intros Hpay. split; [|split; [|split; [|split]]].
  - intros tk. split; [apply SUBARUU_new_size|apply SUBARUU_new_lookup].
  - intros fuel tk.
    assert (Hs : store_ok (state_of (run fuel (SUBARUU_new tk))))
      by apply (run_keeps_store fuel Hpay), SUBARUU_new_store_ok.
    split; [exact Hs|now apply store_ok_size].
  - intros fuel s Hs0.
    assert (Hs : store_ok (state_of (statement fuel s)))
      by now apply (statement_keeps_store fuel Hpay).
    split; [exact Hs|now apply store_ok_size].
  - intros fuel s Hs E. destruct (Hpay _ E) as (c & Hc & Halpha).
    destruct (proj2 (Hs (tolower c)) (tolower_is_lower c Halpha)) as [v Hv].
    exists c, v. pose proof (factor_letter fuel s c E Hc) as Hf.
    rewrite Hv in Hf. cbn [default] in Hf.
    split; [assumption|]. split; [assumption|]. split; [assumption|].
    intros H0. rewrite H0 in Hv. injection Hv as <-. exact Hf.
  - intros fuel s c Hc. now apply statement_same_register.
Qed.

(** ** Relations *)


Lemma relation_unfold n s :
  relation n s =
  match expression n s with
  | Ok lhs s1 =>
      if is_comparison (token_at s1)
      then match expression n (step s1) with
           | Ok rhs s2 => compare (token_at s1) lhs rhs s2
           | Throw msg s2 => Throw msg s2
           | OutOfFuel s2 => OutOfFuel s2
           end
      else Ok (b2z (negb (lhs =? 0))) s1
  | Throw msg s1 => Throw msg s1
  | OutOfFuel s1 => OutOfFuel s1
  end.
Proof.
  unfold relation, bind. destruct (expression n s) as [lhs s1| |];
    try reflexivity.
  unfold cur, token_at. destruct (is_comparison _); reflexivity.
Qed.


(** ** Line-number recognition in expressions and in the line index *)

Lemma term_needs_fuel s v s1 : term 0 s = Ok v s1 -> False.
Proof.
  unfold term, term_body, bind.
  destruct (factor 0 s) as [a s'| |]; discriminate.
Qed.

Lemma expression_unfold n s :
  expression (S n) s =
  match term n s with
  | Ok result s1 =>
      if decide (token_at s1 = NUMBER)
      then if is_valid_line_number (tokenizer_ s1)
                (Tokenizer.get_num (tokenizer_ s1))
           then Ok result s1
           else expression_loop (term n) n result (token_at s1) s1
      else expression_loop (term n) n result (token_at s1) s1
  | Throw msg s1 => Throw msg s1
  | OutOfFuel s1 => OutOfFuel s1
  end.
Proof.
  cbn [expression]. fold (factor n). fold (term n).
  unfold expression_body, bind. destruct (term n s) as [result s1| |];
    try reflexivity.
  unfold tokenizer, token_at.
  destruct (decide _); [destruct (is_valid_line_number _ _)|]; reflexivity.
Qed.

Lemma expression_loop_exit (t : M Z) n result token s :
  token <> PLUS -> token <> MINUS ->
  expression_loop t (S n) result token s = Ok result s.
Proof.
  intros Hp Hm. cbn [expression_loop].
  rewrite (bool_decide_eq_false_2 _ Hp), (bool_decide_eq_false_2 _ Hm).
  reflexivity.
Qed.

Lemma expression_loop_step (t : M Z) n result token s :
  token = PLUS \/ token = MINUS ->
  expression_loop t (S n) result token s =
  bind t (fun term_value =>
    bind cur (fun token' =>
      expression_loop t n
        (if decide (token = PLUS) then wrap (result + term_value)
         else wrap (result - term_value)) token')) (step s).
Proof.
  intros Hpm. cbn [expression_loop].
  assert (E : bool_decide (token = PLUS) || bool_decide (token = MINUS) = true).
  { destruct Hpm as [-> | ->]; reflexivity. }
  rewrite E. reflexivity.
Qed.

Lemma expression_loop_ends (t : M Z) n : forall result s v s',
  expression_loop t n result (token_at s) s = Ok v s' ->
  token_at s' <> PLUS /\ token_at s' <> MINUS.
Proof.
  induction n as [|n IH]; intros result s v s' H; [discriminate|].
  destruct (decide (token_at s = PLUS \/ token_at s = MINUS)) as [Hpm|Hno].
  - rewrite (expression_loop_step t n result _ s Hpm) in H.
    unfold bind at 1 in H.
    destruct (t (step s)) as [term_value s2| |]; try discriminate.
    unfold bind at 1, cur at 1 in H. apply (IH _ _ _ _ H).
  - rewrite expression_loop_exit in H by tauto.
    injection H as _ <-. tauto.
Qed.

Lemma scan_lines_step n s :
  Tokenizer.finished (tokenizer_ s) = false ->
  scan_lines (S n) s = scan_lines n (step (record_line s)).
Proof.
  intros Hf. cbn [scan_lines]. unfold bind at 1, tokenizer at 1. rewrite Hf.
  unfold record_line.
  destruct (decide (Tokenizer.current_token (tokenizer_ s) = NUMBER)) as [E|N].
  - rewrite (bool_decide_eq_true_2 _ E). cbn [andb].
    destruct (is_valid_line_number _ _); reflexivity.
  - rewrite (bool_decide_eq_false_2 _ N). reflexivity.
Qed.

Lemma scan_lines_stop n s :
  Tokenizer.finished (tokenizer_ s) = true -> scan_lines (S n) s = Ok tt s.
Proof.
  intros Hf. cbn [scan_lines]. unfold bind at 1, tokenizer at 1.
  rewrite Hf. reflexivity.
Qed.

Lemma line_number_at_shift tk k v :
  Tokenizer.finished tk = false ->
  line_number_at (Tokenizer.next_token tk) k v -> line_number_at tk (S k) v.
Proof.
  intros Hf (Hscan & Htok & Hnum & Hvalid). split; [|auto].
  intros [|j] Hj; [exact Hf|]. apply Hscan. lia.
Qed.

Lemma line_number_at_unshift tk k v :
  line_number_at tk (S k) v -> line_number_at (Tokenizer.next_token tk) k v.
Proof.
  intros (Hscan & Htok & Hnum & Hvalid). split; [|auto].
  intros j Hj. apply (Hscan (S j)). lia.
Qed.

Lemma record_line_lookup s v :
  is_Some (line_positions_ (record_line s) !! v) <->
  is_Some (line_positions_ s !! v)
  \/ (Tokenizer.current_token (tokenizer_ s) = NUMBER
      /\ Tokenizer.get_num (tokenizer_ s) = v
      /\ is_valid_line_number (tokenizer_ s) v = true).
Proof.
  unfold record_line.
  destruct (decide (Tokenizer.current_token (tokenizer_ s) = NUMBER)) as [E|N].
  - rewrite (bool_decide_eq_true_2 _ E). cbn [andb].
    destruct (is_valid_line_number (tokenizer_ s)
                (Tokenizer.get_num (tokenizer_ s))) eqn:Hv.
    + cbn [with_line_positions line_positions_].
      destruct (decide (Tokenizer.get_num (tokenizer_ s) = v)) as [<-|Nv].
      * rewrite lookup_insert_eq. split; [intros _|eauto]. auto.
      * rewrite lookup_insert_ne by assumption. split; [auto|].
        intros [H|(_ & H & _)]; [assumption|contradiction].
    + split; [auto|]. intros [H|(_ & <- & H)]; [assumption|congruence].
  - rewrite (bool_decide_eq_false_2 _ N). cbn [andb]. split; [auto|].
    intros [H|(H & _)]; [assumption|contradiction].
Qed.

Lemma record_line_tokenizer s : tokenizer_ (record_line s) = tokenizer_ s.
Proof.
  unfold record_line. destruct (_ && _); reflexivity.
Qed.

Lemma scan_lines_records n : forall s s',
  scan_lines n s = Ok tt s' ->
  forall v, is_Some (line_positions_ s' !! v) <->
            is_Some (line_positions_ s !! v)
            \/ exists k, line_number_at (tokenizer_ s) k v.
Proof.
  induction n as [|n IH]; intros s s' Hrun v; [discriminate|].
  destruct (Tokenizer.finished (tokenizer_ s)) eqn:Hf.
  - rewrite (scan_lines_stop n s Hf) in Hrun. injection Hrun as <-.
    split; [auto|]. intros [H|[k (Hscan & _)]]; [assumption|].
    specialize (Hscan O ltac:(lia)). cbn in Hscan. congruence.
  - rewrite (scan_lines_step n s Hf) in Hrun.
    rewrite (IH _ _ Hrun v). cbn [step with_tokenizer line_positions_ tokenizer_].
    rewrite record_line_lookup, record_line_tokenizer. split.
    + intros [[H|H]|[k Hk]].
      * auto.
      * right. exists O. split; [|exact H].
        intros j Hj. assert (j = O) as -> by lia. exact Hf.
      * right. exists (S k). now apply line_number_at_shift.
    + intros [H|[[|k] Hk]].
      * auto.
      * left. right. destruct Hk as (_ & Hk). exact Hk.
      * right. exists k. now apply line_number_at_unshift.
Qed.

Lemma build_line_map_unfold n s :
  build_line_map n s =
  match scan_lines n (with_tokenizer (Tokenizer.reset (tokenizer_ s))
                        (with_line_positions ∅ s)) with
  | Ok _ s' => Ok tt (with_tokenizer (Tokenizer.reset (tokenizer_ s')) s')
  | Throw msg s' => Throw msg s'
  | OutOfFuel s' => OutOfFuel s'
  end.
Proof. reflexivity. Qed.

Lemma build_line_map_records n s s' :
  build_line_map n s = Ok tt s' ->
  forall v, is_Some (line_positions_ s' !! v) <->
            exists k, line_number_at (Tokenizer.reset (tokenizer_ s)) k v.
Proof.
  rewrite build_line_map_unfold.
  destruct (scan_lines n _) as [[] s1| |] eqn:Hscan; try discriminate.
  intros [= <-] v. cbn [with_tokenizer line_positions_].
  rewrite (scan_lines_records n _ _ Hscan v).
  cbn [with_tokenizer with_line_positions line_positions_ tokenizer_].
  rewrite lookup_empty. split; [|auto].
  intros [[x H]|H]; [discriminate|exact H].
Qed.

(** C1 (as amended): once the first term of an expression has returned,
    [expression] returns that term's value with the scanner where the term
    left it if the next token is a number that [is_valid_line_number]
    accepts; it does so exactly when the next token is neither a plus nor a
    minus, and for a plus or a minus the evaluation goes on, past that
    operator, to a further term.  The line index built by
    [build_line_map] holds exactly the values of the number tokens, met
    before the scanner is finished, that the same [is_valid_line_number]
    accepts. *)
Theorem expression_stops_before_line_number
  (fuel : nat) (s s1 : SUBARUU) (v : Z) :
  term fuel s = Ok v s1 ->
  (token_at s1 = NUMBER ->
   is_valid_line_number (tokenizer_ s1) (Tokenizer.get_num (tokenizer_ s1))
   = true ->
   expression (S fuel) s = Ok v s1)
  /\ (expression (S fuel) s = Ok v s1 <->
      token_at s1 <> PLUS /\ token_at s1 <> MINUS)
  /\ (token_at s1 = PLUS \/ token_at s1 = MINUS ->
      exists fuel',
        fuel = S fuel'
        /\ expression (S fuel) s =
           bind (term fuel) (fun term_value =>
             bind cur (fun token' =>
               expression_loop (term fuel) fuel'
                 (if decide (token_at s1 = PLUS) then wrap (v + term_value)
                  else wrap (v - term_value)) token')) (step s1))
  /\ (forall n s0 s',
         build_line_map n s0 = Ok tt s' ->
         forall num,
           is_Some (line_positions_ s' !! num) <->
           exists k, line_number_at (Tokenizer.reset (tokenizer_ s0)) k num).
Proof.
  intros Hterm.
  destruct fuel as [|fuel']; [destruct (term_needs_fuel _ _ _ Hterm)|].
  split; [|split; [|split]].
  - intros Hnum Hvalid. rewrite expression_unfold, Hterm.
    destruct (decide (token_at s1 = NUMBER)); [|contradiction].
    rewrite Hvalid. reflexivity.
  - rewrite expression_unfold, Hterm. split.
    + destruct (decide (token_at s1 = NUMBER)) as [E|_].
      * intros _. rewrite E. split; discriminate.
      * apply expression_loop_ends.
    + intros [Hp Hm]. rewrite expression_loop_exit by assumption.
      destruct (decide _); [destruct (is_valid_line_number _ _)|];
        reflexivity.
  - intros Hpm. exists fuel'. split; [reflexivity|].
    rewrite expression_unfold, Hterm.
    destruct (decide (token_at s1 = NUMBER)) as [E|_].
    + destruct Hpm as [H|H]; rewrite E in H; discriminate.
    + now apply expression_loop_step.
  - intros n s0 s'. apply build_line_map_records.
Qed.

(** ** Jumps *)

Lemma dprintf_error msg s : dprintf msg E_ERROR s = Throw msg (failed msg s).
Proof. reflexivity. Qed.

Lemma accept_throws expected s :
  token_at s <> expected ->
  exists msg, accept expected s = Throw msg (failed msg s).
Proof. apply accept_mismatch. Qed.

Lemma messages_differ line : internal_message line <> not_found_message line.
Proof. unfold internal_message, not_found_message. cbn. discriminate. Qed.

Lemma jump_absent n line s :
  line_positions_ s !! line = None ->
  jump n line s = Throw (not_found_message line)
                    (failed (not_found_message line) s).
Proof.
  intros Habs. unfold jump, bind at 1. rewrite Habs. reflexivity.
Qed.

Lemma jump_present n line s :
  is_Some (line_positions_ s !! line) ->
  jump n line s =
  match find_target_line n line (rewound s) with
  | Ok true s' => Ok tt s'
  | Ok false s' => Throw (internal_message line)
                     (failed (internal_message line) s')
  | Throw msg s' => Throw msg s'
  | OutOfFuel s' => OutOfFuel s'
  end.
Proof.
  intros [b Hb]. unfold jump, bind at 1. rewrite Hb.
  unfold bind, rewind. fold (rewound s).
  destruct (find_target_line n line (rewound s)) as [[] s'| |]; reflexivity.
Qed.

Lemma goto_statement_wellformed n s :
  token_at s = GOTO ->
  token_at (step s) = NUMBER ->
  token_at (step (step s)) = EOL ->
  goto_statement n s =
  jump n (Tokenizer.get_num (tokenizer_ (step s))) (step (step (step s))).
Proof.
  intros H1 H2 H3. unfold goto_statement.
  rewrite (bind_Ok _ _ _ _ _ (accept_match GOTO s H1)).
  unfold bind at 1, tokenizer at 1.
  rewrite (bind_Ok _ _ _ _ _ (accept_match NUMBER _ H2)).
  rewrite (bind_Ok _ _ _ _ _ (accept_match EOL _ H3)).
  reflexivity.
Qed.

Lemma goto_statement_absent n s :
  line_positions_ s !! Tokenizer.get_num (tokenizer_ (step s)) = None ->
  exists msg s',
    goto_statement n s = Throw msg s' /\ cerr s' = cerr s ++ ["ERROR: " ++ msg]%string.
Proof.
  intros Habs. unfold goto_statement.
  destruct (decide (token_at s = GOTO)) as [H1|N1].
  2:{ destruct (accept_throws GOTO s N1) as [msg Hm].
      rewrite (bind_Throw _ _ _ _ _ Hm). eauto. }
  rewrite (bind_Ok _ _ _ _ _ (accept_match GOTO s H1)).
  unfold bind at 1, tokenizer at 1.
  destruct (decide (token_at (step s) = NUMBER)) as [H2|N2].
  2:{ destruct (accept_throws NUMBER _ N2) as [msg Hm].
      rewrite (bind_Throw _ _ _ _ _ Hm). eauto. }
  rewrite (bind_Ok _ _ _ _ _ (accept_match NUMBER _ H2)).
  destruct (decide (token_at (step (step s)) = EOL)) as [H3|N3].
  2:{ destruct (accept_throws EOL _ N3) as [msg Hm].
      rewrite (bind_Throw _ _ _ _ _ Hm). eauto. }
  rewrite (bind_Ok _ _ _ _ _ (accept_match EOL _ H3)).
  rewrite jump_absent by exact Habs. eauto.
Qed.

Lemma relation_same_index n s c s1 :
  relation n s = Ok c s1 -> line_positions_ s1 = line_positions_ s.
Proof.
  intros Hrel. pose proof (preserves_relation same_index n s) as H.
  rewrite Hrel in H. exact H.
Qed.

Lemma if_statement_unfold n s c s1 :
  token_at s = IF ->
  relation n (step s) = Ok c s1 ->
  token_at s1 = THEN ->
  token_at (step s1) = NUMBER ->
  if_statement n s =
  (if negb (c =? 0)
   then jump n (Tokenizer.get_num (tokenizer_ (step s1)))
   else eat_eol) (step (step s1)).
Proof.
  intros H1 Hrel H2 H3. unfold if_statement.
  rewrite (bind_Ok _ _ _ _ _ (accept_match IF s H1)).
  rewrite (bind_Ok _ _ _ _ _ Hrel).
  rewrite (bind_Ok _ _ _ _ _ (accept_match THEN s1 H2)).
  unfold bind at 1, tokenizer at 1. fold (token_at (step s1)).
  destruct (decide (token_at (step s1) <> NUMBER)) as [N|_]; [contradiction|].
  unfold bind at 1, advance at 1. fold (step (step s1)).
  destruct (negb (c =? 0)); reflexivity.
Qed.

Lemma if_statement_absent n s c s1 :
  token_at s = IF ->
  relation n (step s) = Ok c s1 ->
  c <> 0 ->
  line_positions_ s !! Tokenizer.get_num (tokenizer_ (step s1)) = None ->
  exists msg s',
    if_statement n s = Throw msg s' /\ cerr s' = cerr s1 ++ ["ERROR: " ++ msg]%string.
Proof.
  intros H1 Hrel Hc Habs.
  destruct (decide (token_at s1 = THEN)) as [H2|N2].
  2:{ unfold if_statement.
      rewrite (bind_Ok _ _ _ _ _ (accept_match IF s H1)).
      rewrite (bind_Ok _ _ _ _ _ Hrel).
      destruct (accept_throws THEN s1 N2) as [msg Hm].
      rewrite (bind_Throw _ _ _ _ _ Hm). eauto. }
  destruct (decide (token_at (step s1) = NUMBER)) as [H3|N3].
  2:{ unfold if_statement.
      rewrite (bind_Ok _ _ _ _ _ (accept_match IF s H1)).
      rewrite (bind_Ok _ _ _ _ _ Hrel).
      rewrite (bind_Ok _ _ _ _ _ (accept_match THEN s1 H2)).
      unfold bind at 1, tokenizer at 1. fold (token_at (step s1)).
      destruct (decide (token_at (step s1) <> NUMBER)) as [_|Y];
        [|contradiction].
      rewrite (bind_Throw _ _ _ _ _ (dprintf_error _ _)). eauto. }
  rewrite (if_statement_unfold n s c s1 H1 Hrel H2 H3).
  destruct (Z.eqb_spec c 0) as [E|_]; [contradiction|]. cbn [negb].
  rewrite jump_absent; [eauto|].
  cbn [step with_tokenizer line_positions_].
  rewrite (relation_same_index _ _ _ _ Hrel). exact Habs.
Qed.

Lemma nth_token_succ k tk :
  nth_token (S k) tk = Tokenizer.next_token (nth_token k tk).
Proof.
  revert tk. induction k as [|k IH]; intros tk; [reflexivity|].
  change (nth_token (S (S k)) tk) with (nth_token (S k) (Tokenizer.next_token tk)).
  rewrite IH. reflexivity.
Qed.

Lemma nth_token_add a b tk :
  nth_token (a + b) tk = nth_token b (nth_token a tk).
Proof.
  revert tk. induction a as [|a IH]; intros tk; [reflexivity|].
  cbn [Nat.add nth_token]. apply IH.
Qed.

Lemma skip_line_moves n : forall s s',
  skip_line n s = Ok tt s' ->
  exists k, s' = with_tokenizer (nth_token k (tokenizer_ s)) s.
Proof.
  induction n as [|n IH]; intros s s' H; [discriminate|].
  cbn [skip_line] in H. unfold bind at 1, tokenizer at 1 in H.
  destruct (negb _ && _).
  - unfold bind at 1, advance at 1 in H.
    destruct (IH _ _ H) as [k ->]. exists (S k). reflexivity.
  - injection H as <-. exists O. destruct s; reflexivity.
Qed.

Lemma eat_eol_moves s :
  exists k, eat_eol s = Ok tt (with_tokenizer (nth_token k (tokenizer_ s)) s).
Proof.
  unfold eat_eol, bind, cur.
  destruct (decide _).
  - exists 1%nat. reflexivity.
  - exists O. destruct s; reflexivity.
Qed.

Lemma find_target_line_found n line : forall s s',
  find_target_line n line s = Ok true s' ->
  exists k,
    s' = with_tokenizer (nth_token (S k) (tokenizer_ s)) s
    /\ Tokenizer.current_token (nth_token k (tokenizer_ s)) = NUMBER
    /\ Tokenizer.get_num (nth_token k (tokenizer_ s)) = line.
Proof.
  induction n as [|n IH]; intros s s' H; [discriminate|].
  cbn [find_target_line] in H. unfold bind at 1, tokenizer at 1 in H.
  destruct (Tokenizer.finished (tokenizer_ s)); [discriminate|].
  destruct (decide (Tokenizer.current_token (tokenizer_ s) = NUMBER))
    as [Hnum|Hnum];
    [rewrite (bool_decide_eq_true_2 _ Hnum) in H
    |rewrite (bool_decide_eq_false_2 _ Hnum) in H].
  - destruct (Z.eqb_spec (Tokenizer.get_num (tokenizer_ s)) line) as [E|N].
    + cbn in H. injection H as <-. exists O.
      split; [reflexivity|]. split; [exact Hnum|exact E].
    + cbn [andb] in H. revert H. unfold bind at 1.
      destruct (skip_line n s) as [[] s1| |] eqn:Hskip; try discriminate.
      destruct (skip_line_moves _ _ _ Hskip) as [k1 ->].
      unfold bind at 1.
      destruct (eat_eol_moves (with_tokenizer (nth_token k1 (tokenizer_ s)) s))
        as [k2 ->].
      intros H. destruct (IH _ _ H) as (k & -> & Htok & Hval).
      cbn [with_tokenizer tokenizer_] in *.
      exists (k1 + k2 + k)%nat. rewrite !nth_token_succ, !nth_token_add.
      auto.
  - cbn [andb] in H. revert H. unfold bind at 1.
    destruct (skip_line n s) as [[] s1| |] eqn:Hskip; try discriminate.
    destruct (skip_line_moves _ _ _ Hskip) as [k1 ->].
    unfold bind at 1.
    destruct (eat_eol_moves (with_tokenizer (nth_token k1 (tokenizer_ s)) s))
      as [k2 ->].
    intros H. destruct (IH _ _ H) as (k & -> & Htok & Hval).
    cbn [with_tokenizer tokenizer_] in *.
    exists (k1 + k2 + k)%nat. rewrite !nth_token_succ, !nth_token_add.
    auto.
Qed.

Lemma plain_line_unfinished len tk :
  plain_line len tk -> Tokenizer.finished tk = false.
Proof. destruct len; cbn; tauto. Qed.

Lemma skip_line_plain n : forall len s,
  plain_line len (tokenizer_ s) -> (len < n)%nat ->
  skip_line n s = Ok tt (moved len s)
  /\ token_at (moved len s) = EOL.
Proof.
  induction n as [|n IH]; intros len s Hline Hn; [lia|].
  cbn [skip_line]. unfold bind at 1, tokenizer at 1.
  destruct len as [|len]; cbn [plain_line] in Hline.
  - destruct Hline as [Hf He]. rewrite Hf, He.
    change (bool_decide (EOL <> EOL)) with false. cbn [negb andb].
    split; [|exact He]. unfold ret, moved. destruct s; reflexivity.
  - destruct Hline as (Hf & He & Hrest). rewrite Hf.
    rewrite (bool_decide_eq_true_2 _ He). cbn [negb andb].
    unfold bind at 1, advance at 1.
    apply (IH len (with_tokenizer (Tokenizer.next_token (tokenizer_ s)) s));
      [exact Hrest|lia].
Qed.

Lemma moved_moved a b s : moved a (moved b s) = moved (b + a) s.
Proof.
  unfold moved. cbn [with_tokenizer tokenizer_]. now rewrite nth_token_add.
Qed.

Lemma step_moved k s : step (moved k s) = moved (S k) s.
Proof.
  unfold step, moved. cbn [with_tokenizer tokenizer_].
  now rewrite nth_token_succ.
Qed.

Lemma find_target_line_finds line lens : forall n s,
  target_after lens line (tokenizer_ s) ->
  (offset lens < n)%nat ->
  find_target_line n line s = Ok true (moved (S (offset lens)) s).
Proof.
  induction lens as [|len rest IH]; intros n s Htarget Hn;
    (destruct n as [|n]; [lia|]); cbn [target_after offset] in *;
    cbn [find_target_line]; unfold bind at 1, tokenizer at 1.
  - destruct Htarget as (Hf & Htok & Hnum). rewrite Hf.
    rewrite (bool_decide_eq_true_2 _ Htok), Hnum, Z.eqb_refl. reflexivity.
  - destruct Htarget as (Hno & Hline & Hrest).
    rewrite (plain_line_unfinished _ _ Hline).
    assert (Hcmp : bool_decide (Tokenizer.current_token (tokenizer_ s) = NUMBER)
                   && (Tokenizer.get_num (tokenizer_ s) =? line) = false).
    { destruct (decide (Tokenizer.current_token (tokenizer_ s) = NUMBER))
        as [E|N].
      - rewrite (bool_decide_eq_true_2 _ E). cbn [andb].
        apply Z.eqb_neq. intros Heq. apply Hno. split; assumption.
      - now rewrite (bool_decide_eq_false_2 _ N). }
    rewrite Hcmp.
    destruct (skip_line_plain n len s Hline ltac:(lia)) as [Hskip Heol].
    rewrite (bind_Ok _ _ _ _ _ Hskip).
    assert (Heat : eat_eol (moved len s) = Ok tt (moved (S len) s)).
    { unfold eat_eol, bind, cur. fold (token_at (moved len s)).
      rewrite Heol. destruct (decide (EOL = EOL)); [|contradiction].
      unfold advance. fold (step (moved len s)). now rewrite step_moved. }
    rewrite (bind_Ok _ _ _ _ _ Heat).
    rewrite (IH n (moved (S len) s)); [|exact Hrest|lia].
    rewrite moved_moved. do 2 f_equal. lia.
Qed.

(** C2: a [GOTO] whose target is absent from the line index always throws,
    with its message written to the diagnostic stream, and so does an
    [IF ... THEN] whose relation is true; for a well-formed statement the
    error is the "not found" runtime error.  When the target is in the
    index but the rescan from the start of the program comes back without
    it, the statement throws the internal error, whose message differs
    from the "not found" one. *)
Theorem jump_to_unknown_line_is_fatal :
  (forall fuel s,
      let line := Tokenizer.get_num (tokenizer_ (step s)) in
      line_positions_ s !! line = None ->
      (exists msg s',
          goto_statement fuel s = Throw msg s'
          /\ cerr s' = cerr s ++ ["ERROR: " ++ msg]%string)
      /\ (token_at s = GOTO -> token_at (step s) = NUMBER ->
          token_at (step (step s)) = EOL ->
          goto_statement fuel s =
          Throw (not_found_message line)
            (failed (not_found_message line) (step (step (step s))))))
  /\ (forall fuel s c s1,
         let line := Tokenizer.get_num (tokenizer_ (step s1)) in
         token_at s = IF ->
         relation fuel (step s) = Ok c s1 ->
         c <> 0 ->
         line_positions_ s !! line = None ->
         (exists msg s',
             if_statement fuel s = Throw msg s'
             /\ cerr s' = cerr s1 ++ ["ERROR: " ++ msg]%string)
         /\ (token_at s1 = THEN -> token_at (step s1) = NUMBER ->
             if_statement fuel s =
             Throw (not_found_message line)
               (failed (not_found_message line) (step (step s1)))))
  /\ (forall fuel s s',
         let line := Tokenizer.get_num (tokenizer_ (step s)) in
         token_at s = GOTO -> token_at (step s) = NUMBER ->
         token_at (step (step s)) = EOL ->
         is_Some (line_positions_ s !! line) ->
         find_target_line fuel line (rewound (step (step (step s))))
         = Ok false s' ->
         goto_statement fuel s =
         Throw (internal_message line) (failed (internal_message line) s'))
  /\ (forall fuel s c s1 s',
         let line := Tokenizer.get_num (tokenizer_ (step s1)) in
         token_at s = IF ->
         relation fuel (step s) = Ok c s1 ->
         c <> 0 ->
         token_at s1 = THEN -> token_at (step s1) = NUMBER ->
         is_Some (line_positions_ s !! line) ->
         find_target_line fuel line (rewound (step (step s1))) = Ok false s' ->
         if_statement fuel s =
         Throw (internal_message line) (failed (internal_message line) s'))
  /\ (forall line, internal_message line <> not_found_message line).
Proof.
  split; [|split; [|split; [|split]]].
  - intros fuel s line Habs. split.
    + now apply goto_statement_absent.
    + intros H1 H2 H3. rewrite goto_statement_wellformed by assumption.
      now apply jump_absent.
  - intros fuel s c s1 line H1 Hrel Hc Habs. split.
    + now apply (if_statement_absent fuel s c s1).
    + intros H2 H3. rewrite (if_statement_unfold fuel s c s1) by assumption.
      destruct (Z.eqb_spec c 0) as [E|_]; [contradiction|]. cbn [negb].
      apply jump_absent. cbn [step with_tokenizer line_positions_].
      rewrite (relation_same_index _ _ _ _ Hrel). exact Habs.
  - intros fuel s s' line H1 H2 H3 Hin Hfind.
    rewrite goto_statement_wellformed by assumption.
    rewrite jump_present by exact Hin. fold line. rewrite Hfind. reflexivity.
  - intros fuel s c s1 s' line H1 Hrel Hc H2 H3 Hin Hfind.
    rewrite (if_statement_unfold fuel s c s1) by assumption.
    destruct (Z.eqb_spec c 0) as [E|_]; [contradiction|]. cbn [negb].
    rewrite jump_present.
    + fold line. rewrite Hfind. reflexivity.
    + cbn [step with_tokenizer line_positions_].
      rewrite (relation_same_index _ _ _ _ Hrel). exact Hin.
  - apply messages_differ.
Qed.

Lemma target_after_lands lens line : forall tk,
  target_after lens line tk ->
  on_line_number line (nth_token (offset lens) tk).
Proof.
  induction lens as [|len rest IH]; intros tk H; cbn [target_after offset] in *.
  - apply H.
  - destruct H as (_ & _ & Hrest). rewrite nth_token_add. now apply IH.
Qed.

(** C4: in [IF relation THEN number], once the relation has returned and
    [THEN] and a number follow, the statement goes on from the scanner
    position after the number whatever the relation's value.  If the value
    is zero the statement returns there, one token further when that token
    is an end of line.  If it is not zero the statement is the jump to the
    number's value from there; when the line is in the index and the rescan
    finds it, the statement returns with the scanner just behind a number
    token of that value.  And the rescan does find it: when the line is in
    the index and the program, from its start, consists of lines that do
    not start with that number followed by a line that does, the statement
    returns with the scanner just behind the number that starts that
    line. *)
Theorem if_statement_consumes_target
  (fuel : nat) (s s1 : SUBARUU) (c : Z) :
  token_at s = IF ->
  relation fuel (step s) = Ok c s1 ->
  token_at s1 = THEN ->
  token_at (step s1) = NUMBER ->
  let line := Tokenizer.get_num (tokenizer_ (step s1)) in
  let s3 := step (step s1) in
  (c = 0 ->
   if_statement fuel s =
   Ok tt (if decide (token_at s3 = EOL) then step s3 else s3))
  /\ (c <> 0 ->
      if_statement fuel s = jump fuel line s3
      /\ forall s',
          is_Some (line_positions_ s3 !! line) ->
          find_target_line fuel line (rewound s3) = Ok true s' ->
          if_statement fuel s = Ok tt s'
          /\ exists k,
              s' = with_tokenizer
                     (nth_token (S k) (Tokenizer.reset (tokenizer_ s3))) s3
              /\ Tokenizer.current_token
                   (nth_token k (Tokenizer.reset (tokenizer_ s3))) = NUMBER
              /\ Tokenizer.get_num
                   (nth_token k (Tokenizer.reset (tokenizer_ s3))) = line)
  /\ (c <> 0 ->
      forall lens,
        is_Some (line_positions_ s3 !! line) ->
        target_after lens line (Tokenizer.reset (tokenizer_ s3)) ->
        (offset lens < fuel)%nat ->
        if_statement fuel s =
        Ok tt (with_tokenizer
                 (nth_token (S (offset lens)) (Tokenizer.reset (tokenizer_ s3)))
                 s3)
        /\ on_line_number line
             (nth_token (offset lens) (Tokenizer.reset (tokenizer_ s3)))).
Proof.
  intros H1 Hrel H2 H3 line s3.
  rewrite (if_statement_unfold fuel s c s1 H1 Hrel H2 H3).
  fold line s3. split; [|split].
  - intros ->. cbn [Z.eqb negb]. unfold eat_eol, bind, cur.
    fold (token_at s3). destruct (decide (token_at s3 = EOL)); reflexivity.
  - intros Hc. destruct (Z.eqb_spec c 0) as [E|_]; [contradiction|].
    cbn [negb]. split; [reflexivity|]. intros s' Hin Hfind.
    rewrite jump_present by exact Hin. rewrite Hfind.
    split; [reflexivity|].
    destruct (find_target_line_found _ _ _ _ Hfind) as (k & -> & Htok & Hval).
    exists k. cbn [rewound with_tokenizer tokenizer_] in *.
    split; [destruct s3; reflexivity|]. split; assumption.
  - intros Hc lens Hin Htarget Hfuel.
    destruct (Z.eqb_spec c 0) as [E|_]; [contradiction|]. cbn [negb].
    split; [|now apply target_after_lands].
    rewrite jump_present by exact Hin.
    rewrite (find_target_line_finds line lens fuel (rewound s3) Htarget Hfuel).
    unfold moved, rewound. cbn [with_tokenizer tokenizer_].
    destruct s3; reflexivity.
Qed.

(** ** When the line index is built *)

Lemma run_same_index n s :
  line_positions_ (state_of (run n s))
  = line_positions_ (state_of (build_line_map n s)).
Proof.
  unfold run, bind.
  destruct (build_line_map n s) as [[] s1| |]; try reflexivity.
  cbn [state_of]. apply (preserves_run_loop same_index n).
  intros k. apply let_statement_same_index.
Qed.

Lemma lazy_rebuild_nonempty {A} n (k : M A) s :
  line_positions_ s <> ∅ ->
  bind (fun s => Ok s s) (fun s0 =>
    bind (if decide (line_positions_ s0 = ∅) then build_line_map n else ret tt)
      (fun _ => k)) s = k s.
Proof.
  intros Hne. unfold bind at 1.
  destruct (decide (line_positions_ s = ∅)); [contradiction|]. reflexivity.
Qed.

Lemma lazy_rebuild_empty {A} n (k : M A) s :
  line_positions_ s = ∅ ->
  bind (fun s => Ok s s) (fun s0 =>
    bind (if decide (line_positions_ s0 = ∅) then build_line_map n else ret tt)
      (fun _ => k)) s = bind (build_line_map n) (fun _ => k) s.
Proof.
  intros He. unfold bind at 1.
  destruct (decide (line_positions_ s = ∅)); [reflexivity|contradiction].
Qed.

(** C9 (as amended): [run] builds the line index once, before the loop, and
    nothing the loop executes changes it afterwards.  [GOTO] and
    [IF ... THEN] check their target against the index as it stands and
    never rebuild it, whether it is empty or not.  Only [find_linenum] and
    [jump_linenum] rebuild the index: they start with [build_line_map]
    exactly when they find the index empty and leave it alone otherwise. *)
Theorem line_index_built_once_by_run :
  (forall fuel s,
      line_positions_ (state_of (run fuel s))
      = line_positions_ (state_of (build_line_map fuel s)))
  /\ (forall fuel s,
         line_positions_ (state_of (goto_statement fuel s)) = line_positions_ s
         /\ line_positions_ (state_of (if_statement fuel s)) = line_positions_ s
         /\ line_positions_ (state_of (statement fuel s)) = line_positions_ s)
  /\ (forall fuel linenum s,
         line_positions_ s = ∅ ->
         jump_linenum fuel linenum s
         = bind (build_line_map fuel) (fun _ =>
             bind rewind (fun _ =>
               bind (scan_for fuel linenum) (fun found =>
                 if found then ret tt
                 else dprintf (not_found_message linenum) E_ERROR))) s
         /\ find_linenum fuel linenum s
            = bind (build_line_map fuel) (fun _ =>
                bind (fun s => Ok s s) (fun s0 =>
                  match line_positions_ s0 !! linenum with
                  | None => bind (dprintf (not_found_message linenum) E_ERROR)
                              (fun _ => ret tt)
                  | Some _ => fun s => Ok tt (with_skip true linenum s)
                  end)) s)
  /\ (forall fuel linenum s,
         line_positions_ s <> ∅ ->
         line_positions_ (state_of (jump_linenum fuel linenum s))
         = line_positions_ s
         /\ line_positions_ (state_of (find_linenum fuel linenum s))
            = line_positions_ s).
Proof.
  split; [|split; [|split]].
  - apply run_same_index.
  - intros fuel s. split; [|split].
    + apply (preserves_goto_statement same_index).
    + apply (preserves_if_statement same_index).
    + apply (preserves_statement same_index), let_statement_same_index.
  - intros fuel linenum s He. split.
    + unfold jump_linenum. now rewrite lazy_rebuild_empty.
    + unfold find_linenum. now rewrite lazy_rebuild_empty.
  - intros fuel linenum s Hne. split.
    + unfold jump_linenum. rewrite lazy_rebuild_nonempty by assumption.
      assert (Hscan : preserves same_index (scan_for fuel linenum)).
      { clear. induction fuel as [|n IH]; cbn [scan_for]; frame. }
      revert s Hne. intros s _. generalize s.
      change (preserves same_index
        (bind rewind (fun _ => bind (scan_for fuel linenum) (fun found =>
           if found then ret tt
           else dprintf (not_found_message linenum) E_ERROR)))).
      frame.
    + unfold find_linenum. rewrite lazy_rebuild_nonempty by assumption.
      revert s Hne. intros s _. generalize s.
      change (preserves same_index
        (bind (fun s => Ok s s) (fun s0 =>
           match line_positions_ s0 !! linenum with
           | None => bind (dprintf (not_found_message linenum) E_ERROR)
                       (fun _ => ret tt)
           | Some _ => fun s => Ok tt (with_skip true linenum s)
           end))).
      frame.
Qed.

(** ** Output *)

Lemma ignores_bind {A B} (m : M A) (k : A -> M B) :
  ignores_cout m -> (forall a, ignores_cout (k a)) -> ignores_cout (bind m k).
Proof.
  intros Hm Hk o s. unfold bind. rewrite Hm.
  destruct (m s) as [a s1| |]; cbn [res_map]; [apply Hk|reflexivity..].
Qed.

Lemma ignores_ret {A} (a : A) : ignores_cout (ret a).
Proof. intros o s. reflexivity. Qed.

Lemma ignores_out_of_fuel {A} : ignores_cout (@out_of_fuel A).
Proof. intros o s. reflexivity. Qed.

Lemma ignores_throw {A} msg : ignores_cout (@throw A msg).
Proof. intros o s. reflexivity. Qed.

Lemma ignores_tokenizer : ignores_cout tokenizer.
Proof. intros o s. reflexivity. Qed.

Lemma ignores_cur : ignores_cout cur.
Proof. intros o s. reflexivity. Qed.

Lemma ignores_variables : ignores_cout variables.
Proof. intros o s. reflexivity. Qed.

Lemma ignores_advance : ignores_cout advance.
Proof. intros o s. reflexivity. Qed.

Lemma ignores_get_token_string token : ignores_cout (get_token_string token).
Proof. intros o s. reflexivity. Qed.

Lemma ignores_dprintf message code : ignores_cout (dprintf message code).
Proof.
  intros o s. unfold dprintf. destruct (decide (code = E_ERROR)); reflexivity.
Qed.

Create HintDb ignores.

#[local] Hint Resolve ignores_ret ignores_out_of_fuel ignores_throw
  ignores_tokenizer ignores_cur ignores_variables ignores_advance
  ignores_get_token_string ignores_dprintf : ignores.

Ltac ignores :=
  repeat first
    [ progress cbv zeta
    | solve [auto with ignores]
    | apply ignores_bind; [ | intros ?]
    | match goal with
      | |- ignores_cout (if ?b then _ else _) => destruct b
      | |- ignores_cout (match ?x with _ => _ end) => destruct x
      end ].

Lemma ignores_accept expected : ignores_cout (accept expected).
Proof. unfold accept. ignores. Qed.

Lemma ignores_safe_divide n d : ignores_cout (safe_divide n d).
Proof. unfold safe_divide. ignores. Qed.

Lemma ignores_get_char d : ignores_cout (get_char d).
Proof. unfold get_char. ignores. Qed.

#[local] Hint Resolve ignores_accept ignores_safe_divide ignores_get_char
  : ignores.

Lemma ignores_factor_body (e : M Z) :
  ignores_cout e -> ignores_cout (factor_body e).
Proof. intros He. unfold factor_body. ignores. Qed.

Lemma ignores_term_loop (f : M Z) n :
  ignores_cout f -> forall result token, ignores_cout (term_loop f n result token).
Proof.
  intros Hf. induction n as [|n IH]; intros result token; cbn [term_loop];
    ignores.
Qed.

Lemma ignores_term_body (f : M Z) n :
  ignores_cout f -> ignores_cout (term_body f n).
Proof.
  intros Hf. unfold term_body. ignores. now apply ignores_term_loop.
Qed.

Lemma ignores_expression_loop (t : M Z) n :
  ignores_cout t ->
  forall result token, ignores_cout (expression_loop t n result token).
Proof.
  intros Ht. induction n as [|n IH]; intros result token;
    cbn [expression_loop]; ignores.
Qed.

Lemma ignores_expression_body (t : M Z) n :
  ignores_cout t -> ignores_cout (expression_body t n).
Proof.
  intros Ht. unfold expression_body. ignores;
    now apply ignores_expression_loop.
Qed.

Lemma ignores_expression n : ignores_cout (expression n).
Proof.
  induction n as [|n IH]; cbn [expression]; [ignores|].
  now apply ignores_expression_body, ignores_term_body, ignores_factor_body.
Qed.

Lemma expression_cout n s v s1 : expression n s = Ok v s1 -> cout s1 = cout s.
Proof.
  intros He. pose proof (preserves_expression same_but_scanner n s) as H.
  rewrite He in H. apply H.
Qed.

Lemma print_loop_stop (e : M Z) n need_space s :
  print_stops (tokenizer_ s) = true ->
  print_loop e (S n) need_space s = Ok tt s.
Proof.
  unfold print_stops. intros Hstop. cbn [print_loop].
  unfold bind at 1, tokenizer at 1.
  destruct (Tokenizer.finished (tokenizer_ s)); [reflexivity|].
  destruct (is_statement_end _); [reflexivity|].
  destruct (is_line_number _); [reflexivity|].
  cbn [orb] in Hstop.
  destruct (Tokenizer.current_token (tokenizer_ s)); try reflexivity;
    discriminate Hstop.
Qed.

Lemma print_stops_false tk :
  print_stops tk = false ->
  Tokenizer.finished tk = false
  /\ is_statement_end (Tokenizer.current_token tk) = false
  /\ is_line_number tk = false
  /\ starts_item (Tokenizer.current_token tk) = true.
Proof.
  unfold print_stops. intros H.
  destruct (Tokenizer.finished tk); [discriminate|].
  destruct (is_statement_end _); [discriminate|].
  destruct (is_line_number tk); [discriminate|].
  destruct (starts_item _); [auto|discriminate].
Qed.

Lemma print_loop_string (e : M Z) n need_space s :
  print_stops (tokenizer_ s) = false ->
  token_at s = STRING ->
  print_loop e (S n) need_space s =
  print_loop e n true
    (step (printed ((if need_space then [space] else [])
                    ++ [Tokenizer.get_string (tokenizer_ s)]) s)).
Proof.
  intros Hgo Htok. destruct (print_stops_false _ Hgo) as (Hf & He & Hl & _).
  cbn [print_loop]. unfold bind at 1, tokenizer at 1.
  rewrite Hf, He, Hl. unfold token_at in Htok. rewrite Htok.
  unfold step, printed. destruct need_space; cbn; unfold with_cout; cbn;
    rewrite <- ?app_assoc; reflexivity.
Qed.

Lemma print_loop_separator (e : M Z) n need_space s :
  print_stops (tokenizer_ s) = false ->
  token_at s = SEPARATOR ->
  print_loop e (S n) need_space s =
  print_loop e n false (step (printed [space] s)).
Proof.
  intros Hgo Htok. destruct (print_stops_false _ Hgo) as (Hf & He & Hl & _).
  cbn [print_loop]. unfold bind at 1, tokenizer at 1.
  rewrite Hf, He, Hl. unfold token_at in Htok. rewrite Htok. reflexivity.
Qed.

Lemma print_loop_value (e : M Z) n need_space s :
  print_stops (tokenizer_ s) = false ->
  starts_expression (token_at s) = true ->
  print_loop e (S n) need_space s =
  bind e (fun value =>
    bind (put (to_string value)) (fun _ => print_loop e n true))
    (printed (if need_space then [space] else []) s).
Proof.
  intros Hgo Htok. destruct (print_stops_false _ Hgo) as (Hf & He & Hl & _).
  cbn [print_loop]. unfold bind at 1, tokenizer at 1.
  rewrite Hf, He, Hl. unfold token_at in Htok.
  assert (Hsp : emit_space need_space s
                = Ok tt (printed (if need_space then [space] else []) s)).
  { unfold emit_space, printed. destruct need_space; [reflexivity|].
    unfold ret. rewrite app_nil_r. destruct s; reflexivity. }
  destruct (Tokenizer.current_token (tokenizer_ s)); try discriminate Htok;
    rewrite (bind_Ok _ _ _ _ _ Hsp); reflexivity.
Qed.

Lemma is_line_number_spec tk :
  is_line_number tk = true <->
  Tokenizer.current_token tk = NUMBER
  /\ 10 <= Tokenizer.get_num tk
  /\ Z.rem (Tokenizer.get_num tk) 10 = 0
  /\ is_space_char (Tokenizer.peek_char tk) = true.
Proof.
  unfold is_line_number.
  destruct (decide (Tokenizer.current_token tk <> NUMBER)) as [N|Y].
  - split; [discriminate|]. intros (H & _). contradiction.
  - assert (E : Tokenizer.current_token tk = NUMBER).
    { destruct (decide (Tokenizer.current_token tk = NUMBER));
        [assumption|contradiction]. }
    destruct (Z.leb_spec 10 (Tokenizer.get_num tk));
      destruct (Z.eqb_spec (Z.rem (Tokenizer.get_num tk) 10) 0);
      cbn [andb]; split; try discriminate; try tauto;
      intros (_ & H1 & H2 & H3); try lia; try contradiction.
Qed.

Lemma print_end_at_line_number s :
  is_line_number (tokenizer_ s) = true ->
  print_end s = Ok tt (printed [endl] s).
Proof.
  intros Hl. unfold print_end, bind, put, tokenizer.
  cbn [with_cout tokenizer_]. rewrite Hl. reflexivity.
Qed.

Lemma print_end_newline s :
  exists s', print_end s = Ok tt s' /\ cout s' = cout s ++ [endl].
Proof.
  unfold print_end, bind, put, tokenizer. cbn [with_cout tokenizer_].
  destruct (is_line_number _); [eexists; split; reflexivity|].
  destruct (decide _); [eexists; split; reflexivity|].
  destruct (decide _); eexists; split; reflexivity.
Qed.

Lemma print_loop_cout (e : M Z) :
  (forall s v s1, e s = Ok v s1 -> cout s1 = cout s) ->
  forall n need_space s s',
    print_loop e n need_space s = Ok tt s' ->
    exists extra,
      cout s' = cout s ++ extra
      /\ (print_stops (tokenizer_ s) = false -> extra <> []).
Proof.
  intros Hcout n. induction n as [|n IH]; intros need_space s s' H;
    [discriminate|].
  destruct (print_stops (tokenizer_ s)) eqn:Hstop.
  - rewrite print_loop_stop in H by exact Hstop. injection H as <-.
    exists []. split; [now rewrite app_nil_r|discriminate].
  - destruct (print_stops_false _ Hstop) as (_ & _ & _ & Hitem).
    unfold starts_item in Hitem. fold (token_at s) in Hitem.
    destruct (decide (token_at s = STRING)) as [Hs|Hns];
      [|destruct (decide (token_at s = SEPARATOR)) as [Hp|Hnp]].
    + rewrite print_loop_string in H by assumption.
      destruct (IH _ _ _ H) as (extra & Hextra & _).
      cbn [step printed with_tokenizer with_cout cout] in Hextra.
      rewrite <- app_assoc in Hextra. eexists. split; [exact Hextra|].
      intros _. destruct need_space; discriminate.
    + rewrite print_loop_separator in H by assumption.
      destruct (IH _ _ _ H) as (extra & Hextra & _).
      cbn [step printed with_tokenizer with_cout cout] in Hextra.
      rewrite <- app_assoc in Hextra. eexists. split; [exact Hextra|].
      intros _. discriminate.
    + assert (Hexpr : starts_expression (token_at s) = true).
      { destruct (token_at s); try exact Hitem; contradiction. }
      rewrite print_loop_value in H by assumption.
      unfold bind at 1 in H.
      destruct (e _) as [value s1| |] eqn:He; try discriminate.
      apply Hcout in He. unfold bind at 1, put at 1 in H.
      destruct (IH _ _ _ H) as (extra & Hextra & _).
      cbn [printed with_cout cout] in Hextra, He. rewrite He in Hextra.
      rewrite <- !app_assoc in Hextra. eexists. split; [exact Hextra|].
      intros _. destruct need_space; discriminate.
Qed.

Lemma print_loop_stops_iff k n need_space s :
  print_loop (expression k) (S n) need_space s = Ok tt s <->
  print_stops (tokenizer_ s) = true.
Proof.
  split; [|apply print_loop_stop].
  intros H.
  destruct (print_loop_cout (expression k) (expression_cout k) _ _ _ _ H)
    as (extra & Hextra & Hne).
  destruct (print_stops (tokenizer_ s)); [reflexivity|].
  exfalso. apply Hne; [reflexivity|].
  rewrite <- (app_nil_r (cout s)) in Hextra at 1.
  apply app_inv_head in Hextra. now symmetry.
Qed.

(** C6 (as amended): the item loop of [PRINT] returns at once, leaving the
    interpreter as it found it, exactly at the positions where the scanner
    reports finished, or the token is an end of line or end of file, or the
    token is a number that [is_line_number] accepts (at least 10, a
    multiple of 10, followed by a space, carriage return or line feed), or
    the token cannot start an item; at every other position it emits a
    string, a separator's space or an expression and goes round again.  At
    a line number the rest of the statement writes the newline and moves
    the scanner no further. *)
Theorem print_loop_stops_exactly
  (e : M Z) (n : nat) (need_space : bool) (s : SUBARUU) :
  (print_stops (tokenizer_ s) = true ->
   print_loop e (S n) need_space s = Ok tt s)
  /\ (forall k,
         print_loop (expression k) (S n) need_space s = Ok tt s <->
         print_stops (tokenizer_ s) = true)
  /\ (print_stops (tokenizer_ s) = false ->
      (token_at s = STRING \/ token_at s = SEPARATOR
       \/ starts_expression (token_at s) = true)
      /\ (token_at s = STRING ->
          print_loop e (S n) need_space s =
          print_loop e n true
            (step (printed ((if need_space then [space] else [])
                            ++ [Tokenizer.get_string (tokenizer_ s)]) s)))
      /\ (token_at s = SEPARATOR ->
          print_loop e (S n) need_space s =
          print_loop e n false (step (printed [space] s)))
      /\ (starts_expression (token_at s) = true ->
          print_loop e (S n) need_space s =
          bind e (fun value =>
            bind (put (to_string value)) (fun _ => print_loop e n true))
            (printed (if need_space then [space] else []) s)))
  /\ (print_stops (tokenizer_ s) = true <->
      Tokenizer.finished (tokenizer_ s) = true
      \/ token_at s = EOL \/ token_at s = EOF_TOKEN
      \/ (token_at s = NUMBER
          /\ 10 <= Tokenizer.get_num (tokenizer_ s)
          /\ Z.rem (Tokenizer.get_num (tokenizer_ s)) 10 = 0
          /\ is_space_char (Tokenizer.peek_char (tokenizer_ s)) = true)
      \/ starts_item (token_at s) = false)
  /\ (is_line_number (tokenizer_ s) = true ->
      print_end s = Ok tt (printed [endl] s)
      /\ tokenizer_ (printed [endl] s) = tokenizer_ s).
Proof.
  split; [apply print_loop_stop|]. split; [|split; [|split]].
  - intros k. apply print_loop_stops_iff.
  - intros Hgo. split; [|split; [|split]].
    + destruct (print_stops_false _ Hgo) as (_ & _ & _ & Hitem).
      unfold token_at, starts_item in *.
      destruct (Tokenizer.current_token (tokenizer_ s)); auto; discriminate.
    + now apply print_loop_string.
    + now apply print_loop_separator.
    + now apply print_loop_value.
  - unfold print_stops, is_statement_end, token_at.
    rewrite !orb_true_iff, negb_true_iff, is_line_number_spec,
      !bool_decide_eq_true.
    tauto.
  - intros Hl. split; [now apply print_end_at_line_number|reflexivity].
Qed.

Lemma emitted_rendered need_space items :
  emitted need_space items =
  (match items with
   | i :: _ => if need_space && negb (is_separator i) then [space] else []
   | [] => []
   end) ++ rendered items.
Proof.
  revert need_space. induction items as [|i rest IH]; intros need_space;
    [reflexivity|].
  destruct i; cbn [emitted rendered is_separator negb andb item_text];
    rewrite IH; destruct need_space, rest as [|[] ?]; reflexivity.
Qed.

Lemma with_cout_same s : with_cout (cout s) s = s.
Proof. destruct s; reflexivity. Qed.

Lemma print_loop_prints (e : M Z) :
  ignores_cout e ->
  (forall s v s1, e s = Ok v s1 -> cout s1 = cout s) ->
  forall s items s',
    prints e s items s' ->
    cout s' = cout s
    /\ forall n need_space o,
        (length items < n)%nat ->
        print_loop e n need_space (with_cout o s)
        = Ok tt (with_cout (o ++ emitted need_space items) s').
Proof.
  intros Hign Hcout s items s' Hp.
  induction Hp as [s Hstop|s items s' Hgo Htok Hp [IHc IH]
                  |s items s' Hgo Htok Hp [IHc IH]
                  |s value s1 items s' Hgo Htok He Hp [IHc IH]].
  - split; [reflexivity|]. intros [|n] need_space o Hn; [cbn in Hn; lia|].
    rewrite print_loop_stop by exact Hstop.
    cbn [emitted]. now rewrite app_nil_r.
  - split; [exact IHc|]. intros [|n] need_space o Hn; [cbn in Hn; lia|].
    rewrite print_loop_string by assumption.
    cbn [length] in Hn.
    change (step (printed ?l (with_cout o s)))
      with (with_cout (o ++ l) (step s)).
    rewrite IH by lia. cbn [emitted item_text].
    cbn [with_cout tokenizer_]. now rewrite <- !app_assoc.
  - split; [exact IHc|]. intros [|n] need_space o Hn; [cbn in Hn; lia|].
    rewrite print_loop_separator by assumption.
    cbn [length] in Hn.
    change (step (printed ?l (with_cout o s)))
      with (with_cout (o ++ l) (step s)).
    rewrite IH by lia. cbn [emitted]. now rewrite <- !app_assoc.
  - split; [rewrite IHc; now apply (Hcout s value s1)|].
    intros [|n] need_space o Hn; [cbn in Hn; lia|].
    rewrite print_loop_value by assumption.
    cbn [length] in Hn.
    change (printed ?l (with_cout o s)) with (with_cout (o ++ l) s).
    unfold bind at 1. rewrite Hign, He. cbn [res_map].
    unfold bind at 1, put at 1.
    change (with_cout ?o2 (with_cout ?o1 s1)) with (with_cout o2 s1).
    cbn [cout with_cout].
    change (mkSUBARUU (tokenizer_ s1) (variables_ s1) (line_positions_ s1)
              (execution_finished_ s1) (skip_to_line_ s1) (target_line_ s1)
              ?o' (cerr s1)) with (with_cout o' s1).
    rewrite IH by lia. cbn [emitted item_text]. now rewrite <- !app_assoc.
Qed.

(** C7: when the item loop of a [PRINT] statement meets the items [items]
    and then ends, the statement returns having appended to the output the
    text of every item in order, one space for every separator, one space
    between any two items that follow each other without a separator, and
    then exactly one newline. *)
Theorem print_statement_spacing
  (n : nat) (s0 s' : SUBARUU) (items : list item) :
  token_at s0 = PRINT ->
  prints (expression n) (step s0) items s' ->
  (length items < n)%nat ->
  exists s'',
    print_statement n s0 = Ok tt s''
    /\ cout s'' = cout s0 ++ rendered items ++ [endl].
Proof.
  intros Htok Hp Hn.
  destruct (print_loop_prints (expression n) (ignores_expression n)
              (expression_cout n) _ _ _ Hp) as [Hc Hloop].
  specialize (Hloop n false (cout (step s0)) Hn).
  rewrite with_cout_same in Hloop.
  unfold print_statement.
  rewrite (bind_Ok _ _ _ _ _ (accept_match PRINT s0 Htok)).
  rewrite (bind_Ok _ _ _ _ _ Hloop).
  destruct (print_end_newline (with_cout (cout (step s0) ++ emitted false items) s'))
    as (s'' & Hend & Hout).
  exists s''. split; [exact Hend|].
  rewrite Hout. cbn [with_cout cout step with_tokenizer].
  rewrite emitted_rendered. cbn [andb].
  destruct items; cbn [app]; now rewrite <- ?app_assoc.
Qed.

(** ** Factors *)

Lemma factor_number n s :
  token_at s = NUMBER ->
  factor n s = Ok (Tokenizer.get_num (tokenizer_ s)) (step s).
Proof.
  unfold token_at. intros E. unfold factor, factor_body.
  unfold bind at 1, tokenizer at 1. rewrite E. reflexivity.
Qed.

Lemma factor_other n s :
  token_at s <> NUMBER -> token_at s <> LETTER -> token_at s <> LEFT_PAREN ->
  factor n s = Throw (factor_message s) (failed (factor_message s) s).
Proof.
  unfold factor_message, token_at. intros H1 H2 H3.
  unfold factor, factor_body. unfold bind at 1, tokenizer at 1.
  destruct (Tokenizer.current_token (tokenizer_ s)); try contradiction;
    reflexivity.
Qed.

(** X1: a factor can only start with a number, a letter or a left
    parenthesis.  On any other token (a minus sign, say: there are no
    negative literals) [factor] throws the syntax error naming the token,
    with the scanner left on it, and so do [term], [expression] and
    [relation] started there. *)
Theorem factor_rejects_other_tokens (fuel : nat) (s : SUBARUU) :
  token_at s <> NUMBER -> token_at s <> LETTER -> token_at s <> LEFT_PAREN ->
  factor fuel s = Throw (factor_message s) (failed (factor_message s) s)
  /\ term fuel s = Throw (factor_message s) (failed (factor_message s) s)
  /\ expression (S fuel) s
     = Throw (factor_message s) (failed (factor_message s) s)
  /\ relation (S fuel) s
     = Throw (factor_message s) (failed (factor_message s) s)
  /\ tokenizer_ (failed (factor_message s) s) = tokenizer_ s.
Proof.
  intros H1 H2 H3. pose proof (factor_other fuel s H1 H2 H3) as Hf.
  assert (Ht : term fuel s
               = Throw (factor_message s) (failed (factor_message s) s)).
  { rewrite term_unfold. now rewrite (bind_Throw _ _ _ _ _ Hf). }
  assert (He : expression (S fuel) s
               = Throw (factor_message s) (failed (factor_message s) s)).
  { rewrite expression_unfold, Ht. reflexivity. }
  split; [exact Hf|]. split; [exact Ht|]. split; [exact He|].
  split; [|reflexivity].
  rewrite relation_unfold, He. reflexivity.
Qed.

(** X2: a parenthesised factor has the value of the expression inside and
    ends just behind the right parenthesis; when the token after the inner
    expression is not a right parenthesis, [factor] throws, with the scanner
    left on that token. *)
Theorem factor_parenthesis (fuel : nat) (s s1 : SUBARUU) (v : Z) :
  token_at s = LEFT_PAREN ->
  expression fuel (step s) = Ok v s1 ->
  (token_at s1 = RIGHT_PAREN -> factor fuel s = Ok v (step s1))
  /\ (token_at s1 <> RIGHT_PAREN ->
      exists msg, factor fuel s = Throw msg (failed msg s1)).
Proof.
  unfold token_at at 1. intros E He.
  assert (Hf : factor fuel s
               = bind (accept RIGHT_PAREN) (fun _ => ret v) s1).
  { unfold factor, factor_body. unfold bind at 1, tokenizer at 1.
    rewrite E. unfold bind at 1, advance at 1. fold (step s).
    now rewrite (bind_Ok _ _ _ _ _ He). }
  rewrite Hf. split.
  - intros Hr. now rewrite (bind_Ok _ _ _ _ _ (accept_match _ _ Hr)).
  - intros Hr. destruct (accept_mismatch RIGHT_PAREN s1 Hr) as [msg Hm].
    exists msg. now rewrite (bind_Throw _ _ _ _ _ Hm).
Qed.

(** ** Precedence and associativity *)

Lemma term_loop_exit (f : M Z) n result token s :
  token <> ASTERISK -> token <> SLASH ->
  term_loop f (S n) result token s = Ok result s.
Proof.
  intros Ha Hs. cbn [term_loop].
  rewrite (bool_decide_eq_false_2 _ Ha), (bool_decide_eq_false_2 _ Hs).
  reflexivity.
Qed.

Lemma term_single_number n s :
  token_at s = NUMBER ->
  token_at (step s) <> ASTERISK -> token_at (step s) <> SLASH ->
  term (S n) s = Ok (Tokenizer.get_num (tokenizer_ s)) (step s).
Proof.
  intros Hn Ha Hs. rewrite term_unfold.
  rewrite (bind_Ok _ _ _ _ _ (factor_number _ s Hn)).
  unfold bind at 1, cur at 1. fold (token_at (step s)).
  now apply term_loop_exit.
Qed.

Lemma term_product n s :
  token_at s = NUMBER ->
  token_at (step s) = ASTERISK ->
  token_at (step (step s)) = NUMBER ->
  token_at (step (step (step s))) <> ASTERISK ->
  token_at (step (step (step s))) <> SLASH ->
  term (S (S n)) s
  = Ok (wrap (Tokenizer.get_num (tokenizer_ s)
              * Tokenizer.get_num (tokenizer_ (step (step s)))))
      (step (step (step s))).
Proof.
  intros H0 H1 H2 Ha Hs. rewrite term_unfold.
  rewrite (bind_Ok _ _ _ _ _ (factor_number _ s H0)).
  unfold bind at 1, cur at 1. fold (token_at (step s)). rewrite H1.
  cbn [term_loop].
  change (bool_decide (ASTERISK = ASTERISK)) with true. cbn [orb].
  unfold bind at 1, advance at 1. fold (step (step s)).
  rewrite (bind_Ok _ _ _ _ _ (factor_number _ _ H2)).
  destruct (decide (ASTERISK = ASTERISK)) as [_|N]; [|contradiction].
  unfold bind at 1, ret at 1. unfold bind at 1, cur at 1.
  fold (token_at (step (step (step s)))).
  now apply term_loop_exit.
Qed.

(** X3: multiplication binds tighter than addition: on the tokens
    [a + b * c], followed by a token that is no operator, [expression]
    returns [a + (b * c)] in machine arithmetic and ends behind [c]. *)
Theorem product_binds_tighter_than_sum (fuel : nat) (s : SUBARUU) :
  token_at s = NUMBER ->
  token_at (moved 1 s) = PLUS ->
  token_at (moved 2 s) = NUMBER ->
  token_at (moved 3 s) = ASTERISK ->
  token_at (moved 4 s) = NUMBER ->
  is_operator (token_at (moved 5 s)) = false ->
  expression (S (S (S fuel))) s
  = Ok (wrap (Tokenizer.get_num (tokenizer_ s)
              + wrap (Tokenizer.get_num (tokenizer_ (moved 2 s))
                      * Tokenizer.get_num (tokenizer_ (moved 4 s)))))
      (moved 5 s).
Proof.
  intros H0 H1 H2 H3 H4 H5.
  change (moved 1 s) with (step s) in *.
  change (moved 2 s) with (step (step s)) in *.
  change (moved 3 s) with (step (step (step s))) in *.
  change (moved 4 s) with (step (step (step (step s)))) in *.
  change (moved 5 s) with (step (step (step (step (step s))))) in *.
  assert (N5 : forall t, is_operator t = true ->
                 token_at (step (step (step (step (step s))))) <> t).
  { intros t Ht E. rewrite E, Ht in H5. discriminate. }
  rewrite expression_unfold.
  rewrite (term_single_number _ s H0)
    by (rewrite H1; discriminate).
  destruct (decide (token_at (step s) = NUMBER)) as [E|_];
    [rewrite H1 in E; discriminate|].
  rewrite expression_loop_step by (left; exact H1).
  rewrite (bind_Ok _ _ _ _ _
             (term_product _ (step (step s)) H2 H3 H4
                (N5 ASTERISK eq_refl) (N5 SLASH eq_refl))).
  unfold bind at 1, cur at 1.
  rewrite expression_loop_exit by (apply N5; reflexivity).
  rewrite H1. destruct (decide (PLUS = PLUS)); [reflexivity|contradiction].
Qed.

(** X4: subtraction associates to the left: on the tokens [a - b - c],
    followed by a token that is no operator, [expression] returns
    [(a - b) - c] in machine arithmetic and ends behind [c]. *)
Theorem subtraction_associates_left (fuel : nat) (s : SUBARUU) :
  token_at s = NUMBER ->
  token_at (moved 1 s) = MINUS ->
  token_at (moved 2 s) = NUMBER ->
  token_at (moved 3 s) = MINUS ->
  token_at (moved 4 s) = NUMBER ->
  is_operator (token_at (moved 5 s)) = false ->
  expression (S (S (S (S fuel)))) s
  = Ok (wrap (wrap (Tokenizer.get_num (tokenizer_ s)
                    - Tokenizer.get_num (tokenizer_ (moved 2 s)))
              - Tokenizer.get_num (tokenizer_ (moved 4 s))))
      (moved 5 s).
Proof.
  intros H0 H1 H2 H3 H4 H5.
  change (moved 1 s) with (step s) in *.
  change (moved 2 s) with (step (step s)) in *.
  change (moved 3 s) with (step (step (step s))) in *.
  change (moved 4 s) with (step (step (step (step s)))) in *.
  change (moved 5 s) with (step (step (step (step (step s))))) in *.
  assert (N5 : forall t, is_operator t = true ->
                 token_at (step (step (step (step (step s))))) <> t).
  { intros t Ht E. rewrite E, Ht in H5. discriminate. }
  rewrite expression_unfold.
  rewrite (term_single_number _ s H0) by (rewrite H1; discriminate).
  destruct (decide (token_at (step s) = NUMBER)) as [E|_];
    [rewrite H1 in E; discriminate|].
  rewrite expression_loop_step by (right; exact H1).
  rewrite (bind_Ok _ _ _ _ _ (term_single_number _ (step (step s)) H2
             ltac:(rewrite H3; discriminate) ltac:(rewrite H3; discriminate))).
  unfold bind at 1, cur at 1. fold (token_at (step (step (step s)))).
  rewrite expression_loop_step by (right; exact H3).
  rewrite (bind_Ok _ _ _ _ _
             (term_single_number _ (step (step (step (step s)))) H4
                (N5 ASTERISK eq_refl) (N5 SLASH eq_refl))).
  unfold bind at 1, cur at 1.
  rewrite expression_loop_exit by (apply N5; reflexivity).
  rewrite H1, H3.
  destruct (decide (MINUS = PLUS)); [discriminate|reflexivity].
Qed.


(** ** What evaluation and statements leave alone *)

(** X5: evaluating a factor, term, expression or relation changes nothing
    but the scanner position and the diagnostic stream: variables, line
    index, flags and output are as before, whether the evaluation returns,
    throws or is cut short. *)
Theorem evaluation_changes_only_scanner (fuel : nat) (s : SUBARUU) :
  same_but_scanner s (state_of (factor fuel s))
  /\ same_but_scanner s (state_of (term fuel s))
  /\ same_but_scanner s (state_of (expression fuel s))
  /\ same_but_scanner s (state_of (relation fuel s)).
Proof.
  split; [|split; [|split]].
  - apply (preserves_factor same_but_scanner).
  - apply (preserves_term same_but_scanner).
  - apply (preserves_expression same_but_scanner).
  - apply (preserves_relation same_but_scanner).
Qed.

#[local] Instance same_cout_frame : ScanFrame same_cout.
Proof. split; unfold same_cout; cbn; intros; congruence. Qed.

#[local] Instance same_store_frame : ScanFrame same_store.
Proof. split; unfold same_store; cbn; intros; congruence. Qed.

Lemma let_statement_same_cout n : preserves same_cout (let_statement n).
Proof. unfold let_statement. frame. all: intros s; reflexivity. Qed.

(** X6: only [PRINT] writes to the output stream: a statement that starts
    with any other token leaves the output as it was, also when it fails
    (errors and warnings go to the diagnostic stream). *)
Theorem only_print_writes_output (fuel : nat) (s : SUBARUU) :
  token_at s <> PRINT ->
  cout (state_of (statement fuel s)) = cout s.
Proof.
  intros Hp. unfold statement, bind at 1, cur at 1. fold (token_at s).
  assert (Hother : forall m : M unit,
            preserves same_cout m -> cout (state_of (m s)) = cout s)
    by (intros m Hm; apply Hm).
  pose proof (let_statement_same_cout fuel) as Hlet.
  destruct (token_at s) eqn:E; try contradiction; try reflexivity;
    apply Hother; frame.
Qed.

Lemma let_tail_ok n c s v s1 :
  token_at (step s) = EQUAL ->
  expression n (step (step s)) = Ok v s1 ->
  let_tail n c s = Ok tt (with_variables (<[c := v]> (variables_ s)) s1).
Proof.
  intros He Hv. unfold let_tail. unfold bind at 1, advance at 1.
  fold (step s).
  rewrite (bind_Ok _ _ _ _ _ (accept_match EQUAL _ He)).
  rewrite (bind_Ok _ _ _ _ _ Hv).
  pose proof (preserves_expression same_store n (step (step s))) as Hs.
  rewrite Hv in Hs. unfold same_store in Hs. cbn [state_of] in Hs.
  rewrite Hs. reflexivity.
Qed.

(** X7: a well-formed assignment stores the value of its right-hand side
    in the register of the lowercase-folded letter, and the letter read
    back as a factor afterwards, in either case, gives that value. *)
Theorem assignment_then_read (fuel : nat) (s s1 : SUBARUU) (c : ascii) (v : Z) :
  token_at s = LETTER ->
  Tokenizer.get_token_data (tokenizer_ s) = DChar c ->
  token_at (step s) = EQUAL ->
  expression fuel (step (step s)) = Ok v s1 ->
  exists s',
    let_statement fuel s = Ok tt s'
    /\ variables_ s' = <[tolower c := v]> (variables_ s)
    /\ forall k s2 c',
        variables_ s2 = variables_ s' ->
        token_at s2 = LETTER ->
        Tokenizer.get_token_data (tokenizer_ s2) = DChar c' ->
        tolower c' = tolower c ->
        factor k s2 = Ok v (step s2).
Proof.
  intros Hl Hc He Hv.
  exists (with_variables (<[tolower c := v]> (variables_ s)) s1).
  split; [|split].
  - rewrite (let_statement_letter fuel s c Hl Hc). now apply let_tail_ok.
  - reflexivity.
  - intros k s2 c' Hvars Hl2 Hc2 Hfold.
    rewrite (factor_letter k s2 c' Hl2 Hc2), Hvars, Hfold.
    cbn [with_variables variables_]. rewrite lookup_insert_eq. reflexivity.
Qed.

Lemma let_tail_store n c s :
  match let_tail n c s with
  | Ok _ _ => True
  | Throw _ s' => variables_ s' = variables_ s
  | OutOfFuel s' => variables_ s' = variables_ s
  end.
Proof.
  unfold let_tail.
  assert (Hpre : preserves same_store
            (bind advance (fun _ => bind (accept EQUAL) (fun _ => expression n))))
    by frame.
  specialize (Hpre s). unfold same_store in Hpre. revert Hpre.
  unfold bind. destruct (advance s) as [[] s1| |]; try (cbn; tauto).
  destruct (accept EQUAL s1) as [[] s2| |]; try (cbn; tauto).
  destruct (expression n s2) as [v s3| |]; cbn; tauto.
Qed.

(** X8: an assignment is all or nothing: when [let_statement] throws (no
    variable name, no equals sign, an error in the right-hand side) the
    whole variable store is as it was before. *)
Theorem failed_assignment_keeps_store
  (fuel : nat) (s s' : SUBARUU) (msg : string) :
  let_statement fuel s = Throw msg s' ->
  variables_ s' = variables_ s.
Proof.
  intros H. destruct (decide (token_at s = LETTER)) as [E|N].
  - destruct (Tokenizer.get_token_data (tokenizer_ s)) as [c|k] eqn:Hc.
    + rewrite (let_statement_letter fuel s c E Hc) in H.
      pose proof (let_tail_store fuel (tolower c) s) as Hs.
      rewrite H in Hs. exact Hs.
    + rewrite (let_statement_bad_payload fuel s k E Hc) in H.
      now injection H as _ <-.
  - rewrite (let_statement_not_letter fuel s N) in H.
    now injection H as _ <-.
Qed.

(** X9: the keyword [LET] is optional: a statement that starts with [LET]
    followed by a letter does what the statement starting at that letter
    does. *)
Theorem let_keyword_is_optional (fuel : nat) (s : SUBARUU) :
  token_at s = LET ->
  token_at (step s) = LETTER ->
  statement fuel s = statement fuel (step s).
Proof.
  intros H1 H2. unfold statement at 1, bind at 1, cur at 1.
  fold (token_at s). rewrite H1.
  rewrite (bind_Ok _ _ _ _ _ (accept_match LET s H1)).
  unfold statement, bind at 1, cur at 1. fold (token_at (step s)).
  rewrite H2. reflexivity.
Qed.


(** ** More on the line index *)

Lemma is_valid_line_number_shape tk num :
  is_valid_line_number tk num = true -> 10 <= num /\ Z.rem num 10 = 0.
Proof.
  unfold is_valid_line_number.
  destruct (Z.leb_spec 10 num); destruct (Z.eqb_spec (Z.rem num 10) 0);
    cbn [andb]; intros; try discriminate; auto.
Qed.

(** X10: every number in a line index built by [build_line_map] is at
    least 10 and a multiple of 10; so, as long as the index is the one
    built, a [GOTO] whose target is below 10 or no multiple of 10 always
    throws, whatever lines the program has. *)
Theorem line_index_holds_multiples_of_ten (n : nat) (s0 s1 : SUBARUU) :
  build_line_map n s0 = Ok tt s1 ->
  (forall num, is_Some (line_positions_ s1 !! num) ->
               10 <= num /\ Z.rem num 10 = 0)
  /\ (forall fuel s,
         line_positions_ s = line_positions_ s1 ->
         (Tokenizer.get_num (tokenizer_ (step s)) < 10
          \/ Z.rem (Tokenizer.get_num (tokenizer_ (step s))) 10 <> 0) ->
         exists msg s',
           goto_statement fuel s = Throw msg s'
           /\ cerr s' = cerr s ++ ["ERROR: " ++ msg]%string).
Proof.
  intros Hbuild.
  assert (Hshape : forall num, is_Some (line_positions_ s1 !! num) ->
                               10 <= num /\ Z.rem num 10 = 0).
  { intros num Hin.
    destruct (proj1 (build_line_map_records n s0 s1 Hbuild num) Hin)
      as (k & _ & _ & <- & Hvalid).
    now apply is_valid_line_number_shape in Hvalid. }
  split; [exact Hshape|].
  intros fuel s Hidx Hbad. apply goto_statement_absent.
  rewrite Hidx.
  destruct (line_positions_ s1 !! Tokenizer.get_num (tokenizer_ (step s)))
    as [b|] eqn:Hl; [|reflexivity].
  destruct (Hshape _ (ex_intro _ b Hl)). lia.
Qed.

Lemma reset_nth_token k tk :
  reset_is_absolute ->
  Tokenizer.reset (nth_token k tk) = Tokenizer.reset tk.
Proof.
  intros Habs. revert tk. induction k as [|k IH]; intros tk; [reflexivity|].
  cbn [nth_token]. rewrite IH. apply Habs.
Qed.

Lemma record_line_index_transport s t :
  tokenizer_ s = tokenizer_ t ->
  line_positions_ s = line_positions_ t ->
  line_positions_ (record_line s) = line_positions_ (record_line t).
Proof.
  intros Ht Hl. unfold record_line. rewrite Ht.
  destruct (_ && _); cbn [with_line_positions line_positions_];
    now rewrite Hl.
Qed.

Lemma scan_lines_transport n : forall s t s',
  tokenizer_ s = tokenizer_ t ->
  line_positions_ s = line_positions_ t ->
  scan_lines n s = Ok tt s' ->
  (exists k, tokenizer_ s' = nth_token k (tokenizer_ s))
  /\ scan_lines n t
     = Ok tt (with_tokenizer (tokenizer_ s')
                (with_line_positions (line_positions_ s') t)).
Proof.
  induction n as [|n IH]; intros s t s' Ht Hl H; [discriminate|].
  destruct (Tokenizer.finished (tokenizer_ s)) eqn:Hf.
  - rewrite (scan_lines_stop n s Hf) in H. injection H as <-.
    split; [exists O; reflexivity|].
    rewrite scan_lines_stop by (rewrite <- Ht; exact Hf).
    rewrite Ht, Hl. destruct t; reflexivity.
  - rewrite (scan_lines_step n s Hf) in H.
    assert (Ht' : tokenizer_ (step (record_line s))
                  = tokenizer_ (step (record_line t))).
    { cbn [step with_tokenizer tokenizer_].
      now rewrite !record_line_tokenizer, Ht. }
    assert (Hl' : line_positions_ (step (record_line s))
                  = line_positions_ (step (record_line t))).
    { cbn [step with_tokenizer line_positions_].
      now apply record_line_index_transport. }
    destruct (IH _ _ _ Ht' Hl' H) as [[k Hk] Hscan]. split.
    + exists (S k). rewrite Hk. cbn [step with_tokenizer tokenizer_ nth_token].
      now rewrite record_line_tokenizer.
    + rewrite scan_lines_step by (rewrite <- Ht; exact Hf).
      rewrite Hscan. unfold record_line. destruct (_ && _); reflexivity.
Qed.

(** X11: when [reset] returns the scanner to the same place wherever it
    stands, building the line index is idempotent: a second
    [build_line_map], on the interpreter the first one returned, returns it
    unchanged, whatever the index held before the first. *)
Theorem build_line_map_is_idempotent (n : nat) (s s1 : SUBARUU) :
  reset_is_absolute ->
  build_line_map n s = Ok tt s1 ->
  build_line_map n s1 = Ok tt s1.
Proof.
  intros Habs Hbuild. rewrite build_line_map_unfold in Hbuild.
  destruct (scan_lines n _) as [[] s2| |] eqn:Hscan; try discriminate.
  injection Hbuild as <-.
  destruct (scan_lines_transport n _ _ _ eq_refl eq_refl Hscan)
    as [[k Hk] _].
  cbn [with_tokenizer with_line_positions tokenizer_] in Hk.
  rewrite build_line_map_unfold.
  destruct (scan_lines_transport n
              (with_tokenizer (Tokenizer.reset (tokenizer_ s))
                 (with_line_positions ∅ s))
              (with_tokenizer
                 (Tokenizer.reset
                    (tokenizer_ (with_tokenizer
                                   (Tokenizer.reset (tokenizer_ s2)) s2)))
                 (with_line_positions ∅
                    (with_tokenizer (Tokenizer.reset (tokenizer_ s2)) s2)))
              s2) as [_ Hagain].
  - cbn [with_tokenizer with_line_positions tokenizer_].
    rewrite Hk, (proj2 (Habs _)), reset_nth_token by exact Habs.
    symmetry. apply Habs.
  - reflexivity.
  - exact Hscan.
  - rewrite Hagain. destruct s2; reflexivity.
Qed.

(** ** More on jumps *)

Lemma find_target_line_not_found n line : forall s s',
  find_target_line n line s = Ok false s' ->
  Tokenizer.finished (tokenizer_ s') = true
  /\ exists k, s' = moved k s.
Proof.
  induction n as [|n IH]; intros s s' H; [discriminate|].
  cbn [find_target_line] in H. unfold bind at 1, tokenizer at 1 in H.
  destruct (Tokenizer.finished (tokenizer_ s)) eqn:Hf.
  - injection H as <-. split; [exact Hf|]. exists O. destruct s; reflexivity.
  - destruct (bool_decide _ && _); [discriminate|].
    revert H. unfold bind at 1.
    destruct (skip_line n s) as [[] s1| |] eqn:Hskip; try discriminate.
    destruct (skip_line_moves _ _ _ Hskip) as [k1 ->].
    unfold bind at 1.
    destruct (eat_eol_moves (with_tokenizer (nth_token k1 (tokenizer_ s)) s))
      as [k2 ->].
    intros H. destruct (IH _ _ H) as (Hfin & k & ->).
    split; [exact Hfin|]. exists (k1 + k2 + k)%nat. unfold moved.
    cbn [with_tokenizer tokenizer_]. rewrite !nth_token_add.
    destruct s; reflexivity.
Qed.

(** X12: [find_target_line] moves the scanner and nothing else.  When it
    answers [true] the scanner stands just behind a number token whose
    value is the line looked for; when it answers [false] the scanner
    reports finished. *)
Theorem find_target_line_outcome
  (n : nat) (line : Z) (s s' : SUBARUU) (found : bool) :
  find_target_line n line s = Ok found s' ->
  (exists k, s' = moved k s)
  /\ (found = true ->
      exists k,
        s' = moved (S k) s
        /\ Tokenizer.current_token (nth_token k (tokenizer_ s)) = NUMBER
        /\ Tokenizer.get_num (nth_token k (tokenizer_ s)) = line)
  /\ (found = false -> Tokenizer.finished (tokenizer_ s') = true).
Proof.
  intros H. destruct found.
  - destruct (find_target_line_found _ _ _ _ H) as (k & -> & Htok & Hnum).
    split; [exists (S k); reflexivity|]. split; [|discriminate].
    intros _. exists k. auto.
  - destruct (find_target_line_not_found _ _ _ _ H) as (Hfin & k & ->).
    split; [exists k; reflexivity|]. split; [discriminate|]. auto.
Qed.

(** X13: when [GOTO] returns, the statement was [GOTO number end-of-line],
    the number is in the line index, and the interpreter differs from the
    one before only in its scanner, which was reset and now stands just
    behind a number token with the target's value. *)
Theorem goto_statement_lands_on_target (fuel : nat) (s s' : SUBARUU) :
  goto_statement fuel s = Ok tt s' ->
  let line := Tokenizer.get_num (tokenizer_ (step s)) in
  let start := Tokenizer.reset (tokenizer_ (moved 3 s)) in
  token_at s = GOTO /\ token_at (moved 1 s) = NUMBER
  /\ token_at (moved 2 s) = EOL
  /\ is_Some (line_positions_ s !! line)
  /\ exists k,
      s' = with_tokenizer (nth_token (S k) start) s
      /\ Tokenizer.current_token (nth_token k start) = NUMBER
      /\ Tokenizer.get_num (nth_token k start) = line.
Proof.
  intros H line start.
  destruct (decide (token_at s = GOTO)) as [H1|N1].
  2:{ unfold goto_statement in H.
      destruct (accept_throws GOTO s N1) as [msg Hm].
      rewrite (bind_Throw _ _ _ _ _ Hm) in H. discriminate. }
  destruct (decide (token_at (step s) = NUMBER)) as [H2|N2].
  2:{ unfold goto_statement in H.
      rewrite (bind_Ok _ _ _ _ _ (accept_match GOTO s H1)) in H.
      unfold bind at 1, tokenizer at 1 in H.
      destruct (accept_throws NUMBER _ N2) as [msg Hm].
      rewrite (bind_Throw _ _ _ _ _ Hm) in H. discriminate. }
  destruct (decide (token_at (step (step s)) = EOL)) as [H3|N3].
  2:{ unfold goto_statement in H.
      rewrite (bind_Ok _ _ _ _ _ (accept_match GOTO s H1)) in H.
      unfold bind at 1, tokenizer at 1 in H.
      rewrite (bind_Ok _ _ _ _ _ (accept_match NUMBER _ H2)) in H.
      destruct (accept_throws EOL _ N3) as [msg Hm].
      rewrite (bind_Throw _ _ _ _ _ Hm) in H. discriminate. }
  rewrite (goto_statement_wellformed fuel s H1 H2 H3) in H. fold line in H.
  destruct (line_positions_ (step (step (step s))) !! line) as [b|] eqn:Hl.
  2:{ rewrite jump_absent in H by exact Hl. discriminate. }
  rewrite jump_present in H by eauto.
  destruct (find_target_line fuel line (rewound (step (step (step s)))))
    as [[] s2| |] eqn:Hfind; try discriminate.
  injection H as <-.
  destruct (find_target_line_found _ _ _ _ Hfind) as (k & -> & Htok & Hnum).
  split; [exact H1|]. split; [exact H2|]. split; [exact H3|].
  split; [exists b; exact Hl|].
  exists k. split; [destruct s; reflexivity|]. split; assumption.
Qed.

(** X14: [GOTO number] must be followed by an end-of-line token: when it is
    not (a [GOTO] at the very end of a file with no newline, say) the
    statement throws the syntax error of [accept] before it looks the
    target up, whether the line exists or not. *)
Theorem goto_requires_end_of_line (fuel : nat) (s : SUBARUU) :
  token_at s = GOTO ->
  token_at (moved 1 s) = NUMBER ->
  token_at (moved 2 s) <> EOL ->
  exists msg,
    goto_statement fuel s = Throw msg (failed msg (moved 2 s))
    /\ msg = ("*subaruu.cpp: unexpected `" ++
              Tokenizer.token_to_string (tokenizer_ (moved 2 s))
                (token_at (moved 2 s)) ++
              "` expected `" ++
              Tokenizer.token_to_string (tokenizer_ (moved 2 s)) EOL ++
              "`")%string.
Proof.
  change (moved 1 s) with (step s). change (moved 2 s) with (step (step s)).
  intros H1 H2 N3. unfold goto_statement.
  rewrite (bind_Ok _ _ _ _ _ (accept_match GOTO s H1)).
  unfold bind at 1, tokenizer at 1.
  rewrite (bind_Ok _ _ _ _ _ (accept_match NUMBER _ H2)).
  eexists. split.
  - apply bind_Throw. unfold accept, bind, cur.
    fold (token_at (step (step s))).
    destruct (decide (token_at (step (step s)) <> EOL)); [|contradiction].
    reflexivity.
  - reflexivity.
Qed.


(** ** The run loop *)

Lemma then_true_is_true {A} (m : M A) s b s' :
  bind m (fun _ => ret true) s = Ok b s' -> b = true.
Proof.
  unfold bind. destruct (m s) as [a s1| |]; try discriminate.
  unfold ret. now intros [= <- _].
Qed.

Lemma run_iteration_break n s s' :
  run_iteration n s = Ok false s' -> execution_finished_ s' = true.
Proof.
  unfold run_iteration, bind at 1.
  destruct (Tokenizer.finished (tokenizer_ s)).
  - now intros [= <-].
  - destruct (skip_to_line_ s); intros H; apply then_true_is_true in H;
      discriminate.
Qed.

Lemma run_loop_finished n : forall s s',
  run_loop n s = Ok tt s' -> execution_finished_ s' = true.
Proof.
  induction n as [|n IH]; intros s s' H; [discriminate|].
  cbn [run_loop] in H. unfold bind at 1 in H.
  destruct (finished s) eqn:Hf.
  - injection H as <-. exact Hf.
  - unfold bind at 1 in H.
    destruct (run_iteration n s) as [[] s1| |] eqn:Hit; try discriminate.
    + now apply (IH s1).
    + injection H as <-. now apply (run_iteration_break n s).
Qed.

(** X15: [run] returns normally only in the finished state: whenever it
    returns, the finished flag is set, and the line index is the one built
    at the start. *)
Theorem run_returns_finished (n : nat) (s s' : SUBARUU) :
  run n s = Ok tt s' ->
  execution_finished_ s' = true
  /\ exists s1, build_line_map n s = Ok tt s1
                /\ line_positions_ s' = line_positions_ s1.
Proof.
  intros H. pose proof (run_same_index n s) as Hidx. rewrite H in Hidx.
  unfold run, bind in H.
  destruct (build_line_map n s) as [[] s1| |] eqn:Hb; try discriminate.
  split; [now apply (run_loop_finished n s1)|].
  exists s1. split; [reflexivity|exact Hidx].
Qed.

Lemma preserves_skip_rest_of_line R `{!ScanFrame R} n :
  preserves R (skip_rest_of_line n).
Proof. unfold skip_rest_of_line. frame. Qed.

(** X16: while the interpreter searches for a line ([skip_to_line_] set),
    an iteration of the run loop on a line that does not start with the
    target number executes nothing: it only moves the scanner, and
    variables, line index, output, diagnostics and the search flags stay
    as they were. *)
Theorem search_mode_skips_without_executing (n : nat) (s : SUBARUU) :
  skip_to_line_ s = true ->
  Tokenizer.finished (tokenizer_ s) = false ->
  (token_at s <> NUMBER
   \/ Tokenizer.get_num (tokenizer_ s) <> target_line_ s) ->
  same_but_scanner s (state_of (run_iteration n s))
  /\ cerr (state_of (run_iteration n s)) = cerr s.
Proof.
  intros Hskip Hfin Hother.
  assert (Hrest : run_iteration n s
                  = bind (skip_rest_of_line n) (fun _ => ret true) s).
  { unfold run_iteration, bind at 1. rewrite Hfin, Hskip.
    fold (token_at s).
    destruct (decide (token_at s = NUMBER)) as [E|N]; [|reflexivity].
    destruct (Z.eqb_spec (Tokenizer.get_num (tokenizer_ s)) (target_line_ s))
      as [Eq|_]; [|reflexivity].
    destruct Hother; contradiction. }
  rewrite Hrest. split.
  - assert (Hp : preserves same_but_scanner
                   (bind (skip_rest_of_line n) (fun _ => ret true))).
    { pose proof (preserves_skip_rest_of_line same_but_scanner n). frame. }
    apply Hp.
  - unfold skip_rest_of_line, bind.
    destruct (skip_line n s) as [[] s1| |] eqn:Hs.
    + destruct (skip_line_moves _ _ _ Hs) as [k ->].
      destruct (eat_eol_moves (with_tokenizer (nth_token k (tokenizer_ s)) s))
        as [k2 ->]. reflexivity.
    + exfalso. revert Hs. clear. revert s.
      induction n as [|n IH]; intros s; [discriminate|].
      cbn [skip_line]. unfold bind at 1, tokenizer at 1.
      destruct (_ && _); [|discriminate].
      unfold bind at 1, advance at 1. apply IH.
    + cbn [state_of]. revert Hs. clear. revert s s0.
      induction n as [|n IH]; intros s s0.
      * now intros [= <-].
      * cbn [skip_line]. unfold bind at 1, tokenizer at 1.
        destruct (_ && _); [|discriminate].
        unfold bind at 1, advance at 1. intros H.
        apply IH in H. exact H.
Qed.

(** ** The two line-number tests *)

(** X17: the test used by [PRINT] is the stricter of the two: a number
    token that [is_line_number] accepts is accepted by
    [is_valid_line_number] as well, and a number token accepted by
    [is_valid_line_number] but not by [is_line_number] is one at which the
    scanner reports finished. *)
Theorem is_line_number_is_stricter (tk : T) :
  (is_line_number tk = true ->
   Tokenizer.current_token tk = NUMBER
   /\ is_valid_line_number tk (Tokenizer.get_num tk) = true)
  /\ (Tokenizer.current_token tk = NUMBER ->
      is_valid_line_number tk (Tokenizer.get_num tk) = true ->
      is_line_number tk = false ->
      Tokenizer.finished tk = true).
Proof.
  unfold is_line_number, is_valid_line_number. split.
  - destruct (decide (Tokenizer.current_token tk <> NUMBER)) as [N|Y];
      [discriminate|].
    destruct ((10 <=? Tokenizer.get_num tk)
              && (Z.rem (Tokenizer.get_num tk) 10 =? 0)); [|discriminate].
    intros Hsp. rewrite Hsp. split.
    + destruct (decide (Tokenizer.current_token tk = NUMBER));
        [assumption|contradiction].
    + destruct (Tokenizer.finished tk); reflexivity.
  - intros E. destruct (decide (Tokenizer.current_token tk <> NUMBER));
      [contradiction|].
    destruct ((10 <=? Tokenizer.get_num tk)
              && (Z.rem (Tokenizer.get_num tk) 10 =? 0)); [|discriminate].
    destruct (Tokenizer.finished tk); [reflexivity|].
    intros -> H. discriminate H.
Qed.

(** ** How statements end *)

Lemma prints_same_but_scanner n s items s' :
  prints (expression n) s items s' -> same_but_scanner s s'.
Proof.
  induction 1 as [s Hstop|s items s' Hgo Htok Hp IH|s items s' Hgo Htok Hp IH
                 |s value s1 items s' Hgo Htok He Hp IH].
  - apply scan_refl.
  - eapply scan_trans; [|exact IH]. apply scan_tokenizer.
  - eapply scan_trans; [|exact IH]. apply scan_tokenizer.
  - eapply scan_trans; [|exact IH].
    pose proof (preserves_expression same_but_scanner n s) as H.
    now rewrite He in H.
Qed.

(** X18: what a [PRINT] statement does once its item loop has ended at
    [s']: on an end-of-file token it sets the finished flag and leaves the
    scanner there; on an end-of-line token it moves the scanner one token
    on and leaves the flag alone; in both cases variables and line index
    are untouched. *)
Theorem print_statement_end_of_statement
  (n : nat) (s0 s' : SUBARUU) (items : list item) :
  token_at s0 = PRINT ->
  prints (expression n) (step s0) items s' ->
  (length items < n)%nat ->
  token_at s' = EOF_TOKEN \/ token_at s' = EOL ->
  exists s'',
    print_statement n s0 = Ok tt s''
    /\ tokenizer_ s'' = (if decide (token_at s' = EOF_TOKEN)
                         then tokenizer_ s'
                         else Tokenizer.next_token (tokenizer_ s'))
    /\ execution_finished_ s'' = (if decide (token_at s' = EOF_TOKEN)
                                  then true
                                  else execution_finished_ s0)
    /\ variables_ s'' = variables_ s0
    /\ line_positions_ s'' = line_positions_ s0.
Proof.
  intros Htok Hp Hn Hend.
  destruct (print_loop_prints (expression n) (ignores_expression n)
              (expression_cout n) _ _ _ Hp) as [_ Hloop].
  specialize (Hloop n false (cout (step s0)) Hn).
  rewrite with_cout_same in Hloop.
  destruct (prints_same_but_scanner n _ _ _ Hp) as (Hv & Hl & Hf & _).
  cbn [step with_tokenizer variables_ line_positions_ execution_finished_]
    in Hv, Hl, Hf.
  unfold print_statement.
  rewrite (bind_Ok _ _ _ _ _ (accept_match PRINT s0 Htok)).
  rewrite (bind_Ok _ _ _ _ _ Hloop).
  unfold print_end, bind, put, tokenizer.
  cbn [with_cout tokenizer_]. fold (token_at s').
  assert (Hnl : is_line_number (tokenizer_ s') = false).
  { unfold is_line_number. fold (token_at s').
    destruct (decide (token_at s' <> NUMBER)) as [_|Y]; [reflexivity|].
    exfalso. apply Y. destruct Hend as [-> | ->]; discriminate. }
  rewrite Hnl.
  destruct (decide (token_at s' = EOF_TOKEN)) as [E|N].
  - eexists. split; [reflexivity|]. cbn. auto.
  - destruct Hend as [E|E]; [contradiction|].
    destruct (decide (token_at s' = EOL)); [|contradiction].
    eexists. split; [reflexivity|]. cbn. auto.
Qed.

(** X19: [IF] checks its [THEN] clause even when the condition is false:
    if no number follows [THEN], the statement throws the syntax error,
    with the scanner left behind [THEN], whatever the relation's value. *)
Theorem if_statement_needs_line_number
  (fuel : nat) (s s1 : SUBARUU) (c : Z) :
  token_at s = IF ->
  relation fuel (step s) = Ok c s1 ->
  token_at s1 = THEN ->
  token_at (step s1) <> NUMBER ->
  if_statement fuel s
  = Throw "Syntax Error: Expected line number after THEN"
      (failed "Syntax Error: Expected line number after THEN" (step s1)).
Proof.
  intros H1 Hrel H2 N3. unfold if_statement.
  rewrite (bind_Ok _ _ _ _ _ (accept_match IF s H1)).
  rewrite (bind_Ok _ _ _ _ _ Hrel).
  rewrite (bind_Ok _ _ _ _ _ (accept_match THEN s1 H2)).
  unfold bind at 1, tokenizer at 1. fold (token_at (step s1)).
  destruct (decide (token_at (step s1) <> NUMBER)); [|contradiction].
  reflexivity.
Qed.


(** X20: a statement must start with [REM], [PRINT], [IF], [GOTO], [LET]
    or a letter; on any other token [statement] throws and changes nothing
    but the diagnostic stream.  In particular a line that holds only its
    number is an error: [line_statement] drops the number and fails on the
    end of line that follows. *)
Theorem unrecognized_statement_is_error (n : nat) (s : SUBARUU) :
  starts_statement (token_at s) = false ->
  statement n s = Throw unrecognized (failed unrecognized s)
  /\ forall s0,
      token_at s0 = NUMBER -> s = step s0 ->
      line_statement (S n) s0 = Throw unrecognized (failed unrecognized s).
Proof.
  intros Hs.
  assert (Hst : forall m, statement m s
                          = Throw unrecognized (failed unrecognized s)).
  { intros m. unfold statement, bind at 1, cur at 1. fold (token_at s).
    destruct (token_at s); try discriminate Hs; reflexivity. }
  split; [apply Hst|].
  intros s0 Hnum ->. unfold line_statement.
  assert (Hblank : skip_blank (S n) s0 = Ok tt s0).
  { cbn [skip_blank]. unfold bind, cur. fold (token_at s0). rewrite Hnum.
    destruct (decide (NUMBER = EOL)); [discriminate|reflexivity]. }
  rewrite (bind_Ok _ _ _ _ _ Hblank).
  unfold bind at 1, cur at 1. fold (token_at s0). rewrite Hnum.
  destruct (decide (NUMBER = EOF_TOKEN)); [discriminate|].
  destruct (decide (NUMBER = NUMBER)); [|contradiction].
  unfold bind at 1, advance at 1. fold (step s0). apply Hst.
Qed.


End Interpreter.

Arguments Ok {T A} a s.
Arguments Throw {T A} msg s.
Arguments OutOfFuel {T A} s.

(** ** The interpreter on sample programs *)

Abbreviation fresh p := (SUBARUU_new (TraceTok.load p)).
Abbreviation indexed p := (state_of (build_line_map 9 (fresh p))).
Abbreviation built p := (state_of (build_line_map 20 (fresh p))).

(** Against C1 as stated: after the term [5] the next token is the number
    7, which is no line number, and yet [expression] returns 5 with the
    scanner still on that 7. *)
Lemma expression_stops_at_other_numbers_too :
  ~ (forall v s1,
        term 2 (fresh Samples.two_numbers) = Ok v s1 ->
        (expression 3 (fresh Samples.two_numbers) = Ok v s1 <->
         token_at s1 = NUMBER
         /\ is_valid_line_number (tokenizer_ s1)
              (Tokenizer.get_num (tokenizer_ s1)) = true)).
Proof.
  intros H.
  assert (Hterm : term 2 (fresh Samples.two_numbers)
                  = Ok 5 (step (fresh Samples.two_numbers)))
    by (vm_compute; reflexivity).
  assert (Hexpr : expression 3 (fresh Samples.two_numbers)
                  = Ok 5 (step (fresh Samples.two_numbers)))
    by (vm_compute; reflexivity).
  destruct (proj1 (H _ _ Hterm) Hexpr) as [_ Hvalid].
  vm_compute in Hvalid. discriminate.
Qed.

(** [3 20]: the 20 is left for the enclosing statement. *)
Lemma expression_stops_before_line_number_witness :
  term 2 (fresh Samples.value_then_line)
  = Ok 3 (step (fresh Samples.value_then_line))
  /\ token_at (step (fresh Samples.value_then_line)) = NUMBER
  /\ is_valid_line_number
       (tokenizer_ (step (fresh Samples.value_then_line)))
       (Tokenizer.get_num (tokenizer_ (step (fresh Samples.value_then_line))))
     = true
  /\ expression 3 (fresh Samples.value_then_line)
     = Ok 3 (step (fresh Samples.value_then_line)).
Proof.
  assert (Hterm : term 2 (fresh Samples.value_then_line)
                  = Ok 3 (step (fresh Samples.value_then_line)))
    by (vm_compute; reflexivity).
  split; [exact Hterm|]. split; [reflexivity|]. split; [reflexivity|].
  apply (proj1 (expression_stops_before_line_number 2 _ _ 3 Hterm));
    reflexivity.
Defined.

(** [GOTO 15] with no line 15 is the "not found" error; [GOTO 10] alone
    puts 10 into the index, and the rescan then fails with the internal
    error. *)
Lemma jump_to_unknown_line_is_fatal_witness :
  (line_positions_ (fresh Samples.goto_fifteen) !! 15 = None
   /\ goto_statement 9 (fresh Samples.goto_fifteen)
      = Throw (not_found_message 15)
          (failed (not_found_message 15)
             (step (step (step (fresh Samples.goto_fifteen))))))
  /\ (is_Some (line_positions_ (indexed Samples.goto_ten) !! 10)
      /\ find_target_line 9 10
           (rewound (step (step (step (indexed Samples.goto_ten)))))
         = Ok false (step (step (step (indexed Samples.goto_ten))))
      /\ goto_statement 9 (indexed Samples.goto_ten)
         = Throw (internal_message 10)
             (failed (internal_message 10)
                (step (step (step (indexed Samples.goto_ten)))))).
Proof.
  destruct (@jump_to_unknown_line_is_fatal TraceTok.t TraceTok.ops)
    as (Hgoto & _ & Hinternal & _).
  split.
  - assert (Habs : line_positions_ (fresh Samples.goto_fifteen) !! 15 = None)
      by reflexivity.
    split; [exact Habs|].
    exact (proj2 (Hgoto 9%nat (fresh Samples.goto_fifteen) Habs)
             eq_refl eq_refl eq_refl).
  - assert (Hin : is_Some (line_positions_ (indexed Samples.goto_ten) !! 10))
      by (vm_compute; eauto).
    assert (Hfind : find_target_line 9 10
              (rewound (step (step (step (indexed Samples.goto_ten)))))
            = Ok false (step (step (step (indexed Samples.goto_ten)))))
      by (vm_compute; reflexivity).
    split; [exact Hin|]. split; [exact Hfind|].
    exact (Hinternal 9%nat (indexed Samples.goto_ten) _
             eq_refl eq_refl eq_refl Hin Hfind).
Defined.

(** [IF 0 THEN 100]: the 100 and the end of line are consumed, the next
    statement is [PRINT 1].  [10 IF 1 THEN 30] in the three-line program:
    the statement returns on the [PRINT 2] of line 30. *)
Lemma if_statement_consumes_target_witness :
  (token_at (fresh Samples.if_false) = IF
   /\ relation 3 (step (fresh Samples.if_false))
      = Ok 0 (step (step (fresh Samples.if_false)))
   /\ token_at (step (step (fresh Samples.if_false))) = THEN
   /\ token_at (step (step (step (fresh Samples.if_false)))) = NUMBER
   /\ if_statement 3 (fresh Samples.if_false)
      = Ok tt (step (step (step (step (step (fresh Samples.if_false)))))))
  /\ (token_at (step (built Samples.if_true)) = IF
      /\ relation 12 (step (step (built Samples.if_true)))
         = Ok 1 (step (step (step (built Samples.if_true))))
      /\ token_at (step (step (step (built Samples.if_true)))) = THEN
      /\ token_at (step (step (step (step (built Samples.if_true))))) = NUMBER
      /\ 1 <> 0
      /\ is_Some (line_positions_ (moved 5 (built Samples.if_true)) !! 30)
      /\ target_after [5; 3]%nat 30
           (Tokenizer.reset (tokenizer_ (moved 5 (built Samples.if_true))))
      /\ (offset [5; 3]%nat < 12)%nat
      /\ if_statement 12 (step (built Samples.if_true))
         = Ok tt (moved 11 (built Samples.if_true))
      /\ token_at (moved 10 (built Samples.if_true)) = NUMBER
      /\ Tokenizer.get_num (tokenizer_ (moved 10 (built Samples.if_true))) = 30
      /\ token_at (moved 11 (built Samples.if_true)) = PRINT).
Proof.
  split.
  - assert (Hrel : relation 3 (step (fresh Samples.if_false))
                   = Ok 0 (step (step (fresh Samples.if_false))))
      by (vm_compute; reflexivity).
    assert (H1 : token_at (fresh Samples.if_false) = IF) by reflexivity.
    assert (H2 : token_at (step (step (fresh Samples.if_false))) = THEN)
      by reflexivity.
    assert (H3 : token_at (step (step (step (fresh Samples.if_false))))
                 = NUMBER) by reflexivity.
    split; [exact H1|]. split; [exact Hrel|].
    split; [exact H2|]. split; [exact H3|].
    exact (proj1 (if_statement_consumes_target 3 (fresh Samples.if_false) _ 0
                    H1 Hrel H2 H3) eq_refl).
  - assert (H1 : token_at (step (built Samples.if_true)) = IF)
      by (vm_compute; reflexivity).
    assert (Hrel : relation 12 (step (step (built Samples.if_true)))
                   = Ok 1 (step (step (step (built Samples.if_true)))))
      by (vm_compute; reflexivity).
    assert (H2 : token_at (step (step (step (built Samples.if_true)))) = THEN)
      by (vm_compute; reflexivity).
    assert (H3 : token_at (step (step (step (step (built Samples.if_true)))))
                 = NUMBER) by (vm_compute; reflexivity).
    assert (Hc : 1 <> 0) by discriminate.
    assert (Hin : is_Some
                    (line_positions_ (moved 5 (built Samples.if_true)) !! 30))
      by (vm_compute; eauto).
    assert (Htarget : target_after [5; 3]%nat 30
              (Tokenizer.reset
                 (tokenizer_ (moved 5 (built Samples.if_true))))).
    { assert (Etk : Tokenizer.reset
                      (tokenizer_ (moved 5 (built Samples.if_true)))
                    = TraceTok.load Samples.if_true)
        by (vm_compute; reflexivity).
      rewrite Etk. vm_compute.
      repeat split.
      all: first [intros [_ H]; discriminate H | intros H; discriminate H]. }
    assert (Hfuel : (offset [5; 3]%nat < 12)%nat) by (vm_compute; lia).
    split; [exact H1|]. split; [exact Hrel|]. split; [exact H2|].
    split; [exact H3|]. split; [exact Hc|]. split; [exact Hin|].
    split; [exact Htarget|]. split; [exact Hfuel|].
    destruct (proj2 (proj2 (if_statement_consumes_target 12
                              (step (built Samples.if_true)) _ 1
                              H1 Hrel H2 H3)) Hc [5; 3]%nat Hin Htarget Hfuel)
      as [Hrun _].
    split; [rewrite Hrun; vm_compute; reflexivity|].
    split; [vm_compute; reflexivity|].
    split; vm_compute; reflexivity.
Defined.


(** Against C3 as stated: in [( 0 - 2147483647 - 1 ) / ( 0 - 1 )] the
    operands are the least machine integer and -1, the divisor is not zero,
    and the division is no quotient: the evaluation is aborted. *)
Lemma overflowing_division_aborts :
  factor 6 (fresh Samples.overflowing_division)
  = Ok INT_MIN (moved 7 (fresh Samples.overflowing_division))
  /\ token_at (moved 7 (fresh Samples.overflowing_division)) = SLASH
  /\ factor 6 (moved 8 (fresh Samples.overflowing_division))
     = Ok (-1) (moved 13 (fresh Samples.overflowing_division))
  /\ -1 <> 0
  /\ term 6 (fresh Samples.overflowing_division)
     = Throw division_trap (moved 13 (fresh Samples.overflowing_division))
  /\ forall q s',
      term 6 (fresh Samples.overflowing_division) <> Ok q s'.
Proof.
  assert (H : term 6 (fresh Samples.overflowing_division)
              = Throw division_trap
                  (moved 13 (fresh Samples.overflowing_division)))
    by (vm_compute; reflexivity).
  split; [vm_compute; reflexivity|]. split; [reflexivity|].
  split; [vm_compute; reflexivity|]. split; [discriminate|].
  split; [exact H|]. intros q s'. rewrite H. discriminate.
Qed.

(** [7 / 2] is 3 with no diagnostic; [7 / 0] is 0 with one warning. *)
Lemma division_truncates_or_warns_witness :
  (factor 3 (fresh Samples.divide_by_two)
   = Ok 7 (step (fresh Samples.divide_by_two))
   /\ token_at (step (fresh Samples.divide_by_two)) = SLASH
   /\ factor 3 (step (step (fresh Samples.divide_by_two)))
      = Ok 2 (step (step (step (fresh Samples.divide_by_two))))
   /\ 2 <> 0 /\ ~ (7 = INT_MIN /\ 2 = -1)
   /\ term 3 (fresh Samples.divide_by_two)
      = Ok 3 (step (step (step (fresh Samples.divide_by_two)))))
  /\ (factor 3 (fresh Samples.divide_by_zero)
      = Ok 7 (step (fresh Samples.divide_by_zero))
      /\ token_at (step (fresh Samples.divide_by_zero)) = SLASH
      /\ factor 3 (step (step (fresh Samples.divide_by_zero)))
         = Ok 0 (step (step (step (fresh Samples.divide_by_zero))))
      /\ term 3 (fresh Samples.divide_by_zero)
         = Ok 0 (warned (step (step (step (fresh Samples.divide_by_zero)))))
      /\ cerr (warned (step (step (step (fresh Samples.divide_by_zero)))))
         = ["WARNING: *warning: divide by zero"%string]).
Proof.
  split.
  - assert (H1 : factor 3 (fresh Samples.divide_by_two)
                 = Ok 7 (step (fresh Samples.divide_by_two)))
      by (vm_compute; reflexivity).
    assert (H2 : token_at (step (fresh Samples.divide_by_two)) = SLASH)
      by reflexivity.
    assert (H3 : factor 3 (step (step (fresh Samples.divide_by_two)))
                 = Ok 2 (step (step (step (fresh Samples.divide_by_two)))))
      by (vm_compute; reflexivity).
    assert (Hnz : 2 <> 0) by discriminate.
    assert (Hov : ~ (7 = INT_MIN /\ 2 = -1)) by (intros [H _]; discriminate H).
    destruct (division_truncates_or_warns 2 _ _ _ 7 2 H1 H2 H3)
      as [Hquot _].
    destruct (Hquot Hnz Hov) as (_ & _ & Hterm).
    split; [exact H1|]. split; [exact H2|]. split; [exact H3|].
    split; [exact Hnz|]. split; [exact Hov|].
    rewrite Hterm. reflexivity.
  - assert (H1 : factor 3 (fresh Samples.divide_by_zero)
                 = Ok 7 (step (fresh Samples.divide_by_zero)))
      by (vm_compute; reflexivity).
    assert (H2 : token_at (step (fresh Samples.divide_by_zero)) = SLASH)
      by reflexivity.
    assert (H3 : factor 3 (step (step (fresh Samples.divide_by_zero)))
                 = Ok 0 (step (step (step (fresh Samples.divide_by_zero)))))
      by (vm_compute; reflexivity).
    destruct (division_truncates_or_warns 2 _ _ _ 7 0 H1 H2 H3)
      as [_ Hzero].
    destruct (Hzero eq_refl) as (_ & Hcerr & Hterm).
    split; [exact H1|]. split; [exact H2|]. split; [exact H3|].
    split; [|exact Hcerr].
    rewrite Hterm. reflexivity.
Defined.

(** Against C6 as stated: in [PRINT - 5] the item loop ends on the minus
    sign, which is neither an end of line, nor the end of the file, nor a
    line number. *)
Lemma print_loop_stops_at_minus :
  ~ (print_loop (expression 3) 3 false (step (fresh Samples.print_minus))
     = Ok tt (step (fresh Samples.print_minus))
     <-> token_at (step (fresh Samples.print_minus)) = EOL
         \/ token_at (step (fresh Samples.print_minus)) = EOF_TOKEN
         \/ is_line_number (tokenizer_ (step (fresh Samples.print_minus)))
            = true).
Proof.
  intros [Hstop _].
  assert (Hloop : print_loop (expression 3) 3 false
                    (step (fresh Samples.print_minus))
                  = Ok tt (step (fresh Samples.print_minus)))
    by (vm_compute; reflexivity).
  destruct (Hstop Hloop) as [H|[H|H]]; vm_compute in H; discriminate H.
Qed.

(** The same position satisfies [print_stops]. *)
Lemma print_loop_stops_exactly_witness :
  print_stops (tokenizer_ (step (fresh Samples.print_minus))) = true
  /\ print_loop (expression 3) 3 false (step (fresh Samples.print_minus))
     = Ok tt (step (fresh Samples.print_minus)).
Proof.
  assert (Hstop : print_stops (tokenizer_ (step (fresh Samples.print_minus)))
                  = true) by reflexivity.
  split; [exact Hstop|].
  exact (proj1 (print_loop_stops_exactly (expression 3) 2 false
                  (step (fresh Samples.print_minus))) Hstop).
Defined.

(** [PRINT "HI" 5] writes the line [HI 5]. *)
Lemma print_statement_spacing_witness :
  token_at (fresh Samples.print_hi_5) = PRINT
  /\ prints (expression 3) (step (fresh Samples.print_hi_5))
       [IString "HI"; IValue 5]
       (step (step (step (fresh Samples.print_hi_5))))
  /\ (length [IString "HI"; IValue 5] < 3)%nat
  /\ exists s'',
      print_statement 3 (fresh Samples.print_hi_5) = Ok tt s''
      /\ cout s'' = ["HI"; " "; "5"; endl]%string
      /\ String.concat "" (cout s'') = ("HI 5" ++ endl)%string.
Proof.
  assert (Htok : token_at (fresh Samples.print_hi_5) = PRINT) by reflexivity.
  assert (Hitems : prints (expression 3) (step (fresh Samples.print_hi_5))
                     [IString "HI"; IValue 5]
                     (step (step (step (fresh Samples.print_hi_5))))).
  { refine (prints_string (expression 3)
              (step (fresh Samples.print_hi_5)) [IValue 5] _ _ _ _);
      [reflexivity|reflexivity|].
    refine (prints_value (expression 3)
              (step (step (fresh Samples.print_hi_5))) 5
              (step (step (step (fresh Samples.print_hi_5)))) [] _ _ _ _ _);
      [reflexivity|reflexivity|vm_compute; reflexivity|].
    apply prints_stop. reflexivity. }
  assert (Hlen : (length [IString "HI"; IValue 5] < 3)%nat) by (cbn; lia).
  split; [exact Htok|]. split; [exact Hitems|]. split; [exact Hlen|].
  destruct (print_statement_spacing 3 _ _ _ Htok Hitems Hlen)
    as (s'' & Hrun & Hout).
  exists s''. split; [exact Hrun|].
  split; [exact Hout|]. rewrite Hout. reflexivity.
Defined.

(** The replaying scanner hands out letters only. *)
Lemma trace_letter_payload : @letter_payload TraceTok.t TraceTok.ops.
Proof.
  intros [program [|[tok data str peek fin] rest]]; cbn.
  - discriminate.
  - unfold TraceTok.current_token, TraceTok.get_token_data. cbn.
    intros ->. destruct (decide (LETTER = LETTER)); [|contradiction].
    eexists. split; [reflexivity|].
    destruct data as [c|n]; cbn; [|reflexivity].
    destruct (is_alpha c) eqn:E; [exact E|reflexivity].
Qed.

(** After [LET B = 4] the store still has 26 entries and [b] holds 4; in a
    fresh interpreter [c] reads as 0. *)
Lemma variable_store_invariant_witness :
  size (variables_ (state_of (run 20 (fresh Samples.let_b)))) = 26%nat
  /\ variables_ (state_of (run 20 (fresh Samples.let_b))) !! "b"%char = Some 4
  /\ factor 3 (fresh Samples.read_c) = Ok 0 (step (fresh Samples.read_c)).
Proof.
  destruct (@variable_store_invariant TraceTok.t TraceTok.ops
              trace_letter_payload) as (Hnew & Hrun & _ & Hread & _).
  split; [exact (proj2 (Hrun 20%nat (TraceTok.load Samples.let_b)))|].
  split; [vm_compute; reflexivity|].
  assert (Hok : store_ok (fresh Samples.read_c))
    by apply SUBARUU_new_store_ok.
  assert (Htok : token_at (fresh Samples.read_c) = LETTER) by reflexivity.
  destruct (Hread 3%nat (fresh Samples.read_c) Hok Htok)
    as (c & v & Hc & Hv & Hf & Hzero).
  apply Hzero. injection Hc as <-.
  apply (proj2 (Hnew (TraceTok.load Samples.read_c))).
Defined.

(** Against C9 as stated: [run] on the one-line program [GOTO 15] reaches
    the [GOTO] with an empty index, and what [goto_statement] does there is
    not what it would do if it rebuilt the index first. *)
Lemma goto_does_not_rebuild_empty_index :
  line_positions_ (indexed Samples.goto_fifteen) = ∅
  /\ goto_statement 9 (indexed Samples.goto_fifteen)
     <> goto_statement_rebuilding 9 (indexed Samples.goto_fifteen).
Proof.
  split; [vm_compute; reflexivity|].
  intros H.
  apply (f_equal (fun r => TraceTok.pending (tokenizer_ (state_of r)))) in H.
  vm_compute in H. discriminate H.
Qed.

(** [GOTO] leaves an empty index empty; [jump_linenum] leaves a non-empty
    index alone. *)
Lemma line_index_built_once_by_run_witness :
  line_positions_ (indexed Samples.goto_fifteen) = ∅
  /\ line_positions_ (state_of (goto_statement 9 (indexed Samples.goto_fifteen)))
     = ∅
  /\ line_positions_ (indexed Samples.if_true) <> ∅
  /\ line_positions_ (state_of (jump_linenum 9 30 (indexed Samples.if_true)))
     = line_positions_ (indexed Samples.if_true).
Proof.
  destruct (@line_index_built_once_by_run TraceTok.t TraceTok.ops)
    as (_ & Hstmt & _ & Hlazy).
  assert (He : line_positions_ (indexed Samples.goto_fifteen) = ∅)
    by (vm_compute; reflexivity).
  assert (Hne : line_positions_ (indexed Samples.if_true) <> ∅).
  { intros H. apply (f_equal (fun m => m !! 30)) in H. vm_compute in H.
    discriminate H. }
  split; [exact He|]. split.
  - rewrite (proj1 (Hstmt 9%nat (indexed Samples.goto_fifteen))). exact He.
  - split; [exact Hne|].
    exact (proj1 (Hlazy 9%nat 30 (indexed Samples.if_true) Hne)).
Defined.

(** ** Further sample runs *)

(** [- 5] does not start an expression. *)
Lemma factor_rejects_other_tokens_witness :
  token_at (step (fresh Samples.print_minus)) <> NUMBER
  /\ token_at (step (fresh Samples.print_minus)) <> LETTER
  /\ token_at (step (fresh Samples.print_minus)) <> LEFT_PAREN
  /\ expression 3 (step (fresh Samples.print_minus))
     = Throw "Syntax Error: Unexpected token in factor: MINUS"
         (failed "Syntax Error: Unexpected token in factor: MINUS"
            (step (fresh Samples.print_minus))).
Proof.
  assert (H1 : token_at (step (fresh Samples.print_minus)) <> NUMBER)
    by discriminate.
  assert (H2 : token_at (step (fresh Samples.print_minus)) <> LETTER)
    by discriminate.
  assert (H3 : token_at (step (fresh Samples.print_minus)) <> LEFT_PAREN)
    by discriminate.
  split; [exact H1|]. split; [exact H2|]. split; [exact H3|].
  exact (proj1 (proj2 (proj2 (factor_rejects_other_tokens 2
           (step (fresh Samples.print_minus)) H1 H2 H3)))).
Defined.

(** [( 4 )] is 4. *)
Lemma factor_parenthesis_witness :
  token_at (fresh Samples.parenthesised) = LEFT_PAREN
  /\ expression 3 (step (fresh Samples.parenthesised))
     = Ok 4 (step (step (fresh Samples.parenthesised)))
  /\ factor 3 (fresh Samples.parenthesised)
     = Ok 4 (step (step (step (fresh Samples.parenthesised)))).
Proof.
  assert (H1 : token_at (fresh Samples.parenthesised) = LEFT_PAREN)
    by reflexivity.
  assert (H2 : expression 3 (step (fresh Samples.parenthesised))
               = Ok 4 (step (step (fresh Samples.parenthesised))))
    by (vm_compute; reflexivity).
  assert (H3 : token_at (step (step (fresh Samples.parenthesised)))
               = RIGHT_PAREN) by reflexivity.
  split; [exact H1|]. split; [exact H2|].
  exact (proj1 (factor_parenthesis 3 _ _ 4 H1 H2) H3).
Defined.

(** [2 + 3 * 4] is 14. *)
Lemma product_binds_tighter_than_sum_witness :
  expression 3 (fresh Samples.sum_product)
  = Ok 14 (moved 5 (fresh Samples.sum_product)).
Proof.
  assert (H0 : token_at (fresh Samples.sum_product) = NUMBER) by reflexivity.
  assert (H1 : token_at (moved 1 (fresh Samples.sum_product)) = PLUS)
    by reflexivity.
  assert (H2 : token_at (moved 2 (fresh Samples.sum_product)) = NUMBER)
    by reflexivity.
  assert (H3 : token_at (moved 3 (fresh Samples.sum_product)) = ASTERISK)
    by reflexivity.
  assert (H4 : token_at (moved 4 (fresh Samples.sum_product)) = NUMBER)
    by reflexivity.
  assert (H5 : is_operator (token_at (moved 5 (fresh Samples.sum_product)))
               = false) by reflexivity.
  exact (product_binds_tighter_than_sum 0 (fresh Samples.sum_product)
           H0 H1 H2 H3 H4 H5).
Defined.

(** [9 - 4 - 3] is 2. *)
Lemma subtraction_associates_left_witness :
  expression 4 (fresh Samples.difference_chain)
  = Ok 2 (moved 5 (fresh Samples.difference_chain)).
Proof.
  assert (H0 : token_at (fresh Samples.difference_chain) = NUMBER)
    by reflexivity.
  assert (H1 : token_at (moved 1 (fresh Samples.difference_chain)) = MINUS)
    by reflexivity.
  assert (H2 : token_at (moved 2 (fresh Samples.difference_chain)) = NUMBER)
    by reflexivity.
  assert (H3 : token_at (moved 3 (fresh Samples.difference_chain)) = MINUS)
    by reflexivity.
  assert (H4 : token_at (moved 4 (fresh Samples.difference_chain)) = NUMBER)
    by reflexivity.
  assert (H5 : is_operator
                 (token_at (moved 5 (fresh Samples.difference_chain)))
               = false) by reflexivity.
  exact (subtraction_associates_left 0 (fresh Samples.difference_chain)
           H0 H1 H2 H3 H4 H5).
Defined.

(** [LET B = 4] writes nothing to the output. *)
Lemma only_print_writes_output_witness :
  token_at (fresh Samples.let_b) <> PRINT
  /\ cout (state_of (statement 5 (fresh Samples.let_b))) = [].
Proof.
  assert (H : token_at (fresh Samples.let_b) <> PRINT) by discriminate.
  split; [exact H|].
  exact (only_print_writes_output 5 (fresh Samples.let_b) H).
Defined.

(** After [B = 4], [b] reads as 4. *)
Lemma assignment_then_read_witness :
  token_at (step (fresh Samples.let_b)) = LETTER
  /\ Tokenizer.get_token_data (tokenizer_ (step (fresh Samples.let_b)))
     = DChar "B"
  /\ token_at (step (step (fresh Samples.let_b))) = EQUAL
  /\ expression 3 (step (step (step (fresh Samples.let_b))))
     = Ok 4 (step (step (step (step (fresh Samples.let_b)))))
  /\ exists s',
      let_statement 3 (step (fresh Samples.let_b)) = Ok tt s'
      /\ variables_ s' !! "b"%char = Some 4.
Proof.
  assert (H1 : token_at (step (fresh Samples.let_b)) = LETTER) by reflexivity.
  assert (H2 : Tokenizer.get_token_data
                 (tokenizer_ (step (fresh Samples.let_b))) = DChar "B")
    by reflexivity.
  assert (H3 : token_at (step (step (fresh Samples.let_b))) = EQUAL)
    by reflexivity.
  assert (H4 : expression 3 (step (step (step (fresh Samples.let_b))))
               = Ok 4 (step (step (step (step (fresh Samples.let_b))))))
    by (vm_compute; reflexivity).
  split; [exact H1|]. split; [exact H2|]. split; [exact H3|].
  split; [exact H4|].
  destruct (assignment_then_read 3 _ _ "B" 4 H1 H2 H3 H4)
    as (s' & Hrun & Hstore & _).
  exists s'. split; [exact Hrun|]. rewrite Hstore. reflexivity.
Defined.

(** [LET B 4] fails and leaves the store alone. *)
Lemma failed_assignment_keeps_store_witness :
  let_statement 3 (step (fresh Samples.let_without_equals))
  = Throw "*subaruu.cpp: unexpected `NUMBER` expected `EQUAL`"
      (failed "*subaruu.cpp: unexpected `NUMBER` expected `EQUAL`"
         (step (step (fresh Samples.let_without_equals))))
  /\ variables_ (failed "*subaruu.cpp: unexpected `NUMBER` expected `EQUAL`"
                   (step (step (fresh Samples.let_without_equals))))
     = variables_ (step (fresh Samples.let_without_equals)).
Proof.
  assert (H : let_statement 3 (step (fresh Samples.let_without_equals))
              = Throw "*subaruu.cpp: unexpected `NUMBER` expected `EQUAL`"
                  (failed "*subaruu.cpp: unexpected `NUMBER` expected `EQUAL`"
                     (step (step (fresh Samples.let_without_equals)))))
    by (vm_compute; reflexivity).
  split; [exact H|].
  exact (failed_assignment_keeps_store 3 _ _ _ H).
Defined.

(** [LET B = 4] and [B = 4]. *)
Lemma let_keyword_is_optional_witness :
  token_at (fresh Samples.let_b) = LET
  /\ token_at (step (fresh Samples.let_b)) = LETTER
  /\ statement 5 (fresh Samples.let_b)
     = statement 5 (step (fresh Samples.let_b)).
Proof.
  assert (H1 : token_at (fresh Samples.let_b) = LET) by reflexivity.
  assert (H2 : token_at (step (fresh Samples.let_b)) = LETTER) by reflexivity.
  split; [exact H1|]. split; [exact H2|].
  exact (let_keyword_is_optional 5 (fresh Samples.let_b) H1 H2).
Defined.

(** The index of a three-line program; [GOTO 15] cannot succeed. *)
Lemma line_index_holds_multiples_of_ten_witness :
  build_line_map 9 (fresh Samples.goto_fifteen)
  = Ok tt (indexed Samples.goto_fifteen)
  /\ exists msg s',
      goto_statement 9 (indexed Samples.goto_fifteen) = Throw msg s'.
Proof.
  assert (H : build_line_map 9 (fresh Samples.goto_fifteen)
              = Ok tt (indexed Samples.goto_fifteen))
    by (vm_compute; reflexivity).
  split; [exact H|].
  destruct (proj2 (line_index_holds_multiples_of_ten 9 _ _ H) 9%nat
              (indexed Samples.goto_fifteen) eq_refl)
    as (msg & s' & Hthrow & _).
  - right. vm_compute. discriminate.
  - exists msg, s'. exact Hthrow.
Defined.

(** The replaying scanner resets to the start of its program. *)
Lemma trace_reset_is_absolute : @reset_is_absolute TraceTok.t TraceTok.ops.
Proof. intros [program pending]. split; reflexivity. Qed.

(** Building the index of the three-line program twice. *)
Lemma build_line_map_is_idempotent_witness :
  build_line_map 20 (fresh Samples.if_true)
  = Ok tt (state_of (build_line_map 20 (fresh Samples.if_true)))
  /\ build_line_map 20 (state_of (build_line_map 20 (fresh Samples.if_true)))
     = Ok tt (state_of (build_line_map 20 (fresh Samples.if_true))).
Proof.
  assert (H : build_line_map 20 (fresh Samples.if_true)
              = Ok tt (state_of (build_line_map 20 (fresh Samples.if_true))))
    by (vm_compute; reflexivity).
  split; [exact H|].
  exact (build_line_map_is_idempotent 20 _ _ trace_reset_is_absolute H).
Defined.

(** Looking for line 30 in the three-line program. *)
Lemma find_target_line_outcome_witness :
  find_target_line 9 30 (fresh Samples.if_true)
  = Ok true (moved 11 (fresh Samples.if_true))
  /\ exists k,
      moved 11 (fresh Samples.if_true) = moved (S k) (fresh Samples.if_true)
      /\ Tokenizer.get_num (nth_token k (tokenizer_ (fresh Samples.if_true)))
         = 30.
Proof.
  assert (H : find_target_line 9 30 (fresh Samples.if_true)
              = Ok true (moved 11 (fresh Samples.if_true)))
    by (vm_compute; reflexivity).
  split; [exact H|].
  destruct (proj1 (proj2 (find_target_line_outcome 9 30 _ _ true H)) eq_refl)
    as (k & Hk & _ & Hnum).
  exists k. split; assumption.
Defined.

(** [GOTO 10] with a line 10 in the program. *)
Lemma goto_statement_lands_on_target_witness :
  goto_statement 9 (indexed Samples.goto_then_ten)
  = Ok tt (moved 4 (indexed Samples.goto_then_ten))
  /\ is_Some (line_positions_ (indexed Samples.goto_then_ten) !! 10).
Proof.
  assert (H : goto_statement 9 (indexed Samples.goto_then_ten)
              = Ok tt (moved 4 (indexed Samples.goto_then_ten)))
    by (vm_compute; reflexivity).
  split; [exact H|].
  exact (proj1 (proj2 (proj2 (proj2
           (goto_statement_lands_on_target 9 _ _ H))))).
Defined.

(** [GOTO 10] at the very end of the file. *)
Lemma goto_requires_end_of_line_witness :
  token_at (fresh Samples.goto_at_end) = GOTO
  /\ token_at (moved 1 (fresh Samples.goto_at_end)) = NUMBER
  /\ token_at (moved 2 (fresh Samples.goto_at_end)) <> EOL
  /\ goto_statement 9 (fresh Samples.goto_at_end)
     = Throw "*subaruu.cpp: unexpected `EOF` expected `EOL`"
         (failed "*subaruu.cpp: unexpected `EOF` expected `EOL`"
            (moved 2 (fresh Samples.goto_at_end))).
Proof.
  assert (H1 : token_at (fresh Samples.goto_at_end) = GOTO) by reflexivity.
  assert (H2 : token_at (moved 1 (fresh Samples.goto_at_end)) = NUMBER)
    by reflexivity.
  assert (H3 : token_at (moved 2 (fresh Samples.goto_at_end)) <> EOL)
    by discriminate.
  split; [exact H1|]. split; [exact H2|]. split; [exact H3|].
  destruct (goto_requires_end_of_line 9 _ H1 H2 H3) as (msg & Hthrow & ->).
  exact Hthrow.
Defined.

(** The run of [PRINT "HI" 5] ends finished. *)
Lemma run_returns_finished_witness :
  run 20 (fresh Samples.print_hi_5)
  = Ok tt (state_of (run 20 (fresh Samples.print_hi_5)))
  /\ execution_finished_ (state_of (run 20 (fresh Samples.print_hi_5))) = true.
Proof.
  assert (H : run 20 (fresh Samples.print_hi_5)
              = Ok tt (state_of (run 20 (fresh Samples.print_hi_5))))
    by (vm_compute; reflexivity).
  split; [exact H|].
  exact (proj1 (run_returns_finished 20 _ _ H)).
Defined.

(** Searching for line 30, the loop passes line 10 without running it. *)
Lemma search_mode_skips_without_executing_witness :
  skip_to_line_ (with_skip true 30 (indexed Samples.if_true)) = true
  /\ Tokenizer.finished (tokenizer_ (with_skip true 30 (indexed Samples.if_true)))
     = false
  /\ Tokenizer.get_num (tokenizer_ (with_skip true 30 (indexed Samples.if_true)))
     <> target_line_ (with_skip true 30 (indexed Samples.if_true))
  /\ cout (state_of (run_iteration 9
                       (with_skip true 30 (indexed Samples.if_true)))) = [].
Proof.
  assert (H1 : skip_to_line_ (with_skip true 30 (indexed Samples.if_true))
               = true) by reflexivity.
  assert (H2 : Tokenizer.finished
                 (tokenizer_ (with_skip true 30 (indexed Samples.if_true)))
               = false) by (vm_compute; reflexivity).
  assert (H3 : Tokenizer.get_num
                 (tokenizer_ (with_skip true 30 (indexed Samples.if_true)))
               <> target_line_ (with_skip true 30 (indexed Samples.if_true)))
    by (vm_compute; discriminate).
  split; [exact H1|]. split; [exact H2|]. split; [exact H3|].
  destruct (proj1 (search_mode_skips_without_executing 9 _ H1 H2
                     (or_intror H3))) as (_ & _ & _ & _ & _ & Hout).
  rewrite Hout. vm_compute. reflexivity.
Defined.

(** The 20 of [3 20] passes both tests. *)
Lemma is_line_number_is_stricter_witness :
  is_line_number (tokenizer_ (step (fresh Samples.value_then_line))) = true
  /\ is_valid_line_number
       (tokenizer_ (step (fresh Samples.value_then_line))) 20 = true.
Proof.
  assert (H : is_line_number
                (tokenizer_ (step (fresh Samples.value_then_line))) = true)
    by reflexivity.
  split; [exact H|].
  exact (proj2 (proj1 (is_line_number_is_stricter _) H)).
Defined.

(** [PRINT "HI" 5] ends on an end of line and consumes it. *)
Lemma print_statement_end_of_statement_witness :
  token_at (fresh Samples.print_hi_5) = PRINT
  /\ prints (expression 3) (step (fresh Samples.print_hi_5))
       [IString "HI"; IValue 5]
       (step (step (step (fresh Samples.print_hi_5))))
  /\ token_at (step (step (step (fresh Samples.print_hi_5)))) = EOL
  /\ exists s'',
      print_statement 3 (fresh Samples.print_hi_5) = Ok tt s''
      /\ token_at s'' = EOF_TOKEN
      /\ execution_finished_ s'' = false.
Proof.
  assert (Htok : token_at (fresh Samples.print_hi_5) = PRINT) by reflexivity.
  assert (Hitems : prints (expression 3) (step (fresh Samples.print_hi_5))
                     [IString "HI"; IValue 5]
                     (step (step (step (fresh Samples.print_hi_5))))).
  { refine (prints_string (expression 3)
              (step (fresh Samples.print_hi_5)) [IValue 5] _ _ _ _);
      [reflexivity|reflexivity|].
    refine (prints_value (expression 3)
              (step (step (fresh Samples.print_hi_5))) 5
              (step (step (step (fresh Samples.print_hi_5)))) [] _ _ _ _ _);
      [reflexivity|reflexivity|vm_compute; reflexivity|].
    apply prints_stop. reflexivity. }
  assert (Hlen : (length [IString "HI"; IValue 5] < 3)%nat) by (cbn; lia).
  assert (Hend : token_at (step (step (step (fresh Samples.print_hi_5))))
                 = EOL) by reflexivity.
  split; [exact Htok|]. split; [exact Hitems|]. split; [exact Hend|].
  destruct (print_statement_end_of_statement 3 _ _ _ Htok Hitems Hlen
              (or_intror Hend)) as (s'' & Hrun & Hscan & Hfin & _).
  exists s''. split; [exact Hrun|]. split.
  - unfold token_at. rewrite Hscan. reflexivity.
  - rewrite Hfin. reflexivity.
Defined.

(** [IF 1 THEN PRINT] *)
Lemma if_statement_needs_line_number_witness :
  token_at (fresh Samples.if_without_number) = IF
  /\ relation 3 (step (fresh Samples.if_without_number))
     = Ok 1 (step (step (fresh Samples.if_without_number)))
  /\ if_statement 3 (fresh Samples.if_without_number)
     = Throw "Syntax Error: Expected line number after THEN"
         (failed "Syntax Error: Expected line number after THEN"
            (step (step (step (fresh Samples.if_without_number))))).
Proof.
  assert (H1 : token_at (fresh Samples.if_without_number) = IF)
    by reflexivity.
  assert (H2 : relation 3 (step (fresh Samples.if_without_number))
               = Ok 1 (step (step (fresh Samples.if_without_number))))
    by (vm_compute; reflexivity).
  assert (H3 : token_at (step (step (fresh Samples.if_without_number)))
               = THEN) by reflexivity.
  assert (H4 : token_at (step (step (step (fresh Samples.if_without_number))))
               <> NUMBER) by discriminate.
  split; [exact H1|]. split; [exact H2|].
  exact (if_statement_needs_line_number 3 _ _ 1 H1 H2 H3 H4).
Defined.

(** A line that holds only [10]. *)
Lemma unrecognized_statement_is_error_witness :
  starts_statement (token_at (step (fresh Samples.label_only))) = false
  /\ line_statement 3 (fresh Samples.label_only)
     = Throw unrecognized
         (failed unrecognized (step (fresh Samples.label_only))).
Proof.
  assert (H : starts_statement (token_at (step (fresh Samples.label_only)))
              = false) by reflexivity.
  split; [exact H|].
  exact (proj2 (unrecognized_statement_is_error 2 _ H)
           (fresh Samples.label_only) eq_refl eq_refl).
Defined.
